(** * AgentX: generated-code extraction, execution and agent persistence

  A shallow embedding of the helper functions and button handlers of the
  AgentX Streamlit pages, together with the properties their design
  document states about them.

  Python text is modelled as a list of Unicode code points, dictionaries
  as finite maps, and a handler as a function from the state it reads to
  the state it leaves behind plus the list of events it produced. *)

From Stdlib Require Import NArith ZArith Lia Ascii String DecimalString.
From stdpp Require Import base option list strings gmap.

Open Scope N_scope.

(** ** Python strings *)

Module Py.

(** A [str] is a sequence of code points. *)
Definition str := list N.

(** Literals of the source, written as Rocq strings (ASCII only). *)
Fixpoint lit (s : string) : str :=
  match s with
  | EmptyString => []
  | String a s' => N_of_ascii a :: lit s'
  end.
Arguments lit : simpl never.

(** Code points at which [str.splitlines] cuts. *)
Definition is_linebreak (c : N) : bool :=
  ((10 <=? c) && (c <=? 13)) || ((28 <=? c) && (c <=? 30))
  || (c =? 133) || (c =? 8232) || (c =? 8233).

(** Code points removed by [str.strip] without argument. *)
Definition is_space (c : N) : bool :=
  ((9 <=? c) && (c <=? 13)) || ((28 <=? c) && (c <=? 32))
  || (c =? 133) || (c =? 160) || (c =? 5760)
  || ((8192 <=? c) && (c <=? 8202))
  || (c =? 8232) || (c =? 8233) || (c =? 8239) || (c =? 8287)
  || (c =? 12288).

(** [str.splitlines()]: [cur] holds, in reverse, the characters read
    since the last line boundary.  A carriage return directly followed
    by a line feed is one boundary; a final boundary opens no line. *)
Fixpoint splitlines_from (cur s : str) : list str :=
  match s with
  | [] => match cur with [] => [] | _ :: _ => [rev cur] end
  | c :: s' =>
      if is_linebreak c then
        rev cur ::
          match s' with
          | c2 :: s'' =>
              if (c =? 13) && (c2 =? 10) then splitlines_from [] s''
              else splitlines_from [] s'
          | [] => []
          end
      else splitlines_from (c :: cur) s'
  end.

Definition splitlines (s : str) : list str := splitlines_from [] s.

Fixpoint lstrip (s : str) : str :=
  match s with
  | [] => []
  | c :: s' => if is_space c then lstrip s' else s
  end.

Definition rstrip (s : str) : str := rev (lstrip (rev s)).

Definition strip (s : str) : str := rstrip (lstrip s).

Fixpoint startswith (s prefix : str) : bool :=
  match prefix, s with
  | [], _ => true
  | _ :: _, [] => false
  | p :: prefix', c :: s' => (c =? p) && startswith s' prefix'
  end.

(** [sub in s] *)
Fixpoint contains (s sub : str) : bool :=
  startswith s sub ||
  match s with
  | [] => false
  | _ :: s' => contains s' sub
  end.

(** [sep.join(parts)] *)
Fixpoint join (sep : str) (parts : list str) : str :=
  match parts with
  | [] => []
  | [p] => p
  | p :: rest => p ++ sep ++ join sep rest
  end.

Definition eqb (a b : str) : bool := bool_decide (a = b).

(** The character class [A-Za-z0-9_-] of the two [sanitize_filename]. *)
Definition in_class (c : N) : bool :=
  ((65 <=? c) && (c <=? 90)) || ((97 <=? c) && (c <=? 122))
  || ((48 <=? c) && (c <=? 57)) || (c =? 95) || (c =? 45).

(** [re.sub(r"[^A-Za-z0-9_-]", "_", name)]: each character outside the
    class is one match and becomes one underscore. *)
Definition replaced (c : N) : N := if in_class c then c else 95.

Definition re_sub_outside_class (name : str) : str := map replaced name.

(** The newline used by every ["\n".join(...)] of the pages. *)
Definition nl : str := [10].

(** [lines[a:b]] for [0 <= a]. *)
Definition slice {A} (l : list A) (a b : nat) : list A :=
  take (b - a) (drop a l).

End Py.

(** ** Values, exceptions and the handler monad *)

Module Runtime.
Import Py.

(** The Python values the pages look at after a snippet ran. *)
#[warnings="-register-all"] Inductive value : Type :=
| VNone
| VBool (b : bool)
| VInt (z : Z)
| VStr (s : str)
| VList (items : list value)
| VTuple (items : list value)
| VObject (id : N)   (* default truthiness: a Figure, a module, a cursor *)
| VFrame (id : N).   (* a DataFrame or ndarray: [bool()] raises *)

(** A raised exception: whether [except Exception] matches it, the
    text its [__str__] returns, and, for a class whose [__str__] raises
    instead of returning, what it raises.  A snippet can define such a
    class; the exceptions of the libraries the pages call (the file
    system, [subprocess], [psycopg2], the model client) come with the
    built-in [__str__], which returns. *)
#[warnings="-register-all"] Inductive exn : Type := Build_exn {
  exn_is_Exception : bool;
  exn_str : str;
  exn_str_raises : option exn
}.

Definition ValueError (msg : str) : exn :=
  {| exn_is_Exception := true; exn_str := msg; exn_str_raises := None |}.
Definition AttributeError (msg : str) : exn :=
  {| exn_is_Exception := true; exn_str := msg; exn_str_raises := None |}.
Definition OSError (msg : str) : exn :=
  {| exn_is_Exception := true; exn_str := msg; exn_str_raises := None |}.
Definition RuntimeError (msg : str) : exn :=
  {| exn_is_Exception := true; exn_str := msg; exn_str_raises := None |}.
Definition KeyError (msg : str) : exn :=
  {| exn_is_Exception := true; exn_str := msg; exn_str_raises := None |}.
(** [SystemExit] and [KeyboardInterrupt] derive from [BaseException]
    only. *)
Definition SystemExit : exn :=
  {| exn_is_Exception := false; exn_str := []; exn_str_raises := None |}.
Definition KeyboardInterrupt : exn :=
  {| exn_is_Exception := false; exn_str := []; exn_str_raises := None |}.

Inductive res (A : Type) : Type :=
| Ret (a : A)
| Raise (e : exn).
Arguments Ret {A} a.
Arguments Raise {A} e.

(** [str(e)], also what [f"{e}"] evaluates: the text, or the exception
    the class's own [__str__] raises.  The pages that run a snippet
    format whatever the snippet raised, so they go through [py_str];
    where only a library can have raised, the text is [exn_str e]. *)
Definition py_str (e : exn) : res str :=
  match exn_str_raises e with
  | Some fault => Raise fault
  | None => Ret (exn_str e)
  end.

(** What a handler shows or does, in order. *)
Inductive event : Type :=
| st_error (msg : str)
| st_warning (msg : str)
| st_info (msg : str)
| st_success (msg : str)
| st_subheader (msg : str)
| st_code (body : str)
| st_write (v : value)
| st_dataframe (v : value)
| st_pyplot (v : value)
| st_image (v : value)
| exec_call (code : str).

(** A handler over a state [S]: the state it leaves, the events it
    produced, and its result or the exception that escaped it. *)
Definition M (S A : Type) : Type := S -> S * list event * res A.

Definition ret {S A} (a : A) : M S A := fun s => (s, [], Ret a).
Definition raise {S A} (e : exn) : M S A := fun s => (s, [], Raise e).
Definition emit {S} (ev : event) : M S unit := fun s => (s, [ev], Ret tt).
Definition lift {S A} (r : res A) : M S A := fun s => (s, [], r).

Definition bind {S A B} (m : M S A) (k : A -> M S B) : M S B :=
  fun s =>
    match m s with
    | (s1, log1, Ret a) =>
        let '(s2, log2, r) := k a s1 in (s2, log1 ++ log2, r)
    | (s1, log1, Raise e) => (s1, log1, Raise e)
    end.

(** [try: body / except Exception as e: handler e] *)
Definition try_except {S A} (body : M S A) (handler : exn -> M S A) : M S A :=
  fun s =>
    match body s with
    | (s1, log1, Raise e) =>
        if exn_is_Exception e
        then let '(s2, log2, r) := handler e s1 in (s2, log1 ++ log2, r)
        else (s1, log1, Raise e)
    | done => done
    end.

Definition get {S} : M S S := fun s => (s, [], Ret s).
Definition put {S} (s : S) : M S unit := fun _ => (s, [], Ret tt).
Definition modify {S} (f : S -> S) : M S unit := fun s => (f s, [], Ret tt).

Declare Scope handler_scope.
Delimit Scope handler_scope with handler.
Notation "'do' x <- m ; k" := (bind m (fun x => k))
  (at level 10, x name, m at level 100, k at level 200) : handler_scope.
Notation "m >> k" := (bind m (fun _ => k))
  (at level 60, right associativity) : handler_scope.

(** [bool(v)] *)
Definition truth (v : value) : res bool :=
  match v with
  | VNone => Ret false
  | VBool b => Ret b
  | VInt z => Ret (negb (z =? 0)%Z)
  | VStr s => Ret (negb (eqb s []))
  | VList items | VTuple items =>
      Ret (match items with [] => false | _ :: _ => true end)
  | VObject _ => Ret true
  | VFrame _ =>
      Raise (ValueError (lit "The truth value of an array or DataFrame is ambiguous."))
  end.

(** [a or b], with [b] already evaluated (both operands of the pages
    are dictionary lookups without effect). *)
Definition py_or (a b : value) : res value :=
  match truth a with
  | Ret true => Ret a
  | Ret false => Ret b
  | Raise e => Raise e
  end.

(** [d.get(key)] and [d.get(key, None)] *)
Definition dict_get (d : gmap str value) (key : str) : value :=
  default VNone (d !! key).

(** [str(n)] for a length. *)
Definition str_of_nat (n : nat) : str :=
  lit (DecimalString.NilEmpty.string_of_uint (Nat.to_uint n)).

(** The snippets a handler passed to [exec], in order. *)
Definition exec_calls (log : list event) : list str :=
  omap (fun ev => match ev with exec_call code => Some code | _ => None end) log.

(** The interpreter behind [exec(code, globals, locals)], over a world
    [W] of external resources the snippet can reach: the world and the
    two namespaces after the run, or the exception the snippet raised. *)
Record interpreter (W : Type) : Type := {
  py_exec : str -> gmap str value -> gmap str value -> W ->
            W * res (gmap str value * gmap str value)
}.
Arguments py_exec {W} _ _ _ _ _.

(** [exec] as a handler step: the call is recorded, then interpreted. *)
Definition exec {W} (I : interpreter W) (code : str)
    (g l : gmap str value) : M W (gmap str value * gmap str value) :=
  fun w => let '(w', r) := py_exec I code g l w in (w', [exec_call code], r).

End Runtime.

(** ** The visualisation page, [agents/Visualisation.py] *)

Module Visualisation.
Import Py Runtime.
Local Open Scope handler_scope.

(** [line.strip().startswith("```")] *)
Definition is_fence (line : str) : bool :=
  startswith (strip line) (lit "```").

(** A line that is no fence marker line. *)
Definition plain (line : str) : Prop := is_fence line = false.

(** The loop
    [for line in ...: if fence: break; inner.append(line)]. *)
Fixpoint collect_inner (lines : list str) : list str :=
  match lines with
  | [] => []
  | line :: rest => if is_fence line then [] else line :: collect_inner rest
  end.

(** The loop that looks for the first fence, counting from [i]. *)
Fixpoint find_start (i : nat) (lines : list str) : option nat :=
  match lines with
  | [] => None
  | line :: rest => if is_fence line then Some i else find_start (S i) rest
  end.

Definition extract_code (text : str) : str :=
  match text with
  | [] => []
  | _ :: _ =>
      let lines := splitlines text in
      if match lines with [] => false | first :: _ => is_fence first end
      then join nl (collect_inner (drop 1 lines))
      else
        match find_start 0 lines with
        | Some start => join nl (collect_inner (drop (S start) lines))
        | None => text
        end
  end.

(** The names bound in [exec_globals]; each is a module object. *)
Definition exec_globals : gmap str value :=
  {[ lit "plt" := VObject 1; lit "sns" := VObject 2; lit "pd" := VObject 3;
     lit "np" := VObject 4; lit "patches" := VObject 5;
     lit "matplotlib" := VObject 6 ]}.

Section Executor.
Context {W : Type} (I : interpreter W).
(** [textwrap.dedent] of the standard library. *)
Variable dedent : str -> str.
(** [fig.savefig(buf, format="png", ...)]: the bytes written, or the
    exception of an object that is no figure. *)
Variable savefig : value -> res value.
(** [st.pyplot(fig)] may reject the object. *)
Variable pyplot : value -> res unit.

(** Returns [(fig or None, error message or None, executed code)]. *)
Definition run_generated_code (code : str) (df_local : value)
  : M W (value * option str * str) :=
  let code := dedent code in
  let exec_locals : gmap str value := {[ lit "df" := df_local ]} in
  do r <- try_except
            (do ns <- exec I code exec_globals exec_locals; ret (inl ns))
            (fun e => do msg <- lift (py_str e); ret (inr msg));
  match r with
  | inr msg => ret (VNone, Some msg, code)
  | inl (exec_globals', exec_locals') =>
      do fig <- lift (py_or (dict_get exec_locals' (lit "fig"))
                            (dict_get exec_globals' (lit "fig")));
      ret (fig, None, code)
  end.

(** [if err:] on an [Optional[str]]. *)
Definition err_truthy (err : option str) : bool :=
  match err with
  | None | Some [] => false
  | Some (_ :: _) => true
  end.

(** The body of the "Generate Visualization" button once a prompt and a
    DataFrame are present; [response] is the model's answer, or the
    exception of the call. *)
Definition generate_visualization (response : res str) (df : value) : M W unit :=
  emit (st_info (lit "Requesting generated code from model...")) >>
  try_except
    (do code_text <- lift response;
     let code := extract_code code_text in
     emit (st_code code) >>
     do out <- run_generated_code code df;
     let '(fig, err, executed_code) := out in
     if err_truthy err then
       emit (st_error (lit "Error executing generated code: " ++ default [] err)) >>
       emit (st_subheader (lit "Generated code (for debugging)")) >>
       emit (st_code executed_code)
     else
       match fig with
       | VNone =>
           emit (st_error (lit "Generated code did not produce a `fig` object named 'fig'.")) >>
           emit (st_subheader (lit "Generated code")) >>
           emit (st_code executed_code)
       | _ =>
           emit (st_success (lit "Visualization generated.")) >>
           try_except
             (lift (pyplot fig) >> emit (st_pyplot fig))
             (fun _ => do buf <- lift (savefig fig); emit (st_image buf))
       end)
    (fun e =>
       do msg <- lift (py_str e);
       emit (st_error (lit "Error calling model: " ++ msg))).

End Executor.

End Visualisation.

(** ** The workflow planner page, [pages/1_Workflow_Planner.py] *)

Module WorkflowPlanner.
Import Py Runtime.
Local Open Scope handler_scope.

(** The loop that strips a leading fence: it stops at the first line
    whose stripped form is exactly the closing marker. *)
Fixpoint collect_inner (lines : list str) : list str :=
  match lines with
  | [] => []
  | line :: rest =>
      if eqb (strip line) (lit "```") then [] else line :: collect_inner rest
  end.

Definition code_to_exec (code : str) : str :=
  let code_lines := splitlines code in
  if (2 <=? length code_lines)%nat
     && match code_lines with
        | [] => false
        | first :: _ => startswith (strip first) (lit "```")
        end
  then join nl (collect_inner (drop 1 code_lines))
  else code.

Section Handler.
Context {W : Type} (I : interpreter W).
Variable savefig : value -> res value.

(** The body of the "Generate Workflow Diagram" button; [response] is
    the outcome of the model call and, inside it, the [text] attribute
    of the answer ([None] when the model returned no text). *)
Definition generate_workflow_diagram (response : res (option str)) : M W unit :=
  try_except
    (do text <- lift response;
     do code <- match text with
                | Some code => ret code
                | None => raise (AttributeError
                    (lit "'NoneType' object has no attribute 'splitlines'"))
                end;
     let code_to_exec := code_to_exec code in
     do ns <- try_except
                (exec I code_to_exec {[ lit "plt" := VObject 1 ]} ∅)
                (fun e =>
                   do msg <- lift (py_str e);
                   emit (st_error (lit "Error executing generated code: " ++ msg)) >>
                   emit (st_code code_to_exec) >>
                   raise e);
     let local_vars := ns.2 in
     match dict_get local_vars (lit "fig") with
     | VNone => emit (st_error (lit "No figure named 'fig' was created by generated code."))
     | fig => do buf <- lift (savefig fig); emit (st_image buf)
     end)
    (fun e =>
       do msg <- lift (py_str e);
       emit (st_error (lit "Error generating diagram: " ++ msg))).

End Handler.

End WorkflowPlanner.

(** ** The database page, [agents/SupabaseConnector.py] *)

Module SupabaseConnector.
Import Py Runtime.
Local Open Scope handler_scope.

(** [code_lines[1:-1]] *)
Definition strip_first_last (code_lines : list str) : list str :=
  slice code_lines 1 (length code_lines - 1).

Section Handler.
Context {W : Type} (I : interpreter W).
(** [traceback.format_exc()] for the exception being handled. *)
Variable format_exc : exn -> str.
(** The connection and the cursor kept in the session. *)
Variables connection cursor : value.

Definition safe_globals : gmap str value :=
  {[ lit "connection" := connection; lit "cursor" := cursor;
     lit "psycopg2" := VObject 1 ]}.

(** How the value read back is shown (lines 165 to 173). *)
Definition show_result (result : value) : M W unit :=
  match result with
  | VList [] => emit (st_info (lit "Query returned 0 rows."))
  | VList rows =>
      emit (st_success (lit "Returned " ++ str_of_nat (length rows) ++ lit " row(s).")) >>
      emit (st_dataframe result)
  | VNone => emit (st_write (VStr (lit "No 'result' variable returned.")))
  | _ => emit (st_write result)
  end.

(** The "Execution result" block that runs once the model returned
    non-empty code. *)
Definition execute_generated (code : str) : M W unit :=
  let safe_locals : gmap str value := ∅ in
  emit (st_subheader (lit "Execution result")) >>
  try_except
    (let code_lines := splitlines code in
     do ns <- (if (2 <? length code_lines)%nat
               then exec I (join nl (strip_first_last code_lines))
                      safe_globals safe_locals
               else emit (st_error
                      (lit "Generated code is too short to skip first and last lines.")) >>
                    ret (safe_globals, safe_locals));
     let safe_locals := ns.2 in
     let result := dict_get safe_locals (lit "result") in
     show_result result)
    (fun run_err =>
       emit (st_error (lit "Error while executing generated code:")) >>
       emit (st_code (format_exc run_err))).

(** The body of "Generate & Run" after its four precondition checks;
    [response] is the outcome of the model call with the [text]
    attribute of the answer.  Only the model call raises into the outer
    handler: an [Exception] of the snippet is caught inside
    [execute_generated] and shown through its traceback, which formats
    without calling the snippet's [__str__] unguarded. *)
Definition generate_and_run (response : res (option str)) : M W unit :=
  try_except
    (do text <- lift response;
     let code := strip (default [] text) in
     match code with
     | [] => emit (st_error (lit "Model did not return code."))
     | _ :: _ => execute_generated code
     end)
    (fun e =>
       emit (st_error (lit "Failed to generate code: " ++ exn_str e)) >>
       emit (st_code (format_exc e))).

End Handler.

End SupabaseConnector.

(** ** Fence extraction of the two builder pages
    [pages/2_Build_Agent.py] and [pages/4_Multi_Agent_System.py] run the
    same loop over the lines of the model's answer. *)

Module Builder.
Import Py Runtime.

Definition is_open (line : str) : bool :=
  startswith (strip line) (lit "```python").

Definition is_close (line : str) : bool :=
  eqb (strip line) (lit "```").

(** [for i, line in enumerate(lines)] with the two index variables; the
    [elif] branch ends the loop. *)
Fixpoint scan (i : nat) (lines : list str) (start end_ : option nat)
  : option nat * option nat :=
  match lines with
  | [] => (start, end_)
  | line :: rest =>
      if is_open line then scan (S i) rest (Some i) end_
      else if is_close line && bool_decide (is_Some start)
              && bool_decide (end_ = None)
      then (start, Some i)
      else scan (S i) rest start end_
  end.

(** The value of [cleaned_code] after the [if "```" in code:] block,
    starting from [cleaned_code = code]. *)
Definition extract_fenced (code : str) : str :=
  if contains code (lit "```") then
    let lines := splitlines code in
    match scan 0 lines None None with
    | (Some start, Some end_) =>
        if (start <? end_)%nat then join nl (slice lines (S start) end_)
        else code
    | _ => code
    end
  else code.

(** A block the loop accepts: an opening line and, somewhere after it, a
    closing line. *)
Definition has_block (lines : list str) : Prop :=
  exists i j opening closing,
    (i < j)%nat
    /\ lines !! i = Some opening /\ is_open opening = true
    /\ lines !! j = Some closing /\ is_close closing = true.

End Builder.

(** ** The agent builder page, [pages/2_Build_Agent.py] *)

Module BuildAgent.
Import Py Runtime.
Local Open Scope handler_scope.

Definition sanitize_filename (name : str) : str :=
  let name := strip name in
  let name := re_sub_outside_class name in
  match name with
  | [] => lit "agent"
  | _ :: _ => name
  end.

(** Lines 77 to 91: the stripped answer and the code cut out of it. *)
Definition cleaned_code (code : str) : str := Builder.extract_fenced code.

(** Lines 93 to 97: the optional [USER_GEMINI_KEY] line. *)
Definition with_key (req_ai : bool) (gemini_api_key cleaned : str) : str :=
  if req_ai && negb (eqb gemini_api_key [])
     && negb (contains cleaned (lit "USER_GEMINI_KEY"))
  then lit "USER_GEMINI_KEY = " ++ [34] ++ gemini_api_key ++ [34; 10; 10] ++ cleaned
  else cleaned.

Record session : Type := {
  generated_code : option str;
  form_agent_name : option str;
  form_overwrite : option bool;
  agent_saved : bool;
  agent_saved_path : str;
  agent_save_error : str
}.

(** The page's state: the session and the files on disk. *)
Record state : Type := { ss : session; files : gmap str str }.

Section Page.
(** [os.path.join] and the faults of the file system. *)
Variable os_path_join : str -> str -> str.
Variable open_fault : str -> option exn.
Variable replace_fault : str -> str -> option exn.

(** [with open(path, "w") as f: f.write(content)] *)
Definition write_file (path content : str) : M state unit :=
  match open_fault path with
  | Some e => raise e
  | None => modify (fun st => {| ss := ss st; files := <[path := content]> (files st) |})
  end.

(** [os.replace(src, dst)] *)
Definition os_replace (src dst : str) : M state unit :=
  match replace_fault src dst with
  | Some e => raise e
  | None =>
      do st <- get;
      match files st !! src with
      | Some content =>
          put {| ss := ss st; files := <[dst := content]> (delete src (files st)) |}
      | None => raise (OSError (lit "[Errno 2] No such file or directory"))
      end
  end.

Definition set_session (f : session -> session) : M state unit :=
  modify (fun st => {| ss := f (ss st); files := files st |}).

(** What the generate handler keeps and writes once the model answered
    with the stripped text [code]: the session copy and
    [generated_app.py].  The run hint and the launch of the written app
    in a terminal touch neither and are left out. *)
Definition keep_generated (req_ai : bool) (gemini_api_key code : str) : M state unit :=
  let cleaned := with_key req_ai gemini_api_key (cleaned_code code) in
  set_session (fun s =>
    {| generated_code := Some cleaned;
       form_agent_name := form_agent_name s; form_overwrite := form_overwrite s;
       agent_saved := agent_saved s; agent_saved_path := agent_saved_path s;
       agent_save_error := agent_save_error s |}) >>
  emit (st_subheader ([128313] ++ lit " Generated Code")) >>
  emit (st_code cleaned) >>
  try_except
    (write_file (lit "generated_app.py") cleaned >>
     emit (st_success ([9989] ++ lit " App saved as `generated_app.py`")))
    (fun e => emit (st_error ([9888; 65039] ++
                lit " Error while saving or launching generated code: " ++ exn_str e))).

Definition set_save_error (msg : str) : M state unit :=
  set_session (fun s =>
    {| generated_code := generated_code s;
       form_agent_name := form_agent_name s; form_overwrite := form_overwrite s;
       agent_saved := agent_saved s; agent_saved_path := agent_saved_path s;
       agent_save_error := msg |}).

Definition set_saved (path : str) : M state unit :=
  set_session (fun s =>
    {| generated_code := generated_code s;
       form_agent_name := form_agent_name s; form_overwrite := form_overwrite s;
       agent_saved := true; agent_saved_path := path;
       agent_save_error := [] |}).

(** The [on_click] callback of the save form; [code_to_save] and
    [agents_dir] are the variables it closes over. *)
Definition _save_agent_callback (agents_dir code_to_save : str) : M state unit :=
  do st <- get;
  let raw_name := default [] (form_agent_name (ss st)) in
  let overwrite := default false (form_overwrite (ss st)) in
  let safe_name := sanitize_filename raw_name in
  let final_path := os_path_join agents_dir (safe_name ++ lit ".py") in
  try_except
    (if bool_decide (is_Some (files st !! final_path)) && negb overwrite
     then set_save_error (lit "File exists and overwrite not confirmed.")
     else
       let tmp_path := final_path ++ lit ".tmp" in
       write_file tmp_path code_to_save >>
       os_replace tmp_path final_path >>
       set_saved (lit "./agents/" ++ safe_name ++ lit ".py"))
    (fun e => set_save_error (lit "Error saving agent: " ++ exn_str e)).

(** The path the callback decides on in the state [st]. *)
Definition final_path (agents_dir : str) (st : state) : str :=
  os_path_join agents_dir
    (sanitize_filename (default [] (form_agent_name (ss st))) ++ lit ".py").

End Page.

End BuildAgent.

(** ** The multi-agent page, [pages/4_Multi_Agent_System.py] *)

Module MultiAgentSystem.
Import Py Runtime.

Definition sanitize_filename (name : str) : str :=
  let name := strip name in
  let name := re_sub_outside_class name in
  match name with
  | [] => lit "multi_agent"
  | _ :: _ => name
  end.

(** The text used when the model gave nothing. *)
Definition fallback_template : str :=
  [34; 34; 34; 10] ++ lit "Unable to Genetate orchestrator via Gemini model." ++ [10].

(** Lines 137 to 160: [raw] is the stripped answer, or [None] when the
    call failed or no client exists. *)
Definition cleaned_code (raw : option str) : str :=
  match raw with
  | Some (c :: raw') => Builder.extract_fenced (c :: raw')
  | Some [] | None => fallback_template
  end.

End MultiAgentSystem.

(** ** The marketplace page, [pages/5_Agent_MarketPlace.py] *)

Module AgentMarketPlace.
Import Py Runtime.
Local Open Scope handler_scope.

(** A [subprocess.Popen] object. *)
Record popen : Type := { popen_pid : N }.

(** A registry entry, the dictionary built by [start_agent_process];
    a missing key reads as [None]. *)
Record entry : Type := {
  pid : option N;
  proc : option popen;
  cmd : str;
  terminal : bool;
  error : option str
}.

(** The empty dictionary of [agent_processes.get(name, {})]. *)
Definition empty_entry : entry :=
  {| pid := None; proc := None; cmd := []; terminal := false; error := None |}.

Inductive platform : Type := Win32 | Darwin | Linux.
Inductive signal : Type := SIGTERM | SIGKILL.

(** The operating system under the page: a process table [OS] and the
    calls of [sys], [os], [shlex] and [subprocess] the page makes. *)
Record host (OS : Type) : Type := {
  sys_platform : platform;
  sys_executable : str;
  shlex_quote : str -> str;
  shlex_split : str -> res (list str);
  Popen_shell : str -> OS -> OS * res popen;
  Popen_argv : list str -> OS -> OS * res popen;
  Popen_detached : list str -> OS -> OS * res popen;
  os_getpgid : N -> OS -> OS * res N;
  os_killpg : N -> signal -> OS -> OS * res unit;
  os_kill : N -> signal -> OS -> OS * res unit;
  popen_terminate : popen -> OS -> OS * res unit;
  popen_kill : popen -> OS -> OS * res unit
}.
Arguments sys_platform {OS} _.
Arguments sys_executable {OS} _.
Arguments shlex_quote {OS} _ _.
Arguments shlex_split {OS} _ _.
Arguments Popen_shell {OS} _ _ _.
Arguments Popen_argv {OS} _ _ _.
Arguments Popen_detached {OS} _ _ _.
Arguments os_getpgid {OS} _ _ _.
Arguments os_killpg {OS} _ _ _ _.
Arguments os_kill {OS} _ _ _ _.
Arguments popen_terminate {OS} _ _ _.
Arguments popen_kill {OS} _ _ _.

(** The page's state: [st.session_state.agent_processes] and the
    process table. *)
Record state (OS : Type) : Type := {
  agent_processes : gmap str entry;
  os : OS
}.
Arguments agent_processes {OS} _.
Arguments os {OS} _.
Arguments Build_state {OS} _ _.

Section Page.
Context {OS : Type} (H : host OS).

(** A call of the host, run on the process table of the state. *)
Definition sys {A} (call : OS -> OS * res A) : M (state OS) A :=
  fun st =>
    let '(os', r) := call (os st) in
    (Build_state (agent_processes st) os', [], r).

(** [os.name == "posix"] *)
Definition posix : bool :=
  match sys_platform H with Win32 => false | _ => true end.

(** The [for t in terminals: try: ... except Exception: continue] loop. *)
Fixpoint first_terminal (terminals : list (list str)) : M (state OS) (option popen) :=
  match terminals with
  | [] => ret None
  | t :: rest =>
      try_except (do p <- sys (Popen_argv H t); ret (Some p))
                 (fun _ => first_terminal rest)
  end.

Definition try_open_in_terminal (cmd : str) : M (state OS) (option popen) :=
  try_except
    (match sys_platform H with
     | Win32 =>
         do p <- sys (Popen_shell H (lit "start cmd /k " ++ cmd)); ret (Some p)
     | Darwin =>
         let osa := lit "osascript -e 'tell application " ++ [34] ++ lit "Terminal"
                    ++ [34] ++ lit " to do script " ++ [34] ++ cmd ++ [34] ++ lit "' " in
         do p <- sys (Popen_shell H osa); ret (Some p)
     | Linux =>
         first_terminal
           [ [lit "x-terminal-emulator"; lit "-e"; cmd];
             [lit "gnome-terminal"; lit "--"; lit "bash"; lit "-lc"; cmd ++ lit "; exec bash"];
             [lit "konsole"; lit "-e"; cmd ++ lit "; bash"];
             [lit "xterm"; lit "-e"; cmd ++ lit "; bash"] ]
     end)
    (fun _ => ret None).

Definition start_agent_process (path : str) (use_streamlit : bool)
  : M (state OS) entry :=
  let python_exe :=
    match sys_executable H with [] => lit "python" | exe => exe end in
  let cmd :=
    if use_streamlit then
      if posix then lit "python3 -m streamlit run " ++ shlex_quote H path
      else lit "python -m streamlit run " ++ [34] ++ path ++ [34]
    else shlex_quote H python_exe ++ lit " " ++ shlex_quote H path in
  do p <- try_open_in_terminal cmd;
  match p with
  | Some p =>
      ret {| pid := Some (popen_pid p); proc := Some p; cmd := cmd;
             terminal := true; error := None |}
  | None =>
      try_except
        (do argv <- lift (shlex_split H cmd);
         do p <- sys (Popen_detached H argv);
         ret {| pid := Some (popen_pid p); proc := Some p; cmd := cmd;
                terminal := false; error := None |})
        (fun e =>
           ret {| pid := None; proc := None; cmd := cmd;
                  terminal := false; error := Some (exn_str e) |})
  end.

(** [if pid:] on an optional integer. *)
Definition pid_truthy (p : option N) : bool :=
  match p with
  | Some n => negb (n =? 0)
  | None => false
  end.

Definition stop_agent_process (e : entry) : M (state OS) bool :=
  try_except
    (match proc e with
     | Some p =>
         (if posix
          then do pgid <- sys (os_getpgid H (popen_pid p));
               sys (os_killpg H pgid SIGTERM)
          else sys (popen_terminate H p)) >>
         ret true
     | None =>
         if pid_truthy (pid e) then
           let n := default 0 (pid e) in
           (if posix
            then do pgid <- sys (os_getpgid H n);
                 sys (os_killpg H pgid SIGTERM)
            else sys (os_kill H n SIGTERM)) >>
           ret true
         else ret false
     end)
    (fun _ =>
       try_except
         (match proc e with
          | Some p => sys (popen_kill H p)
          | None =>
              if pid_truthy (pid e) then sys (os_kill H (default 0 (pid e)) SIGKILL)
              else ret tt
          end >>
          ret true)
         (fun _ => ret false)).

Definition set_registry (f : gmap str entry -> gmap str entry) : M (state OS) unit :=
  modify (fun st => Build_state (f (agent_processes st)) (os st)).

(** [name in agent_processes and agent_processes[name].get("pid")],
    as a truth value. *)
Definition running (reg : gmap str entry) (name : str) : bool :=
  match reg !! name with
  | Some e => pid_truthy (pid e)
  | None => false
  end.

Definition mode_word (e : entry) : str :=
  if terminal e then lit "terminal" else lit "background".

(** The branch under [if run_btn:]; [running] was computed before. *)
Definition on_run (name path : str) (use_streamlit running : bool) : M (state OS) unit :=
  if running then
    emit (st_warning (lit "Agent appears to be already running. Stop it first if you want to restart."))
  else
    do e <- start_agent_process path use_streamlit;
    set_registry (fun reg => <[name := e]> reg) >>
    match error e with
    | Some (c :: msg) => emit (st_error (lit "Failed to start agent: " ++ c :: msg))
    | _ =>
        if pid_truthy (pid e) then
          emit (st_success (lit "Started `" ++ name ++ lit "` (pid: "
                 ++ str_of_nat (N.to_nat (default 0 (pid e))) ++ lit ") "
                 ++ [8212] ++ lit " " ++ mode_word e))
        else
          emit (st_success (lit "Started `" ++ name ++ lit "` " ++ [8212]
                 ++ lit " process started (no pid available)"))
    end.

(** The branch under [if stop_btn:]. *)
Definition on_stop (name : str) (running : bool) : M (state OS) unit :=
  if negb running then emit (st_warning (lit "Agent is not running."))
  else
    do st <- get;
    let e := default empty_entry (agent_processes st !! name) in
    do ok <- stop_agent_process e;
    if ok then
      emit (st_success (lit "Stopped process.")) >>
      set_registry (fun reg => delete name reg)
    else emit (st_error (lit "Failed to stop process. You may need to kill it manually.")).

(** The status line under the buttons. *)
Definition show_status (name : str) : M (state OS) unit :=
  do st <- get;
  match agent_processes st !! name with
  | Some e =>
      if pid_truthy (pid e) then
        emit (st_info (lit "Running " ++ [8212] ++ lit " PID: "
               ++ str_of_nat (N.to_nat (default 0 (pid e)))
               ++ lit " (" ++ mode_word e ++ lit ")"))
      else emit (st_info (lit "Running " ++ [8212] ++ lit " process started (no PID available)"))
  | None => emit (st_info (lit "Not running"))
  end.

(** The run controls of one agent: the two buttons and the status
    line, for the agent [name] stored at [path]. *)
Definition run_controls (name path : str) (use_streamlit run_btn stop_btn : bool)
  : M (state OS) unit :=
  do st <- get;
  let running := running (agent_processes st) name in
  (if run_btn then on_run name path use_streamlit running else ret tt) >>
  (if stop_btn then on_stop name running else ret tt) >>
  show_status name.

(** A step that leaves the registry as it is. *)
Definition keeps_registry {A} (m : M (state OS) A) : Prop :=
  forall st st' log r, m st = (st', log, r) -> agent_processes st' = agent_processes st.

End Page.

End AgentMarketPlace.

(** ** Around the handlers: what a click checks first *)

Module Clicks.
Import Py Runtime.
Local Open Scope handler_scope.

(** *** [agents/Visualisation.py], lines 116 to 170 *)

(** The prompt sent to the model; [cols] and [dtypes] are the texts of
    [df.columns.tolist()] and [df.dtypes.to_dict()]. *)
Definition visualization_prompt (prompt cols dtypes : str) : str :=
  lit "Write Python code using matplotlib.pyplot and seaborn to create the plot described by the user prompt below." ++
  [10] ++
  lit "            - Use only the provided pandas DataFrame named `df`. Do NOT create new DataFrames or synthetic/random data." ++
  [10] ++
  lit "            - The code must create a matplotlib.figure named `fig` (e.g. `fig, ax = plt.subplots()`)." ++
  [10] ++
  lit "            - Do not include display or save calls (no plt.show(), fig.savefig())." ++
  [10] ++
  lit "            - If a referenced column does not exist in `df`, raise an Exception." ++
  [10; 10] ++ lit "            User prompt:" ++ [10] ++ lit "            " ++
  [34; 34; 34] ++ prompt ++ [34; 34; 34; 10; 10] ++
  lit "            DataFrame columns: " ++ cols ++ [10] ++
  lit "            DataFrame dtypes: " ++ dtypes ++ [10; 10] ++
  lit "            Return only the Python code block (no extra text).".

Section Visualisation.
Context {W : Type} (I : interpreter W).
Variable dedent : str -> str.
Variable savefig : value -> res value.
Variable pyplot : value -> res unit.
(** The model behind [client.models.generate_content], reduced to the
    text the handler reads from its answer. *)
Variable generate_content : str -> W -> W * res str.
(** The columns and the types of a DataFrame, as texts. *)
Variables columns_of dtypes_of : value -> str.

(** The "Generate Visualization" button; [df] is [None] until a CSV file
    was read. *)
Definition visualization_click (prompt : str) (df : value) : M W unit :=
  match prompt with
  | [] => emit (st_error (lit "Please enter a prompt."))
  | _ :: _ =>
      match df with
      | VNone =>
          emit (st_error (lit "Please upload a CSV so `df` is available to the generated code."))
      | _ =>
          fun w =>
            let '(w1, response) :=
              generate_content (visualization_prompt prompt (columns_of df) (dtypes_of df)) w in
            Visualisation.generate_visualization I dedent savefig pyplot response df w1
      end
  end.

End Visualisation.

(** *** [agents/SupabaseConnector.py], lines 52 to 195 *)

Definition database_prompt (op : str) : str :=
  [10] ++
  lit "You are an assistant that writes Python code to perform the requested database operation using psycopg2." ++
  [10; 10] ++
  lit "Table: public.courses              Column: course_id            Type: integer" ++
  [10] ++
  lit "Table: public.courses              Column: course_name          Type: character varying" ++
  [10] ++
  lit "Table: public.courses              Column: credits              Type: integer" ++
  [10] ++
  lit "Table: public.courses              Column: department           Type: character varying" ++
  [10] ++
  lit "Table: public.students             Column: student_id           Type: integer" ++
  [10] ++
  lit "Table: public.students             Column: first_name           Type: character varying" ++
  [10] ++
  lit "Table: public.students             Column: last_name            Type: character varying" ++
  [10] ++
  lit "Table: public.students             Column: enrollment_year      Type: integer" ++
  [10; 10] ++ lit "REQUIREMENTS:" ++ [10] ++
  lit "- Assume an existing psycopg2 connection 'connection' and cursor 'cursor' are provided." ++
  [10] ++
  lit "- Use parameterized queries where applicable (avoid string concatenation with user input)." ++
  [10] ++
  lit "- If the operation reads rows, fetch them and store in a variable named 'result' (a list of tuples)." ++
  [10] ++
  lit "- If the operation modifies data (INSERT/UPDATE/DELETE/DDL), execute it; call 'connection.commit()' and set 'result' to a short string summary like " ++
  [34] ++ lit "rows_affected=<n>" ++ [34] ++ lit " (when available)." ++ [10] ++
  lit "- Do NOT import new libraries; just use 'connection' and 'cursor' already provided." ++
  [10] ++ lit "- Do NOT close the connection or cursor." ++ [10] ++
  lit "- Return ONLY the Python code, no explanations." ++ [10; 10] ++
  lit "The user's request:" ++ [10; 34; 34; 34] ++ strip op ++ [34; 34; 34; 10].

(** The calls of [psycopg2] and of the model client the page makes. *)
Record services (W : Type) : Type := {
  psycopg2_connect : str -> str -> str -> str -> str -> W -> W * res value;
  connection_cursor : value -> W -> W * res value;
  cursor_close : value -> W -> W * res unit;
  connection_close : value -> W -> W * res unit;
  generate_content : str -> W -> W * res (option str)
}.
Arguments psycopg2_connect {W} _ _ _ _ _ _ _.
Arguments connection_cursor {W} _ _ _.
Arguments cursor_close {W} _ _ _.
Arguments connection_close {W} _ _ _.
Arguments generate_content {W} _ _ _.

(** The state of the database page: [os.environ], the session and the
    world outside. *)
Record page (W : Type) : Type := {
  environ : gmap str str;
  session_state : gmap str value;
  world : W
}.
Arguments environ {W} _.
Arguments session_state {W} _.
Arguments world {W} _.
Arguments Build_page {W} _ _ _.

Section Database.
(** The snippet runs inside the process of the page, with all built-in
    names: besides the world outside it can reach [os.environ] and
    [st.session_state], so the interpreter acts on the whole page. *)
Context {W : Type} (I : interpreter (page W)) (S : services W).
Variable format_exc : exn -> str.
(** The text of the [KeyError] of a missing session key. *)
Variable missing_key : str -> str.

(** A handler over the world, run inside the page. *)
Definition on_world {A} (m : M W A) : M (page W) A :=
  fun pg =>
    let '(w', log, r) := m (world pg) in
    (Build_page (environ pg) (session_state pg) w', log, r).

Definition call {A} (f : W -> W * res A) : M (page W) A :=
  on_world (fun w => let '(w', r) := f w in (w', [], r)).

Definition set_session (f : gmap str value -> gmap str value) : M (page W) unit :=
  modify (fun pg => Build_page (environ pg) (f (session_state pg)) (world pg)).

(** The truth value of [os.getenv(name)]: set and not empty. *)
Definition env_truthy (v : option str) : bool :=
  match v with
  | Some (_ :: _) => true
  | _ => false
  end.

(** The check box "Override environment with the values above". *)
Definition override_environment (user_env host_env db_env port_env pw_env : str)
  : M (page W) unit :=
  modify (fun pg =>
    Build_page
      (<[lit "password" := pw_env]>
         (<[lit "port" := port_env]>
            (<[lit "dbname" := db_env]>
               (<[lit "host" := host_env]>
                  (<[lit "user" := user_env]> (environ pg))))))
      (session_state pg) (world pg)) >>
  emit (st_info (lit "Environment variables updated for this process.")).

(** The "Connect" button. *)
Definition connect_click : M (page W) unit :=
  try_except
    (do pg <- get;
     let USER := environ pg !! lit "user" in
     let PASSWORD := environ pg !! lit "password" in
     let HOST := environ pg !! lit "host" in
     let PORT := environ pg !! lit "port" in
     let DBNAME := environ pg !! lit "dbname" in
     if negb (forallb env_truthy [USER; PASSWORD; HOST; PORT; DBNAME]) then
       emit (st_error (lit "Missing one or more required env vars: user, password, host, port, dbname."))
     else
       do connection <- call (psycopg2_connect S (default [] USER) (default [] PASSWORD)
                                (default [] HOST) (default [] PORT) (default [] DBNAME));
       do cursor <- call (connection_cursor S connection);
       set_session (fun ss => <[lit "cursor" := cursor]> (<[lit "connection" := connection]> ss)) >>
       emit (st_success (lit "Connection successful!")))
    (fun e =>
       emit (st_error (lit "Connection failed: " ++ exn_str e)) >>
       emit (st_code (format_exc e))).

(** [st.session_state[key]] *)
Definition session_item (key : str) : M (page W) value :=
  do pg <- get;
  match session_state pg !! key with
  | Some v => ret v
  | None => raise (KeyError (missing_key key))
  end.

(** The "Generate & Run" button; [client_ready] says whether a model
    client could be made from the key of the session. *)
Definition run_click (client_ready acknowledge : bool) (op : str) : M (page W) unit :=
  do pg <- get;
  if negb client_ready then
    emit (st_error (lit "Please enter a valid Gemini API key first."))
  else if negb (bool_decide (is_Some (session_state pg !! lit "connection"))
                && bool_decide (is_Some (session_state pg !! lit "cursor"))) then
    emit (st_error (lit "Please connect to the database first."))
  else if negb acknowledge then
    emit (st_warning (lit "Please confirm the safety checkbox before executing."))
  else
    match strip op with
    | [] => emit (st_warning (lit "Please enter an operation."))
    | _ :: _ =>
        do response <- (fun pg =>
                          let '(w1, r) := generate_content S (database_prompt op) (world pg) in
                          (Build_page (environ pg) (session_state pg) w1, [], Ret r));
        SupabaseConnector.generate_and_run I format_exc
          (dict_get (session_state pg) (lit "connection"))
          (dict_get (session_state pg) (lit "cursor")) response
    end.

(** The "Close DB connection" button, shown while the session holds a
    connection. *)
Definition close_click : M (page W) unit :=
  do pg <- get;
  match session_state pg !! lit "connection" with
  | None => ret tt
  | Some _ =>
      try_except
        (do cursor <- session_item (lit "cursor");
         call (cursor_close S cursor) >>
         do connection <- session_item (lit "connection");
         call (connection_close S connection) >>
         set_session (fun ss => delete (lit "connection") (delete (lit "cursor") ss)) >>
         emit (st_success (lit "Connection closed.")))
        (fun e => emit (st_error (lit "Error closing connection: " ++ exn_str e)))
  end.


End Database.

(** *** [pages/2_Build_Agent.py], lines 38 to 137 *)

(** [st.stop()] leaves the script with an exception outside
    [Exception]. *)
Definition StopException : exn :=
  {| exn_is_Exception := false; exn_str := []; exn_str_raises := None |}.

Definition rag_part : str :=
  lit "Important: The app must include support for Retrieval-Augmented Generation (RAG). Include code that demonstrates connecting to a vector store, embedding text, and performing similarity search to augment model responses. Clearly mark where documents are indexed and queried.".

Definition mcp_part : str :=
  lit "Important: The app must integrate with the MCP (Model Control Plane). Add clear placeholders and example code showing how the app would register models, send telemetry, or call MCP endpoints. Explain which values are configurable.".

Definition ai_snippet (gemini_api_key : str) : str :=
  (lit "Add an input for a Gemini API key." ++ [10] ++
  lit "Use model `gemini-2.5-flash` from `google.genai`." ++ [10] ++ lit "Example:" ++
  [10] ++ lit "    from google import genai" ++ [10] ++
  lit "    client = genai.Client(api_key=user_supplied_key)" ++ [10] ++
  lit "    response = client.models.generate_content(model=" ++ [34] ++
  lit "gemini-2.5-flash" ++ [34] ++ lit ", contents=" ++ [34] ++ lit "Hello" ++ [34] ++
  lit ")" ++ [10]) ++
  match gemini_api_key with
  | [] => []
  | _ :: _ =>
      [10] ++
      lit "Include a placeholder variable named USER_GEMINI_KEY set to the user-supplied key."
  end.

Definition prompt_parts (app_description : str) (req_rag req_mcp req_ai : bool)
    (gemini_api_key : str) : list str :=
  [
     lit "Write a complete Streamlit app in Python that does the following: " ++
  app_description ++ lit ". Just give the code."]
  ++ (if req_rag then [rag_part] else [])
  ++ (if req_mcp then [mcp_part] else [])
  ++ (if req_ai then [ai_snippet gemini_api_key] else []).

Definition full_prompt (app_description : str) (req_rag req_mcp req_ai : bool)
    (gemini_api_key : str) : str :=
  join (nl ++ nl) (prompt_parts app_description req_rag req_mcp req_ai gemini_api_key).

Section Builder.
Variable open_fault : str -> option exn.
(** The model, reduced to the text of its answer. *)
Variable generate_content : str -> res (option str).

(** The "Generate & Show App Code" button.  The key field exists only
    when "Requires AI" is ticked; otherwise the key is the empty string. *)
Definition generate_click (app_description : str) (req_rag req_mcp req_ai : bool)
    (key_field : str) : M BuildAgent.state unit :=
  let gemini_api_key := if req_ai then key_field else [] in
  match strip app_description with
  | [] => emit (st_error (lit "Please enter a description first."))
  | _ :: _ =>
      match generate_content
              (full_prompt app_description req_rag req_mcp req_ai gemini_api_key) with
      | Raise e =>
          if exn_is_Exception e then
            emit (st_error (lit "Error generating app code: " ++ exn_str e)) >>
            raise StopException
          else raise e
      | Ret text =>
          BuildAgent.keep_generated open_fault req_ai gemini_api_key (strip (default [] text))
      end
  end.

End Builder.

(** *** [pages/4_Multi_Agent_System.py], lines 91 to 199 *)

(** ["\n".join([f"- {name}: path='./agents/{name}'" for name in selected])] *)
Definition agents_list_text (selected : list str) : str :=
  join nl (map (fun name => lit "- " ++ name ++ lit ": path='./agents/" ++ name ++ lit "'")
             selected).

Definition orchestrator_prompt (selected : list str) (connection_prompt : str) : str :=
  [10] ++
  lit "You are asked to generate a Python Streamlit orchestrator agent that combines multiple existing agents into a single application." ++
  [10] ++ lit "Agents:" ++ [10] ++ agents_list_text selected ++ [10; 10] ++
  lit "Connection / orchestration description:" ++ [10] ++ strip connection_prompt ++
  [10; 10] ++
  lit "Combine the functionality of the selected agents into a application that coordinates their actions as described." ++
  [10; 10] ++
  lit "Output only the Python file contents inside a fenced code block (```python ... ```). Do not include any extra commentary outside code fences." ++
  [10].

(** The state of the multi-agent page: the session copy of the code and
    the files on disk. *)
Record multi : Type := {
  generated_multi_agent : option str;
  multi_files : gmap str str
}.

Section MultiAgent.
Variable open_fault : str -> option exn.
(** The model behind the client: the text of its answer, or the
    exception of the call. *)
Variable generate_content : str -> res (option str).

Definition write_generated (content : str) : M multi unit :=
  match open_fault (lit "generated_app.py") with
  | Some e => raise e
  | None =>
      modify (fun st =>
        {| generated_multi_agent := generated_multi_agent st;
           multi_files := <[lit "generated_app.py" := content]> (multi_files st) |})
  end.

(** The body under [if submitted:], for a client that exists.  The
    answer is stripped; a failed call is reported and leaves no answer.
    The run hint and the launch of the written app in a terminal touch
    neither the session nor the files and are left out. *)
Definition submit (selected : list str) (connection_prompt : str) : M multi unit :=
  match selected with
  | [] => emit (st_error (lit "Select at least one agent."))
  | _ :: _ =>
      match strip connection_prompt with
      | [] => emit (st_error (lit "Provide a description of how the agents are connected."))
      | _ :: _ =>
          do raw <- try_except
                      (do text <- lift (generate_content
                                          (orchestrator_prompt selected connection_prompt));
                       ret (Some (strip (default [] text))))
                      (fun e =>
                         emit (st_error (lit "Error generating orchestrator: " ++ exn_str e)) >>
                         ret None);
          let cleaned_code := MultiAgentSystem.cleaned_code raw in
          modify (fun st =>
            {| generated_multi_agent := Some cleaned_code;
               multi_files := multi_files st |}) >>
          emit (st_subheader ([128313] ++ lit " Generated Code")) >>
          emit (st_code cleaned_code) >>
          try_except
            (write_generated cleaned_code >>
             emit (st_success ([9989] ++ lit " App saved as `generated_app.py`")))
            (fun e => emit (st_error ([9888; 65039] ++
                        lit " Error while saving or launching generated code: " ++ exn_str e)))
      end
  end.

End MultiAgent.

(** *** File previews, [pages/5_Agent_MarketPlace.py] lines 24 to 29 and
    [pages/4_Multi_Agent_System.py] lines 79 to 85 *)

Definition truncated_notice : str := lit "..." ++ nl ++ lit "(Preview truncated)".

(** [text[:max_chars] + (notice if len(text) > max_chars else "")] *)
Definition preview_of (text : str) (max_chars : nat) : str :=
  take max_chars text ++ (if (max_chars <? length text)%nat then truncated_notice else []).

(** [human_preview]; [read] is the outcome of [path.read_text]. *)
Definition human_preview (read : res str) (max_chars : nat) : res str :=
  match read with
  | Ret text => Ret (preview_of text max_chars)
  | Raise e =>
      if exn_is_Exception e then Ret (lit "Error reading file: " ++ exn_str e)
      else Raise e
  end.

(** The preview of one selected agent on the multi-agent page. *)
Definition selected_preview {S} (name : str) (read : res str) : M S unit :=
  try_except
    (do text <- lift read; emit (st_code (preview_of text 600)))
    (fun e => emit (st_error (lit "Unable to read `" ++ name ++ lit "`: " ++ exn_str e))).

End Clicks.

(** ** A table of snippets
    The interpreter restricted to a handful of snippets, to run the
    handlers on concrete answers of the model.  On the snippets listed it
    does what CPython does with separate global and local dictionaries;
    any other text is run as an empty program. *)

Module Snippets.
Import Py Runtime.

Definition pass : str := lit "pass".
Definition raise_SystemExit : str := lit "raise SystemExit".
Definition raise_ValueError : str := lit "raise ValueError('boom')".
Definition assign_result : str := lit "result = [(1, 2), (3, 4)]".
Definition assign_global_result : str :=
  join nl [lit "global result"; lit "result = [(1, 2)]"].

Definition table : interpreter unit :=
  {| py_exec := fun code g l w =>
       if eqb code raise_SystemExit then (w, Raise SystemExit)
       else if eqb code raise_ValueError then (w, Raise (ValueError (lit "boom")))
       else if eqb code assign_result then
         (w, Ret (g, <[lit "result" :=
                        VList [VTuple [VInt 1; VInt 2]; VTuple [VInt 3; VInt 4]]]> l))
       else if eqb code assign_global_result then
         (w, Ret (<[lit "result" := VList [VTuple [VInt 1; VInt 2]]]> g, l))
       else (w, Ret (g, l)) |}.

(** [textwrap.dedent] on a text whose lines share no leading white
    space, as all the snippets above: the text itself. *)
Definition dedent_flush (code : str) : str := code.

(** Rendering calls that accept any figure. *)
Definition savefig_ok (fig : value) : res value := Ret (VObject 0).
Definition pyplot_ok (fig : value) : res unit := Ret tt.

(** [traceback.format_exc()], reduced to the last line's message. *)
Definition format_exc_short (e : exn) : str := exn_str e.

End Snippets.

(** ** Concrete surroundings
    A file system and an operating system to run the stateful handlers
    on concrete states. *)

Module Fixtures.
Import Py Runtime.

(** A POSIX [os.path.join] for a relative second argument. *)
Definition posix_join (dir name : str) : str := dir ++ lit "/" ++ name.

(** A file system on which no call fails. *)
Definition no_open_fault (path : str) : option exn := None.
Definition no_replace_fault (src dst : str) : option exn := None.

Definition session_with (name : str) (overwrite : bool) : BuildAgent.session :=
  {| BuildAgent.generated_code := Some (lit "print(2)");
     BuildAgent.form_agent_name := Some name;
     BuildAgent.form_overwrite := Some overwrite;
     BuildAgent.agent_saved := false;
     BuildAgent.agent_saved_path := [];
     BuildAgent.agent_save_error := [] |}.

Definition disk : gmap str str :=
  {[ lit "/app/agents/my_agent.py" := lit "print(1)" ]}.

(** Words separated by single spaces, as [shlex.split] cuts a command
    without quotes. *)
Fixpoint words_from (cur : str) (s : str) : list str :=
  match s with
  | [] => [rev cur]
  | c :: s' => if c =? 32 then rev cur :: words_from [] s' else words_from (c :: cur) s'
  end.

(** A Linux machine without a terminal emulator: the process table is
    the list of live process ids; starting a detached process always
    works, and signals reach exactly the processes of the table.
    [os.kill] and [os.killpg] on a process that is gone raise
    [ProcessLookupError]; the methods [terminate] and [kill] of a [Popen]
    object do not: they signal a live process and return in silence for
    one that is gone. *)
Definition headless_linux : AgentMarketPlace.host (list N) :=
  let signal_to (n : N) (table : list N) : list N * res unit :=
    if bool_decide (n ∈ table)
    then (filter (fun m => m <> n) table, Ret tt)
    else (table, Raise (OSError (lit "[Errno 3] No such process"))) in
  let send_signal (n : N) (table : list N) : list N * res unit :=
    (filter (fun m => m <> n) table, Ret tt) in
  {| AgentMarketPlace.sys_platform := AgentMarketPlace.Linux;
     AgentMarketPlace.sys_executable := lit "/usr/bin/python3";
     AgentMarketPlace.shlex_quote := fun word => word;
     AgentMarketPlace.shlex_split := fun command => Ret (words_from [] command);
     AgentMarketPlace.Popen_shell := fun _ table =>
       (table, Raise (OSError (lit "[Errno 2] No such file or directory")));
     AgentMarketPlace.Popen_argv := fun _ table =>
       (table, Raise (OSError (lit "[Errno 2] No such file or directory")));
     AgentMarketPlace.Popen_detached := fun _ table =>
       let n := 1000 + N.of_nat (length table) in
       (n :: table, Ret {| AgentMarketPlace.popen_pid := n |});
     AgentMarketPlace.os_getpgid := fun n table =>
       if bool_decide (n ∈ table) then (table, Ret n)
       else (table, Raise (OSError (lit "[Errno 3] No such process")));
     AgentMarketPlace.os_killpg := fun n _ table => signal_to n table;
     AgentMarketPlace.os_kill := fun n _ table => signal_to n table;
     AgentMarketPlace.popen_terminate := fun p table =>
       send_signal (AgentMarketPlace.popen_pid p) table;
     AgentMarketPlace.popen_kill := fun p table =>
       send_signal (AgentMarketPlace.popen_pid p) table |}.

End Fixtures.

(** ** Further concrete surroundings *)

Module Scenarios.
Import Py Runtime.

Definition fig_is_df : str := lit "fig = df".
Definition fig_is_figure : str := lit "fig = plt.figure()".

(** An interpreter for the two snippets above; any other text is run
    as an empty program. *)
Definition plots : interpreter unit :=
  {| py_exec := fun code g l w =>
       if eqb code fig_is_df then
         (w, Ret (g, <[lit "fig" := dict_get l (lit "df")]> l))
       else if eqb code fig_is_figure then
         (w, Ret (g, <[lit "fig" := VObject 7]> l))
       else (w, Ret (g, l)) |}.

(** A snippet that raises an exception of a class of its own, whose
    [__str__] raises another exception of that class:
    [class Unprintable(Exception)] with
    [def __str__(self): raise Unprintable()].  [Unprintable n] is such
    an exception followed up to the [n]-th use of [str]; no handler of
    the pages takes more than two. *)
Fixpoint Unprintable (n : nat) : exn :=
  {| exn_is_Exception := true; exn_str := [];
     exn_str_raises := match n with
                       | O => None
                       | S n' => Some (Unprintable n')
                       end |}.

Definition raise_Unprintable : str := lit "raise Unprintable()".

Definition unprintable : interpreter unit :=
  {| py_exec := fun code g l w =>
       if eqb code raise_Unprintable then (w, Raise (Unprintable 3))
       else (w, Ret (g, l)) |}.

(** A front end on which [st.pyplot] rejects every object. *)
Definition pyplot_fails (fig : value) : res unit :=
  Raise (ValueError (lit "cannot draw")).

(** A Linux machine on which no process can be started at all. *)
Definition locked_linux : AgentMarketPlace.host (list N) :=
  let refuse {A} (table : list N) : list N * res A :=
    (table, Raise (OSError (lit "[Errno 11] Resource temporarily unavailable"))) in
  {| AgentMarketPlace.sys_platform := AgentMarketPlace.Linux;
     AgentMarketPlace.sys_executable := lit "/usr/bin/python3";
     AgentMarketPlace.shlex_quote := fun word => word;
     AgentMarketPlace.shlex_split := fun command => Ret (Fixtures.words_from [] command);
     AgentMarketPlace.Popen_shell := fun _ table => refuse table;
     AgentMarketPlace.Popen_argv := fun _ table => refuse table;
     AgentMarketPlace.Popen_detached := fun _ table => refuse table;
     AgentMarketPlace.os_getpgid := fun _ table => refuse table;
     AgentMarketPlace.os_killpg := fun _ _ table => refuse table;
     AgentMarketPlace.os_kill := fun _ _ table => refuse table;
     AgentMarketPlace.popen_terminate := fun _ table => (table, Ret tt);
     AgentMarketPlace.popen_kill := fun _ table => (table, Ret tt) |}.

(** A file system on which no file can be opened for writing, and one
    on which no file can be renamed. *)
Definition read_only (path : str) : option exn :=
  Some (OSError (lit "[Errno 13] Permission denied")).
Definition no_rename (src dst : str) : option exn :=
  Some (OSError (lit "[Errno 13] Permission denied")).

End Scenarios.

(** ** A database and a model at hand *)

Module Desk.
Import Py Runtime Clicks.

(** The answer of the model: the snippet that binds two rows, inside a
    fence. *)
Definition fenced_rows : str :=
  join nl [lit "```python"; Snippets.assign_result; lit "```"].

(** A database that accepts every call, and a model that always
    answers with [fenced_rows]. *)
Definition local_services : services unit :=
  {| psycopg2_connect := fun _ _ _ _ _ w => (w, Ret (VObject 10));
     connection_cursor := fun _ w => (w, Ret (VObject 11));
     cursor_close := fun _ w => (w, Ret tt);
     connection_close := fun _ w => (w, Ret tt);
     generate_content := fun _ w => (w, Ret (Some fenced_rows)) |}.

Definition missing_key_text (key : str) : str := lit "'" ++ key ++ lit "'".

(** The table of snippets run inside the page: none of them touches the
    environment or the session. *)
Definition page_table : interpreter (page unit) :=
  {| py_exec := fun code g l pg =>
       (pg, (py_exec Snippets.table code g l tt).2) |}.

(** A snippet that removes the cursor from the session, the model that
    answers with it, and the interpreter that runs it. *)
Definition drop_cursor : str := lit "del st.session_state['cursor']".
Definition dropping_services : services unit :=
  {| psycopg2_connect := fun _ _ _ _ _ w => (w, Ret (VObject 10));
     connection_cursor := fun _ w => (w, Ret (VObject 11));
     cursor_close := fun _ w => (w, Ret tt);
     connection_close := fun _ w => (w, Ret tt);
     generate_content := fun _ w =>
       (w, Ret (Some (join nl [lit "```python"; drop_cursor; lit "```"]))) |}.
Definition reaching : interpreter (page unit) :=
  {| py_exec := fun code g l pg =>
       if eqb code drop_cursor
       then (Build_page (environ pg) (delete (lit "cursor") (session_state pg)) (world pg),
             Ret (g, l))
       else (pg, Ret (g, l)) |}.

(** A page with an empty environment whose session holds a connection
    and a cursor, and one whose session is empty. *)
Definition connected : page unit :=
  Build_page ∅ (<[lit "cursor" := VObject 11]> {[ lit "connection" := VObject 10 ]}) tt.
Definition fresh : page unit := Build_page ∅ ∅ tt.

(** A model that answers the visualisation page with a snippet making
    a figure, and a DataFrame described by empty texts. *)
Definition drawing_model (prompt : str) (w : unit) : unit * res str :=
  (w, Ret Scenarios.fig_is_figure).
Definition no_text (df : value) : str := [].

(** An answer with two bare fence markers and no tagged opening line,
    and the model that gives it. *)
Definition loose_answer : str :=
  join nl [lit "Here is the app:"; lit "```"; lit "x = 1"; lit "```"].
Definition loose_model (prompt : str) : res (option str) := Ret (Some loose_answer).

(** A model without text in its answer, and one whose call fails. *)
Definition silent_model (prompt : str) : res (option str) := Ret None.
Definition failing_model (prompt : str) : res (option str) :=
  Raise (OSError (lit "503 UNAVAILABLE")).

Definition empty_session : BuildAgent.session :=
  {| BuildAgent.generated_code := None;
     BuildAgent.form_agent_name := None;
     BuildAgent.form_overwrite := None;
     BuildAgent.agent_saved := false;
     BuildAgent.agent_saved_path := [];
     BuildAgent.agent_save_error := [] |}.

(** A directory in which [generated_app.py] holds an earlier app. *)
Definition earlier_app : gmap str str := {[ lit "generated_app.py" := lit "print(1)" ]}.

End Desk.

(** ** Notions used to state properties *)

Module Notions.
Import Py Runtime.

(** A string without a line boundary inside. *)
Definition unbroken (s : str) : Prop := Forall (fun c => is_linebreak c = false) s.

(** An outcome that lets no [Exception] escape: the handler returned, or
    what left it is outside [Exception]. *)
Definition contained {S A} (out : S * list event * res A) : Prop :=
  match out.2 with
  | Ret _ => True
  | Raise e => exn_is_Exception e = false
  end.


(** A line that is not the closing marker of the planner. *)
Definition open_ended (line : str) : Prop := eqb (strip line) (lit "```") = false.

(** The first, graceful attempt of [stop_agent_process] on the process
    [p] raises [e]: on POSIX the lookup of the process group or the signal
    to it, elsewhere [p.terminate()]. *)
Definition graceful_attempt_raises {OS} (H : AgentMarketPlace.host OS)
    (p : AgentMarketPlace.popen) (os os1 : OS) (e : exn) : Prop :=
  if AgentMarketPlace.posix H then
    AgentMarketPlace.os_getpgid H (AgentMarketPlace.popen_pid p) os = (os1, Raise e)
    \/ exists os0 pgid,
         AgentMarketPlace.os_getpgid H (AgentMarketPlace.popen_pid p) os = (os0, Ret pgid)
         /\ AgentMarketPlace.os_killpg H pgid AgentMarketPlace.SIGTERM os0 = (os1, Raise e)
  else AgentMarketPlace.popen_terminate H p os = (os1, Raise e).

(** A handler that always returns. *)
Definition returns {S A} (m : M S A) : Prop :=
  forall s, exists s' log a, m s = (s', log, Ret a).

End Notions.

(** * Properties *)

(** ** Facts about the string primitives *)

Module PyFacts.
Import Py.

Lemma startswith_app (s prefix : str) :
  startswith s prefix = true -> exists rest, s = prefix ++ rest.
Proof.
  revert s. induction prefix as [|p prefix IH]; intros s Hs.
  - exists s. reflexivity.
  - destruct s as [|c s]; simpl in Hs; [discriminate|].
    apply andb_true_iff in Hs as [Hc Hs].
    apply N.eqb_eq in Hc. subst c.
    destruct (IH _ Hs) as [rest ->]. exists rest. reflexivity.
Qed.

Lemma startswith_self_app (prefix rest : str) :
  startswith (prefix ++ rest) prefix = true.
Proof.
  induction prefix as [|p prefix IH]; simpl; [destruct rest; reflexivity|].
  rewrite N.eqb_refl. exact IH.
Qed.

Lemma contains_app (a p b : str) : contains (a ++ p ++ b) p = true.
Proof.
  induction a as [|c a IH]; simpl.
  - destruct p as [|q p]; simpl.
    + destruct b; reflexivity.
    + rewrite N.eqb_refl, startswith_self_app. reflexivity.
  - rewrite IH. apply orb_true_r.
Qed.

Lemma lstrip_suffix (s : str) : exists a, s = a ++ lstrip s.
Proof.
  induction s as [|c s [a IH]]; simpl.
  - exists []. reflexivity.
  - destruct (is_space c).
    + exists (c :: a). simpl. congruence.
    + exists []. reflexivity.
Qed.

Lemma rstrip_prefix (s : str) : exists b, s = rstrip s ++ b.
Proof.
  unfold rstrip. destruct (lstrip_suffix (rev s)) as [a Ha].
  exists (rev a). rewrite <- rev_app_distr, <- Ha, rev_involutive. reflexivity.
Qed.

(** The stripped string sits inside the string. *)
Lemma strip_infix (s : str) : exists a b, s = a ++ strip s ++ b.
Proof.
  unfold strip. destruct (lstrip_suffix s) as [a Ha].
  destruct (rstrip_prefix (lstrip s)) as [b Hb].
  exists a, b. rewrite <- Hb. exact Ha.
Qed.

Lemma lstrip_fixed (s : str) :
  Forall (fun c => is_space c = false) s -> lstrip s = s.
Proof.
  intros Hs. destruct Hs as [|c s Hc _]; simpl; [reflexivity|].
  rewrite Hc. reflexivity.
Qed.

Lemma strip_fixed (s : str) :
  Forall (fun c => is_space c = false) s -> strip s = s.
Proof.
  intros Hs. unfold strip, rstrip.
  rewrite (lstrip_fixed s Hs), lstrip_fixed, rev_involutive; [reflexivity|].
  apply Forall_rev. exact Hs.
Qed.

(** Every line of [splitlines] is a contiguous piece of the text. *)
Lemma splitlines_from_infix (n : nat) :
  forall (s cur line : str),
    (length s <= n)%nat ->
    In line (splitlines_from cur s) ->
    exists a b, rev cur ++ s = a ++ line ++ b.
Proof.
  induction n as [|n IH]; intros s cur line Hn Hin.
  - destruct s as [|c s]; [|simpl in Hn; lia].
    simpl in Hin. destruct cur as [|c cur]; [destruct Hin|].
    destruct Hin as [<-|[]]. exists [], []. rewrite !app_nil_r. reflexivity.
  - destruct s as [|c s].
    + simpl in Hin. destruct cur as [|c cur]; [destruct Hin|].
      destruct Hin as [<-|[]]. exists [], []. rewrite !app_nil_r. reflexivity.
    + simpl in Hn. simpl in Hin.
      destruct (is_linebreak c).
      * destruct Hin as [<-|Hin].
        { exists [], (c :: s). reflexivity. }
        destruct s as [|c2 s]; [destruct Hin|].
        destruct ((c =? 13) && (c2 =? 10)).
        -- destruct (IH s [] line ltac:(simpl in Hn; lia) Hin) as (a & b & Hab).
           simpl in Hab. exists (rev cur ++ c :: c2 :: a), b.
           rewrite <- !app_assoc. simpl. rewrite <- Hab. reflexivity.
        -- destruct (IH (c2 :: s) [] line ltac:(simpl in *; lia) Hin) as (a & b & Hab).
           simpl in Hab. exists (rev cur ++ c :: a), b.
           rewrite <- !app_assoc. simpl. rewrite <- Hab. reflexivity.
      * destruct (IH s (c :: cur) line ltac:(lia) Hin) as (a & b & Hab).
        exists a, b. rewrite <- Hab. simpl. rewrite <- app_assoc. reflexivity.
Qed.

Lemma splitlines_infix (s line : str) :
  In line (splitlines s) -> exists a b, s = a ++ line ++ b.
Proof.
  intros Hin. exact (splitlines_from_infix (length s) s [] line (le_n _) Hin).
Qed.

(** A text without the substring has no line that contains it. *)
Lemma contains_line (s line p : str) :
  In line (splitlines s) -> contains line p = true -> contains s p = true.
Proof.
  intros Hin Hp. destruct (splitlines_infix s line Hin) as (a & b & ->).
  clear Hin. induction line as [|c line IH] in a, Hp |- *.
  - simpl in Hp. rewrite orb_false_r in Hp.
    destruct p as [|q p]; [|discriminate].
    exact (contains_app a [] b).
  - change (startswith (c :: line) p || contains line p = true) in Hp.
    apply orb_true_iff in Hp as [Hp|Hp].
    + apply startswith_app in Hp as [rest Hrest]. rewrite Hrest.
      rewrite <- app_assoc. apply contains_app.
    + specialize (IH (a ++ [c]) Hp). rewrite <- app_assoc in IH. exact IH.
Qed.

Lemma splitlines_nonempty (s : str) : splitlines s <> [] -> s <> [].
Proof. intros H ->. apply H. reflexivity. Qed.

End PyFacts.

(** ** The Code Extractor *)

Module ExtractorFacts.
Import Py PyFacts Visualisation.

Lemma collect_inner_closed (inner : list str) (closing : str) (after : list str) :
  Forall plain inner -> is_fence closing = true ->
  collect_inner (inner ++ closing :: after) = inner.
Proof.
  intros Hinner Hclosing. induction Hinner as [|line inner Hline _ IH]; simpl.
  - rewrite Hclosing. reflexivity.
  - rewrite Hline, IH. reflexivity.
Qed.

Lemma collect_inner_open (rest : list str) :
  Forall plain rest -> collect_inner rest = rest.
Proof.
  induction 1 as [|line rest Hline _ IH]; simpl; [reflexivity|].
  rewrite Hline, IH. reflexivity.
Qed.

Lemma find_start_none (i : nat) (lines : list str) :
  Forall plain lines -> find_start i lines = None.
Proof.
  intros Hlines. revert i.
  induction Hlines as [|line lines Hline _ IH]; intros i; simpl; [reflexivity|].
  rewrite Hline. apply IH.
Qed.

Lemma fence_contains_backticks (line : str) :
  is_fence line = true -> contains line (lit "```") = true.
Proof.
  unfold is_fence. intros Hfence.
  destruct (startswith_app _ _ Hfence) as [rest Hrest].
  destruct (strip_infix line) as (a & b & Hline).
  rewrite Hline, Hrest, <- app_assoc. apply contains_app.
Qed.

(** A text in which three backticks never occur has no fence marker
    line. *)
Lemma no_backticks_no_fence (text : str) :
  contains text (lit "```") = false -> Forall plain (splitlines text).
Proof.
  intros Hnone. apply List.Forall_forall. intros line Hin.
  unfold plain. destruct (is_fence line) eqn:Hfence; [|reflexivity].
  rewrite (contains_line text line _ Hin (fence_contains_backticks line Hfence)) in Hnone.
  discriminate.
Qed.

(** C1.  When the first line of the text is a fence marker line,
    [extract_code] returns the lines after it up to, and without, the next
    fence marker line, joined by newlines; when no further marker line
    follows, these are all the remaining lines.  Neither marker line is
    part of the result. *)
Theorem extract_code_leading_fence (text opening : str) (rest : list str) :
  splitlines text = opening :: rest ->
  is_fence opening = true ->
  (forall inner closing after,
      rest = inner ++ closing :: after ->
      Forall plain inner -> is_fence closing = true ->
      extract_code text = join nl inner)
  /\ (Forall plain rest -> extract_code text = join nl rest).
Proof.
  intros Hlines Hopening.
  assert (Hcode : extract_code text = join nl (collect_inner rest)).
  { unfold extract_code. destruct text as [|c text]; [discriminate Hlines|].
    rewrite Hlines, Hopening. reflexivity. }
  split.
  - intros inner closing after -> Hinner Hclosing.
    rewrite Hcode, collect_inner_closed by assumption. reflexivity.
  - intros Hrest. rewrite Hcode, collect_inner_open by assumption. reflexivity.
Qed.

Lemma extract_code_leading_fence_witness :
  let text := join nl [lit "```python"; lit "x = 1"; lit "y = 2"; lit "```"; lit "tail"] in
  splitlines text = lit "```python" :: [lit "x = 1"; lit "y = 2"] ++ lit "```" :: [lit "tail"]
  /\ is_fence (lit "```python") = true
  /\ extract_code text = join nl [lit "x = 1"; lit "y = 2"].
Proof.
  intros text.
  assert (Hlines : splitlines text
                   = lit "```python" :: [lit "x = 1"; lit "y = 2"] ++ lit "```" :: [lit "tail"])
    by (vm_compute; reflexivity).
  assert (Hopening : is_fence (lit "```python") = true) by (vm_compute; reflexivity).
  split; [exact Hlines|]. split; [exact Hopening|].
  apply (proj1 (extract_code_leading_fence text _ _ Hlines Hopening)
               [lit "x = 1"; lit "y = 2"] (lit "```") [lit "tail"]).
  - reflexivity.
  - repeat constructor.
  - vm_compute; reflexivity.
Defined.

(** When the search for a fence finds none, the text comes back as it
    is. *)
Lemma extract_code_search_fails (text : str) :
  find_start 0 (splitlines text) = None -> extract_code text = text.
Proof.
  intros Hnone. unfold extract_code.
  destruct text as [|c text]; [reflexivity|].
  rewrite Hnone.
  destruct (splitlines (c :: text)) as [|first rest]; [reflexivity|].
  simpl in Hnone. destruct (is_fence first); [discriminate|reflexivity].
Qed.

(** The same for a text that does not contain three backticks in a
    row anywhere. *)
Corollary extract_code_no_backticks (text : str) :
  contains text (lit "```") = false -> extract_code text = text.
Proof.
  intros Hnone.
  apply extract_code_search_fails, find_start_none, no_backticks_no_fence, Hnone.
Qed.

(** C2.  A text none of whose lines is a fence marker line is returned
    unchanged. *)
Theorem extract_code_no_fence (text : str) :
  Forall plain (splitlines text) -> extract_code text = text.
Proof.
  intros Hplain. apply extract_code_search_fails, find_start_none, Hplain.
Qed.

Lemma extract_code_no_fence_witness :
  let text := join nl [lit "import math"; lit "fig = None"] in
  Forall plain (splitlines text) /\ extract_code text = text.
Proof.
  intros text.
  assert (Hplain : Forall plain (splitlines text)).
  { vm_compute. repeat constructor. }
  split; [exact Hplain|].
  exact (extract_code_no_fence text Hplain).
Defined.

End ExtractorFacts.

(** ** The Sandboxed Executor *)

Module ExecutorFacts.
Import Py PyFacts Runtime Snippets.

Lemma dict_get_absent (d : gmap str value) (key : str) :
  d !! key = None -> dict_get d key = VNone.
Proof. unfold dict_get. intros ->. reflexivity. Qed.

Lemma dict_get_present (d : gmap str value) (key : str) (v : value) :
  d !! key = Some v -> dict_get d key = v.
Proof. unfold dict_get. intros ->. reflexivity. Qed.

Section Handlers.
Context {W : Type} (I : interpreter W).
Variable dedent : str -> str.
Variable savefig : value -> res value.
Variable pyplot : value -> res unit.
Variable format_exc : exn -> str.
Variables connection cursor : value.

(** What [run_generated_code] does with each outcome of [exec]. *)
Lemma run_generated_code_raise (code : str) (df : value) (w w' : W) (e : exn) :
  py_exec I (dedent code) Visualisation.exec_globals {[ lit "df" := df ]} w = (w', Raise e) ->
  Visualisation.run_generated_code I dedent code df w
  = (w', [exec_call (dedent code)],
     if exn_is_Exception e then
       match py_str e with
       | Ret msg => Ret (VNone, Some msg, dedent code)
       | Raise fault => Raise fault
       end
     else Raise e).
Proof.
  intros Hexec.
  unfold Visualisation.run_generated_code, bind, try_except, exec, ret, lift.
  rewrite Hexec. destruct (exn_is_Exception e); [|reflexivity].
  destruct (py_str e); reflexivity.
Qed.

Lemma run_generated_code_done (code : str) (df : value) (w w' : W)
    (g' l' : gmap str value) :
  py_exec I (dedent code) Visualisation.exec_globals {[ lit "df" := df ]} w
  = (w', Ret (g', l')) ->
  Visualisation.run_generated_code I dedent code df w
  = (w', [exec_call (dedent code)],
     match py_or (dict_get l' (lit "fig")) (dict_get g' (lit "fig")) with
     | Ret fig => Ret (fig, None, dedent code)
     | Raise e => Raise e
     end).
Proof.
  intros Hexec.
  unfold Visualisation.run_generated_code, bind, try_except, exec, ret, lift.
  rewrite Hexec. simpl.
  destruct (py_or _ _); reflexivity.
Qed.

(** C3, as the code has it.  A fault that is an instance of
    [Exception] and whose text [str(e)] can be taken never leaves the
    executor: [run_generated_code] returns [(None, str(e), code)], so that
    the visualisation handler ends normally with an error shown; the
    workflow planner shows the diagnostic and re-raises to its own
    enclosing handler, which shows it again and ends normally.  When the
    [__str__] of the exception raises instead, [run_generated_code] is
    left with what [__str__] raised. *)
Theorem exception_is_caught (e : exn) :
  exn_is_Exception e = true ->
  (forall msg, py_str e = Ret msg ->
     (forall code df w w',
         py_exec I (dedent code) Visualisation.exec_globals {[ lit "df" := df ]} w
         = (w', Raise e) ->
         Visualisation.run_generated_code I dedent code df w
         = (w', [exec_call (dedent code)], Ret (VNone, Some msg, dedent code)))
     /\ (forall code_text df w w',
         py_exec I (dedent (Visualisation.extract_code code_text))
           Visualisation.exec_globals {[ lit "df" := df ]} w = (w', Raise e) ->
         exists log,
           Visualisation.generate_visualization I dedent savefig pyplot (Ret code_text) df w
           = (w', log, Ret tt)
           /\ exists shown, In (st_error shown) log)
     /\ (forall code w w',
         py_exec I (WorkflowPlanner.code_to_exec code) {[ lit "plt" := VObject 1 ]} ∅ w
         = (w', Raise e) ->
         WorkflowPlanner.generate_workflow_diagram I savefig (Ret (Some code)) w
         = (w',
            [exec_call (WorkflowPlanner.code_to_exec code);
             st_error (lit "Error executing generated code: " ++ msg);
             st_code (WorkflowPlanner.code_to_exec code);
             st_error (lit "Error generating diagram: " ++ msg)],
            Ret tt)))
  /\ (forall fault, py_str e = Raise fault ->
      forall code df w w',
        py_exec I (dedent code) Visualisation.exec_globals {[ lit "df" := df ]} w
        = (w', Raise e) ->
        Visualisation.run_generated_code I dedent code df w
        = (w', [exec_call (dedent code)], Raise fault)).
Proof.
  intros He. split.
  - intros msg Hstr. split; [|split].
    + intros code df w w' Hexec.
      rewrite (run_generated_code_raise code df w w' e Hexec), He, Hstr. reflexivity.
    + intros code_text df w w' Hexec.
      unfold Visualisation.generate_visualization.
      unfold bind at 1. unfold emit at 1. unfold try_except at 1.
      unfold bind at 1. unfold lift at 1. unfold bind at 1. unfold emit at 1.
      unfold bind at 1.
      rewrite (run_generated_code_raise _ df w w' e Hexec), He, Hstr.
      destruct msg as [|c msg]; simpl; eexists; (split; [reflexivity|]);
        eexists; simpl; eauto.
    + intros code w w' Hexec.
      unfold WorkflowPlanner.generate_workflow_diagram,
        try_except, bind, lift, ret, exec, emit, raise.
      rewrite Hexec, He, Hstr. simpl. rewrite He, Hstr. reflexivity.
  - intros fault Hstr code df w w' Hexec.
    rewrite (run_generated_code_raise code df w w' e Hexec), He, Hstr. reflexivity.
Qed.

(** C4, as the code has it.  After a snippet ran to its end,
    [run_generated_code] returns the local [fig] when it is bound to a true
    value; when it is unbound or bound to a false value, the global [fig],
    and [None] when neither namespace binds it; when the local [fig] is
    bound to an object whose truth value cannot be taken, the function
    raises the error of that test.  The database page reads [result] from
    the local namespace alone, whatever the global one holds, and shows a
    fixed text when it is absent.  An absent variable is in each case a
    normal return. *)
Theorem result_variable_lookup :
  (forall code df w w' g' l',
      py_exec I (dedent code) Visualisation.exec_globals {[ lit "df" := df ]} w
      = (w', Ret (g', l')) ->
      let returns fig :=
        Visualisation.run_generated_code I dedent code df w
        = (w', [exec_call (dedent code)], Ret (fig, None, dedent code)) in
      (l' !! lit "fig" = None -> g' !! lit "fig" = None -> returns VNone)
      /\ (forall fig, l' !! lit "fig" = Some fig -> truth fig = Ret true -> returns fig)
      /\ (forall fig, l' !! lit "fig" = None -> g' !! lit "fig" = Some fig -> returns fig)
      /\ (forall v, l' !! lit "fig" = Some v -> truth v = Ret false ->
          returns (dict_get g' (lit "fig")))
      /\ (forall v e, l' !! lit "fig" = Some v -> truth v = Raise e ->
          Visualisation.run_generated_code I dedent code df w
          = (w', [exec_call (dedent code)], Raise e)))
  /\ (forall code w w' g' l',
      (2 < length (splitlines code))%nat ->
      py_exec I (join nl (SupabaseConnector.strip_first_last (splitlines code)))
        (SupabaseConnector.safe_globals connection cursor) ∅ w = (w', Ret (g', l')) ->
      let ran := [st_subheader (lit "Execution result");
                  exec_call (join nl (SupabaseConnector.strip_first_last (splitlines code)))] in
      (exists shown,
          SupabaseConnector.show_result (dict_get l' (lit "result")) w' = (w', shown, Ret tt)
          /\ SupabaseConnector.execute_generated I format_exc connection cursor code w
             = (w', ran ++ shown, Ret tt))
      /\ (l' !! lit "result" = None ->
          SupabaseConnector.execute_generated I format_exc connection cursor code w
          = (w', ran ++ [st_write (VStr (lit "No 'result' variable returned."))], Ret tt))).
Proof.
  split.
  - intros code df w w' g' l' Hexec returns. subst returns.
    rewrite (run_generated_code_done code df w w' g' l' Hexec).
    split; [|split; [|split; [|split]]].
    + intros Hl Hg. rewrite (dict_get_absent _ _ Hl), (dict_get_absent _ _ Hg).
      reflexivity.
    + intros fig Hl Hfig. rewrite (dict_get_present _ _ _ Hl).
      unfold py_or. rewrite Hfig. reflexivity.
    + intros fig Hl Hg. rewrite (dict_get_absent _ _ Hl), (dict_get_present _ _ _ Hg).
      reflexivity.
    + intros v Hl Hv. rewrite (dict_get_present _ _ _ Hl).
      unfold py_or. rewrite Hv. reflexivity.
    + intros v e Hl Hv. rewrite (dict_get_present _ _ _ Hl).
      unfold py_or. rewrite Hv. reflexivity.
  - intros code w w' g' l' Hlen Hexec ran. subst ran.
    apply Nat.ltb_lt in Hlen.
    assert (Hrun : forall shown,
               SupabaseConnector.show_result (dict_get l' (lit "result")) w'
               = (w', shown, Ret tt) ->
               SupabaseConnector.execute_generated I format_exc connection cursor code w
               = (w', [st_subheader (lit "Execution result");
                       exec_call (join nl (SupabaseConnector.strip_first_last
                                             (splitlines code)))] ++ shown, Ret tt)).
    { intros shown Hshown.
      unfold SupabaseConnector.execute_generated, bind, try_except, emit, exec.
      rewrite Hlen, Hexec. cbn [snd]. rewrite Hshown. reflexivity. }
    split.
    + destruct (dict_get l' (lit "result")) as [| | | |[|row rows]| | |] eqn:Hres;
        eexists; (split; [reflexivity|]); apply Hrun; reflexivity.
    + intros Hl. apply Hrun. rewrite (dict_get_absent _ _ Hl). reflexivity.
Qed.



End Handlers.

Lemma exception_is_caught_witness :
  exn_is_Exception (ValueError (lit "boom")) = true
  /\ Visualisation.run_generated_code table dedent_flush raise_ValueError VNone tt
     = (tt, [exec_call raise_ValueError], Ret (VNone, Some (lit "boom"), raise_ValueError)).
Proof.
  split; [reflexivity|].
  apply (proj1 (proj1 (exception_is_caught table dedent_flush savefig_ok pyplot_ok
                         (ValueError (lit "boom")) eq_refl)
                  (lit "boom") eq_refl)).
  vm_compute; reflexivity.
Defined.

(** C3, as stated, fails: a snippet that raises [SystemExit] is a fault
    that [except Exception] does not match; it leaves
    [run_generated_code] and then the handler that called it. *)
Lemma SystemExit_escapes :
  py_exec table (dedent_flush raise_SystemExit) Visualisation.exec_globals
    {[ lit "df" := VNone ]} tt = (tt, Raise SystemExit)
  /\ Visualisation.run_generated_code table dedent_flush raise_SystemExit VNone tt
     = (tt, [exec_call raise_SystemExit], Raise SystemExit)
  /\ Visualisation.generate_visualization table dedent_flush savefig_ok pyplot_ok
       (Ret raise_SystemExit) VNone tt
     = (tt, [st_info (lit "Requesting generated code from model...");
             st_code raise_SystemExit; exec_call raise_SystemExit],
        Raise SystemExit).
Proof. split; [|split]; vm_compute; reflexivity. Qed.

Lemma result_variable_lookup_witness :
  Visualisation.run_generated_code table dedent_flush pass VNone tt
  = (tt, [exec_call pass], Ret (VNone, None, pass)).
Proof.
  refine (proj1 (proj1 (result_variable_lookup table dedent_flush format_exc_short
                          VNone VNone)
                   pass VNone tt tt Visualisation.exec_globals {[ lit "df" := VNone ]} _)
            _ _);
    vm_compute; reflexivity.
Defined.

(** C4, as stated, fails on the database page: a snippet that binds
    [result] in the global namespace leaves a value the page never reads;
    it reports that no result was returned. *)
Lemma global_result_not_read :
  let code := join nl [lit "```python"; assign_global_result; lit "```"] in
  let g' := <[lit "result" := VList [VTuple [VInt 1; VInt 2]]]>
              (SupabaseConnector.safe_globals VNone VNone) in
  py_exec table (join nl (SupabaseConnector.strip_first_last (splitlines code)))
    (SupabaseConnector.safe_globals VNone VNone) ∅ tt = (tt, Ret (g', ∅))
  /\ g' !! lit "result" = Some (VList [VTuple [VInt 1; VInt 2]])
  /\ SupabaseConnector.execute_generated table format_exc_short VNone VNone code tt
     = (tt, [st_subheader (lit "Execution result");
             exec_call assign_global_result;
             st_write (VStr (lit "No 'result' variable returned."))],
        Ret tt).
Proof.
  intros code g'. split; [|split].
  - vm_compute; reflexivity.
  - apply lookup_insert_eq.
  - vm_compute; reflexivity.
Qed.



End ExecutorFacts.

(** ** File name sanitisation *)

Module SanitizeFacts.
Import Py PyFacts.

Lemma in_class_not_space (c : N) : in_class c = true -> is_space c = false.
Proof.
  intros Hclass. apply not_true_is_false. intros Hspace.
  unfold in_class in Hclass. unfold is_space in Hspace.
  repeat first [ rewrite orb_true_iff in Hclass | rewrite andb_true_iff in Hclass
               | rewrite N.leb_le in Hclass | rewrite N.eqb_eq in Hclass ].
  repeat first [ rewrite orb_true_iff in Hspace | rewrite andb_true_iff in Hspace
               | rewrite N.leb_le in Hspace | rewrite N.eqb_eq in Hspace ].
  lia.
Qed.

Lemma replaced_in_class (c : N) : in_class (replaced c) = true.
Proof. unfold replaced. destruct (in_class c) eqn:Hc; [exact Hc|reflexivity]. Qed.

Lemma re_sub_in_class (name : str) : Forall (fun c => in_class c = true) (re_sub_outside_class name).
Proof.
  unfold re_sub_outside_class. apply Forall_map, Forall_true. intros c.
  apply replaced_in_class.
Qed.

Lemma re_sub_fixed (name : str) :
  Forall (fun c => in_class c = true) name -> re_sub_outside_class name = name.
Proof.
  induction 1 as [|c name Hc _ IH]; simpl; [reflexivity|].
  unfold replaced at 1. rewrite Hc. f_equal. exact IH.
Qed.

Lemma re_sub_lookup (name : str) (i : nat) :
  re_sub_outside_class name !! i = replaced <$> name !! i.
Proof. unfold re_sub_outside_class. apply list_lookup_fmap. Qed.

Lemma re_sub_length (name : str) : length (re_sub_outside_class name) = length name.
Proof. unfold re_sub_outside_class. apply length_map. Qed.

Lemma re_sub_nil (name : str) : re_sub_outside_class name = [] <-> name = [].
Proof. destruct name; simpl; split; intros H; try reflexivity; discriminate. Qed.

Lemma class_strip_fixed (name : str) :
  Forall (fun c => in_class c = true) name -> strip name = name.
Proof.
  intros Hname. apply strip_fixed.
  eapply Forall_impl; [exact Hname|]. intros c. apply in_class_not_space.
Qed.

(** The common body of the two functions, for any default name. *)
Lemma sanitize_body_fixed (fallback name : str) :
  Forall (fun c => in_class c = true) name -> name <> [] ->
  match re_sub_outside_class (strip name) with
  | [] => fallback
  | _ :: _ => re_sub_outside_class (strip name)
  end = name.
Proof.
  intros Hname Hne.
  rewrite (class_strip_fixed name Hname), (re_sub_fixed name Hname).
  destruct name; [contradiction|reflexivity].
Qed.

Lemma sanitize_body_in_class (fallback name : str) :
  Forall (fun c => in_class c = true) fallback -> fallback <> [] ->
  let out := match re_sub_outside_class (strip name) with
             | [] => fallback
             | _ :: _ => re_sub_outside_class (strip name)
             end in
  Forall (fun c => in_class c = true) out /\ out <> [].
Proof.
  intros Hfallback Hne out. subst out.
  pose proof (re_sub_in_class (strip name)) as Hsub.
  destruct (re_sub_outside_class (strip name)) as [|c rest] eqn:Hout.
  - split; assumption.
  - split; [exact Hsub|discriminate].
Qed.

Lemma agent_in_class : Forall (fun c => in_class c = true) (lit "agent").
Proof. vm_compute. repeat constructor. Qed.

Lemma multi_agent_in_class : Forall (fun c => in_class c = true) (lit "multi_agent").
Proof. vm_compute. repeat constructor. Qed.

(** The example of the design document. *)
Example sanitize_filename_my_agent :
  BuildAgent.sanitize_filename (lit "my agent!.py") = lit "my_agent__py".
Proof. vm_compute; reflexivity. Qed.

(** C6, as the code has it.  Both functions first strip the white space
    around the name.  If nothing is left the result is the fixed default
    name; otherwise the result has, position by position, the characters
    of the stripped name, each one outside [A-Za-z0-9_-] replaced by an
    underscore and every other one unchanged. *)
Theorem sanitize_filename_characters (name : str) :
  (strip name = [] ->
   BuildAgent.sanitize_filename name = lit "agent"
   /\ MultiAgentSystem.sanitize_filename name = lit "multi_agent")
  /\ (strip name <> [] ->
      MultiAgentSystem.sanitize_filename name = BuildAgent.sanitize_filename name
      /\ length (BuildAgent.sanitize_filename name) = length (strip name)
      /\ forall i c, strip name !! i = Some c ->
           BuildAgent.sanitize_filename name !! i
           = Some (if in_class c then c else 95)).
Proof.
  unfold BuildAgent.sanitize_filename, MultiAgentSystem.sanitize_filename.
  split.
  - intros ->. split; reflexivity.
  - intros Hne.
    destruct (re_sub_outside_class (strip name)) as [|c rest] eqn:Hsub.
    { apply (proj1 (re_sub_nil _)) in Hsub. contradiction. }
    rewrite <- Hsub. split; [reflexivity|]. split; [apply re_sub_length|].
    intros i ch Hi. rewrite re_sub_lookup, Hi. reflexivity.
Qed.

Lemma sanitize_filename_characters_witness :
  strip (lit " my agent!.py ") <> []
  /\ BuildAgent.sanitize_filename (lit " my agent!.py ") !! 2%nat = Some 95.
Proof.
  assert (Hne : strip (lit " my agent!.py ") <> []) by (intros Hnil; vm_compute in Hnil; discriminate Hnil).
  split; [exact Hne|].
  apply (proj2 (proj2 (proj2 (sanitize_filename_characters (lit " my agent!.py ")) Hne))
           2%nat 32).
  vm_compute; reflexivity.
Defined.

(** C6, as stated, fails: the white space around a name is removed, not
    replaced by underscores. *)
Lemma surrounding_space_is_removed :
  BuildAgent.sanitize_filename (lit " a") = lit "a"
  /\ MultiAgentSystem.sanitize_filename (lit " a") = lit "a"
  /\ map (fun c => if in_class c then c else 95) (lit " a") = lit "_a"
  /\ BuildAgent.sanitize_filename (lit " a") <> lit "_a".
Proof.
  split; [|split; [|split]]; try (vm_compute; reflexivity).
  intros Heq. vm_compute in Heq. discriminate Heq.
Qed.

(** C10.  Both functions are idempotent, and their result is never
    empty and consists of characters of [A-Za-z0-9_-] only. *)
Theorem sanitize_filename_idempotent (name : str) :
  (BuildAgent.sanitize_filename (BuildAgent.sanitize_filename name)
   = BuildAgent.sanitize_filename name
   /\ BuildAgent.sanitize_filename name <> []
   /\ Forall (fun c => in_class c = true) (BuildAgent.sanitize_filename name))
  /\ (MultiAgentSystem.sanitize_filename (MultiAgentSystem.sanitize_filename name)
      = MultiAgentSystem.sanitize_filename name
      /\ MultiAgentSystem.sanitize_filename name <> []
      /\ Forall (fun c => in_class c = true) (MultiAgentSystem.sanitize_filename name)).
Proof.
  split.
  - destruct (sanitize_body_in_class (lit "agent") name agent_in_class ltac:(discriminate))
      as [Hclass Hne].
    split; [|split; [exact Hne|exact Hclass]].
    exact (sanitize_body_fixed (lit "agent") _ Hclass Hne).
  - destruct (sanitize_body_in_class (lit "multi_agent") name multi_agent_in_class
                ltac:(discriminate)) as [Hclass Hne].
    split; [|split; [exact Hne|exact Hclass]].
    exact (sanitize_body_fixed (lit "multi_agent") _ Hclass Hne).
Qed.

End SanitizeFacts.

(** ** Fence extraction of the builder pages *)

Module FenceFacts.
Import Py PyFacts Runtime Builder.

(** When the loop ends with a closing index, a closing line was seen, and
    an opening line before it unless one had been recorded already. *)
Lemma scan_closed (lines : list str) :
  forall i start s e,
    scan i lines start None = (s, Some e) ->
    exists j closing,
      lines !! j = Some closing /\ is_close closing = true
      /\ (is_Some start
          \/ exists k opening,
               (k < j)%nat /\ lines !! k = Some opening /\ is_open opening = true).
Proof.
  induction lines as [|line rest IH]; intros i start s e Hscan; simpl in Hscan.
  - discriminate.
  - destruct (is_open line) eqn:Hopen.
    + destruct (IH _ _ _ _ Hscan) as (j & closing & Hj & Hclose & _).
      exists (S j), closing. split; [exact Hj|]. split; [exact Hclose|].
      right. exists 0%nat, line. split; [lia|]. split; [reflexivity|exact Hopen].
    + destruct (is_close line) eqn:Hclose; simpl in Hscan.
      * destruct (bool_decide (is_Some start)) eqn:Hstart; simpl in Hscan.
        -- apply bool_decide_eq_true in Hstart.
           exists 0%nat, line. split; [reflexivity|]. split; [exact Hclose|].
           left. exact Hstart.
        -- destruct (IH _ _ _ _ Hscan) as (j & closing & Hj & Hcl & Hbefore).
           exists (S j), closing. split; [exact Hj|]. split; [exact Hcl|].
           destruct Hbefore as [Hsome|(k & opening & Hk & Hlk & Hop)]; [left; exact Hsome|].
           right. exists (S k), opening. split; [lia|]. split; assumption.
      * destruct (IH _ _ _ _ Hscan) as (j & closing & Hj & Hcl & Hbefore).
        exists (S j), closing. split; [exact Hj|]. split; [exact Hcl|].
        destruct Hbefore as [Hsome|(k & opening & Hk & Hlk & Hop)]; [left; exact Hsome|].
        right. exists (S k), opening. split; [lia|]. split; assumption.
Qed.

Lemma scan_finds_block (lines : list str) (s : option nat) (e : nat) :
  scan 0 lines None None = (s, Some e) -> has_block lines.
Proof.
  intros Hscan.
  destruct (scan_closed lines _ _ _ _ Hscan)
    as (j & closing & Hj & Hclose & [[x Hx]|(k & opening & Hk & Hlk & Hop)]).
  - discriminate Hx.
  - exists k, j, opening, closing. repeat (split; [assumption|]). assumption.
Qed.

(** Without a block the text is kept as it is. *)
Lemma extract_fenced_unchanged (code : str) :
  ~ has_block (splitlines code) -> extract_fenced code = code.
Proof.
  intros Hnone. unfold extract_fenced.
  destruct (contains code (lit "```")); [|reflexivity].
  destruct (scan 0 (splitlines code) None None) as [s [e|]] eqn:Hscan.
  - destruct Hnone. exact (scan_finds_block _ _ _ Hscan).
  - destruct s; reflexivity.
Qed.

(** The text is changed only where a block was found. *)
Lemma extract_fenced_changed (code : str) :
  extract_fenced code <> code -> has_block (splitlines code).
Proof.
  unfold extract_fenced. intros Hchanged.
  destruct (contains code (lit "```")); [|contradiction].
  destruct (scan 0 (splitlines code) None None) as [s [e|]] eqn:Hscan.
  - exact (scan_finds_block _ _ _ Hscan).
  - destruct s; contradiction.
Qed.

(** An answer with a tagged block is cut down to the block. *)
Example extract_fenced_block :
  extract_fenced (join nl [lit "Sure:"; lit "```python"; lit "x = 1"; lit "```"; lit "Bye"])
  = lit "x = 1".
Proof. vm_compute; reflexivity. Qed.

(** A text without an opening line has no block. *)
Lemma no_opening_no_block (lines : list str) :
  forallb (fun line => negb (is_open line)) lines = true -> ~ has_block lines.
Proof.
  intros Hall (i & j & opening & closing & _ & Hi & Hopen & _).
  rewrite forallb_forall in Hall.
  apply list_elem_of_lookup_2, list_elem_of_In in Hi.
  specialize (Hall _ Hi). rewrite Hopen in Hall. discriminate.
Qed.

Lemma contains_nonempty (s p : str) : p <> [] -> contains s p = true -> s <> [].
Proof.
  intros Hp Hs ->. destruct p; [contradiction|discriminate].
Qed.

(** C9, as the code has it.  Both pages strip the answer first.  When
    the stripped answer holds three backticks somewhere but no opening
    line followed by a closing line, the multi-agent page keeps it as it
    is: it becomes the code of the session and the content of
    [generated_app.py].  The builder page does the same when no key is
    due or the text names [USER_GEMINI_KEY] already; with a key it puts
    the key line and an empty line in front of the unchanged text, and
    that is what it keeps and writes. *)
Theorem unrecognised_fence_kept (text : option str) :
  let raw := strip (default [] text) in
  contains raw (lit "```") = true ->
  ~ has_block (splitlines raw) ->
  (forall (open_fault : str -> option exn) (generate_content : str -> res (option str))
          (app_description : str) (req_rag req_mcp req_ai : bool) (key_field : str)
          (st : BuildAgent.state),
      let gemini_api_key : str := if req_ai then key_field else [] in
      let kept := BuildAgent.with_key req_ai gemini_api_key raw in
      let st' := (Clicks.generate_click open_fault generate_content app_description
                    req_rag req_mcp req_ai key_field st).1.1 in
      strip app_description <> [] ->
      generate_content (Clicks.full_prompt app_description req_rag req_mcp req_ai
                          gemini_api_key) = Ret text ->
      BuildAgent.generated_code (BuildAgent.ss st') = Some kept
      /\ (open_fault (lit "generated_app.py") = None ->
          BuildAgent.files st' !! lit "generated_app.py" = Some kept)
      /\ (gemini_api_key = [] \/ contains raw (lit "USER_GEMINI_KEY") = true -> kept = raw)
      /\ (gemini_api_key <> [] -> contains raw (lit "USER_GEMINI_KEY") = false ->
          kept = lit "USER_GEMINI_KEY = " ++ [34] ++ gemini_api_key ++ [34; 10; 10] ++ raw))
  /\ (forall (open_fault : str -> option exn) (generate_content : str -> res (option str))
          (selected : list str) (connection_prompt : str) (st : Clicks.multi),
      let st' := (Clicks.submit open_fault generate_content selected connection_prompt
                    st).1.1 in
      selected <> [] -> strip connection_prompt <> [] ->
      generate_content (Clicks.orchestrator_prompt selected connection_prompt) = Ret text ->
      Clicks.generated_multi_agent st' = Some raw
      /\ (open_fault (lit "generated_app.py") = None ->
          Clicks.multi_files st' !! lit "generated_app.py" = Some raw)).
Proof.
  intros raw Hticks Hnone.
  pose proof (extract_fenced_unchanged raw Hnone) as Hkept.
  split.
  - intros open_fault generate_content app_description req_rag req_mcp req_ai key_field st
      gemini_api_key kept st' Hdesc Hcall.
    assert (Hstate : BuildAgent.generated_code (BuildAgent.ss st') = Some kept
                     /\ (open_fault (lit "generated_app.py") = None ->
                         BuildAgent.files st' !! lit "generated_app.py" = Some kept)).
    { subst st' kept. unfold Clicks.generate_click. fold gemini_api_key.
      destruct (strip app_description); [contradiction|].
      rewrite Hcall. fold raw.
      unfold BuildAgent.keep_generated, BuildAgent.write_file, BuildAgent.set_session,
        BuildAgent.cleaned_code.
      rewrite Hkept.
      destruct (open_fault (lit "generated_app.py")) as [e|].
      - unfold try_except, bind, modify, emit, raise.
        destruct (exn_is_Exception e); cbn; (split; [reflexivity|intros Hopen; discriminate Hopen]).
      - cbn. split; [reflexivity|]. intros _. apply lookup_insert_eq. }
    destruct Hstate as [Hsession Hfile].
    split; [exact Hsession|]. split; [exact Hfile|].
    subst kept. unfold BuildAgent.with_key. split.
    + intros [Hkey|Hnamed].
      * rewrite Hkey. rewrite andb_false_r. reflexivity.
      * rewrite Hnamed. rewrite andb_false_r. reflexivity.
    + intros Hkey Hnamed. rewrite Hnamed.
      assert (Hai : req_ai = true).
      { subst gemini_api_key. destruct req_ai; [reflexivity|contradiction]. }
      rewrite Hai. destruct gemini_api_key; [contradiction|]. reflexivity.
  - intros open_fault generate_content selected connection_prompt st st' Hsel Hprompt Hcall.
    subst st'. unfold Clicks.submit.
    destruct selected as [|name selected]; [contradiction|].
    destruct (strip connection_prompt) eqn:Hstrip; [contradiction|].
    set (prompt := Clicks.orchestrator_prompt _ _) in *. clearbody prompt.
    unfold Clicks.write_generated, try_except, bind, lift, ret, emit, modify, raise.
    rewrite Hcall. fold raw.
    assert (Hclean : MultiAgentSystem.cleaned_code (Some raw) = raw).
    { unfold MultiAgentSystem.cleaned_code.
      destruct raw as [|c raw']; [discriminate Hticks|exact Hkept]. }
    cbn [fst snd]. rewrite Hclean.
    destruct (open_fault (lit "generated_app.py")) as [e|].
    + cbn. destruct (exn_is_Exception e); cbn;
        (split; [reflexivity|intros Hopen; discriminate Hopen]).
    + cbn. split; [reflexivity|]. intros _. apply lookup_insert_eq.
Qed.

Lemma loose_answer_has_no_block :
  strip Desk.loose_answer = Desk.loose_answer
  /\ contains Desk.loose_answer (lit "```") = true
  /\ ~ has_block (splitlines Desk.loose_answer).
Proof.
  split; [vm_compute; reflexivity|]. split; [vm_compute; reflexivity|].
  apply no_opening_no_block. vm_compute; reflexivity.
Qed.

Lemma unrecognised_fence_kept_witness :
  let st := {| BuildAgent.ss := Desk.empty_session; BuildAgent.files := Desk.earlier_app |} in
  let st' := (Clicks.generate_click Fixtures.no_open_fault Desk.loose_model (lit "a clock")
                false false false [] st).1.1 in
  contains Desk.loose_answer (lit "```") = true
  /\ ~ has_block (splitlines Desk.loose_answer)
  /\ BuildAgent.generated_code (BuildAgent.ss st') = Some Desk.loose_answer
  /\ BuildAgent.files st' !! lit "generated_app.py" = Some Desk.loose_answer.
Proof.
  intros st st'.
  destruct loose_answer_has_no_block as (Hstrip & Hticks & Hnone).
  split; [exact Hticks|]. split; [exact Hnone|].
  assert (Hticks' : contains (strip (default [] (Some Desk.loose_answer))) (lit "```") = true)
    by (cbn [default from_option id]; rewrite Hstrip; exact Hticks).
  assert (Hnone' : ~ has_block (splitlines (strip (default [] (Some Desk.loose_answer)))))
    by (cbn [default from_option id]; rewrite Hstrip; exact Hnone).
  destruct (proj1 (unrecognised_fence_kept (Some Desk.loose_answer) Hticks' Hnone')
              Fixtures.no_open_fault Desk.loose_model (lit "a clock") false false false [] st
              ltac:(intros Hnil; vm_compute in Hnil; discriminate Hnil) eq_refl)
    as (Hsession & Hfile & Hsame & _).
  cbn [default from_option id] in Hsession, Hfile, Hsame. rewrite Hstrip in Hsession, Hfile, Hsame.
  rewrite (Hsame (or_introl eq_refl)) in Hsession, Hfile.
  split; [exact Hsession|exact (Hfile eq_refl)].
Defined.

(** C9, as stated, fails on the builder page when a key was asked for
    and given: the answer has a fence marker and no block, yet what is
    kept and written is not the answer but the key line, an empty line
    and then the answer. *)
Lemma key_line_precedes_kept_text :
  let st := {| BuildAgent.ss := Desk.empty_session; BuildAgent.files := Desk.earlier_app |} in
  let st' := (Clicks.generate_click Fixtures.no_open_fault Desk.loose_model (lit "a clock")
                false false true (lit "k-1") st).1.1 in
  let kept := lit "USER_GEMINI_KEY = " ++ [34] ++ lit "k-1" ++ [34; 10; 10]
              ++ Desk.loose_answer in
  contains Desk.loose_answer (lit "```") = true
  /\ ~ has_block (splitlines Desk.loose_answer)
  /\ BuildAgent.generated_code (BuildAgent.ss st') = Some kept
  /\ BuildAgent.files st' !! lit "generated_app.py" = Some kept
  /\ kept <> Desk.loose_answer.
Proof.
  intros st st' kept.
  destruct loose_answer_has_no_block as (_ & Hticks & Hnone).
  split; [exact Hticks|]. split; [exact Hnone|].
  split; [vm_compute; reflexivity|]. split; [vm_compute; reflexivity|].
  intros Heq. vm_compute in Heq. discriminate Heq.
Qed.

End FenceFacts.

(** ** Saving an agent *)

Module SaveFacts.
Import Py Runtime BuildAgent Fixtures.

Section Callback.
Variable os_path_join : str -> str -> str.
Variable open_fault : str -> option exn.
Variable replace_fault : str -> str -> option exn.
Variables agents_dir code_to_save : str.

(** C7.  When the target file exists and the overwrite flag is not set,
    the callback writes nothing: every file, the target included, is as
    before and no temporary file appears; the session carries the
    "file exists" message and is not marked as saved. *)
Theorem save_refuses_to_overwrite (st : state) (existing : str) :
  files st !! final_path os_path_join agents_dir st = Some existing ->
  default false (form_overwrite (ss st)) = false ->
  exists st',
    _save_agent_callback os_path_join open_fault replace_fault
      agents_dir code_to_save st = (st', [], Ret tt)
    /\ files st' = files st
    /\ agent_save_error (ss st') = lit "File exists and overwrite not confirmed."
    /\ agent_saved (ss st') = agent_saved (ss st)
    /\ agent_saved_path (ss st') = agent_saved_path (ss st).
Proof.
  intros Hexists Hflag. unfold final_path in Hexists.
  unfold _save_agent_callback, bind, get, try_except.
  rewrite Hexists, Hflag.
  rewrite bool_decide_eq_true_2 by (eexists; reflexivity).
  cbn. eexists. split; [reflexivity|]. cbn. repeat split.
Qed.

(** With the flag set, or without a file in the way, and a file system
    that does not fail, the code is written under the final name. *)
Lemma save_writes (st : state) :
  (files st !! final_path os_path_join agents_dir st = None
   \/ default false (form_overwrite (ss st)) = true) ->
  open_fault (final_path os_path_join agents_dir st ++ lit ".tmp") = None ->
  replace_fault (final_path os_path_join agents_dir st ++ lit ".tmp")
    (final_path os_path_join agents_dir st) = None ->
  exists st',
    _save_agent_callback os_path_join open_fault replace_fault
      agents_dir code_to_save st = (st', [], Ret tt)
    /\ files st' !! final_path os_path_join agents_dir st = Some code_to_save
    /\ agent_saved (ss st') = true.
Proof.
  intros Hfree Hopen Hreplace. unfold final_path in *.
  unfold _save_agent_callback, bind, get, try_except, write_file, os_replace.
  rewrite Hopen, Hreplace.
  set (path := os_path_join agents_dir _) in *.
  assert (Hgo : bool_decide (is_Some (files st !! path))
                && negb (default false (form_overwrite (ss st))) = false).
  { destruct Hfree as [Hnone|Hflag].
    - rewrite Hnone. rewrite bool_decide_eq_false_2; [reflexivity|].
      intros [x Hx]. discriminate Hx.
    - rewrite Hflag. apply andb_false_r. }
  rewrite Hgo. cbn. unfold bind, get, put. cbn.
  rewrite lookup_insert_eq. cbn.
  eexists. split; [reflexivity|]. cbn. split; [apply lookup_insert_eq|reflexivity].
Qed.

End Callback.

Lemma save_refuses_to_overwrite_witness :
  let st := {| ss := session_with (lit "my agent") false; files := disk |} in
  files st !! final_path posix_join (lit "/app/agents") st = Some (lit "print(1)")
  /\ default false (form_overwrite (ss st)) = false
  /\ exists st',
       _save_agent_callback posix_join no_open_fault no_replace_fault
         (lit "/app/agents") (lit "print(2)") st = (st', [], Ret tt)
       /\ files st' = files st
       /\ agent_save_error (ss st') = lit "File exists and overwrite not confirmed."
       /\ agent_saved (ss st') = agent_saved (ss st)
       /\ agent_saved_path (ss st') = agent_saved_path (ss st).
Proof.
  intros st.
  assert (Hexists : files st !! final_path posix_join (lit "/app/agents") st
                    = Some (lit "print(1)")) by (vm_compute; reflexivity).
  assert (Hflag : default false (form_overwrite (ss st)) = false) by reflexivity.
  split; [exact Hexists|]. split; [exact Hflag|].
  exact (save_refuses_to_overwrite posix_join no_open_fault no_replace_fault
           (lit "/app/agents") (lit "print(2)") st (lit "print(1)") Hexists Hflag).
Defined.

End SaveFacts.

(** ** Running and stopping agents *)

Module MarketFacts.
Import Py Runtime AgentMarketPlace Fixtures.
Local Open Scope handler_scope.

Section Registry.
Context {OS : Type} (H : host OS).

Lemma keeps_ret {A} (a : A) : keeps_registry (OS := OS) (ret a).
Proof. intros st st' log r Hrun. inversion Hrun. reflexivity. Qed.

Lemma keeps_lift {A} (x : res A) : keeps_registry (OS := OS) (lift x).
Proof. intros st st' log r Hrun. inversion Hrun. reflexivity. Qed.

Lemma keeps_sys {A} (call : OS -> OS * res A) : keeps_registry (sys call).
Proof.
  intros st st' log r Hrun. unfold sys in Hrun.
  destruct (call (os st)) as [os' x]. inversion Hrun. reflexivity.
Qed.

Lemma keeps_bind {A B} (m : M (state OS) A) (k : A -> M (state OS) B) :
  keeps_registry m -> (forall a, keeps_registry (k a)) -> keeps_registry (bind m k).
Proof.
  intros Hm Hk st st' log r Hrun. unfold bind in Hrun.
  destruct (m st) as [[s1 log1] [a|e]] eqn:Hfirst.
  - destruct (k a s1) as [[s2 log2] r2] eqn:Hsecond. inversion Hrun. subst.
    rewrite (Hk _ _ _ _ _ Hsecond). exact (Hm _ _ _ _ Hfirst).
  - inversion Hrun. subst. exact (Hm _ _ _ _ Hfirst).
Qed.

Lemma keeps_try_except {A} (body : M (state OS) A) (handler : exn -> M (state OS) A) :
  keeps_registry body -> (forall e, keeps_registry (handler e)) ->
  keeps_registry (try_except body handler).
Proof.
  intros Hbody Hhandler st st' log r Hrun. unfold try_except in Hrun.
  destruct (body st) as [[s1 log1] [a|e]] eqn:Hfirst.
  - inversion Hrun. subst. exact (Hbody _ _ _ _ Hfirst).
  - destruct (exn_is_Exception e).
    + destruct (handler e s1) as [[s2 log2] r2] eqn:Hsecond. inversion Hrun. subst.
      rewrite (Hhandler _ _ _ _ _ Hsecond). exact (Hbody _ _ _ _ Hfirst).
    + inversion Hrun. subst. exact (Hbody _ _ _ _ Hfirst).
Qed.

Ltac keeps :=
  repeat first
    [ apply keeps_bind; [|intros ?]
    | apply keeps_try_except; [|intros ?]
    | apply keeps_ret | apply keeps_lift | apply keeps_sys
    | match goal with
      | |- keeps_registry (if ?b then _ else _) => destruct b
      | |- keeps_registry (match ?x with _ => _ end) => destruct x
      end ].

Lemma keeps_first_terminal (terminals : list (list str)) :
  keeps_registry (first_terminal H terminals).
Proof.
  induction terminals as [|t rest IH]; simpl.
  - apply keeps_ret.
  - apply keeps_try_except; [keeps|]. intros _. exact IH.
Qed.

Lemma keeps_try_open_in_terminal (cmd : str) :
  keeps_registry (try_open_in_terminal H cmd).
Proof.
  unfold try_open_in_terminal. apply keeps_try_except; [|intros _; apply keeps_ret].
  destruct (sys_platform H); [keeps..|apply keeps_first_terminal].
Qed.

Lemma keeps_start_agent_process (path : str) (use_streamlit : bool) :
  keeps_registry (start_agent_process H path use_streamlit).
Proof.
  unfold start_agent_process. apply keeps_bind; [apply keeps_try_open_in_terminal|].
  intros p. keeps.
Qed.

Lemma keeps_stop_agent_process (e : entry) :
  keeps_registry (stop_agent_process H e).
Proof. unfold stop_agent_process. keeps. Qed.

(** A Run click never removes an entry of the registry. *)
Lemma on_run_keeps_entries (name path : str) (use_streamlit running : bool)
    (st st' : state OS) (log : list event) (r : res unit) :
  on_run H name path use_streamlit running st = (st', log, r) ->
  forall other e,
    agent_processes st !! other = Some e -> is_Some (agent_processes st' !! other).
Proof.
  intros Hrun other e Hother. unfold on_run in Hrun.
  destruct running.
  - inversion Hrun. subst. eexists. exact Hother.
  - unfold bind in Hrun.
    destruct (start_agent_process H path use_streamlit st) as [[s1 log1] [e1|ex]] eqn:Hstart;
      pose proof (keeps_start_agent_process _ _ _ _ _ _ Hstart) as Hreg.
    + assert (Hnew : is_Some (<[name := e1]> (agent_processes s1) !! other)).
      { destruct (decide (name = other)) as [->|Hne].
        - rewrite lookup_insert_eq. eexists. reflexivity.
        - rewrite lookup_insert_ne by exact Hne. rewrite Hreg. eexists. exact Hother. }
      unfold set_registry, modify, emit in Hrun.
      destruct (error e1) as [[|c msg]|]; [|destruct (pid_truthy (pid e1))..|];
        try destruct (pid_truthy (pid e1)); inversion Hrun; subst; exact Hnew.
    + inversion Hrun. subst. rewrite Hreg. eexists. exact Hother.
Qed.

(** A Stop click removes an entry only when it is the entry of the
    agent stopped and [stop_agent_process] returned [True] for it. *)
Lemma on_stop_removal (name : str) (running : bool)
    (st st' : state OS) (log : list event) (r : res unit) (other : str) (e : entry) :
  on_stop H name running st = (st', log, r) ->
  agent_processes st !! other = Some e ->
  agent_processes st' !! other = None ->
  other = name /\ running = true
  /\ exists st1 log1,
       stop_agent_process H e st = (st1, log1, Ret true)
       /\ st' = Build_state (delete name (agent_processes st1)) (os st1).
Proof.
  intros Hrun Hother Hgone. unfold on_stop in Hrun.
  destruct running; simpl in Hrun.
  - unfold bind, get in Hrun.
    destruct (stop_agent_process H (default empty_entry (agent_processes st !! name)) st)
      as [[s1 log1] [ok|ex]] eqn:Hstop;
      pose proof (keeps_stop_agent_process _ _ _ _ _ Hstop) as Hreg.
    + destruct ok.
      * unfold emit, set_registry, modify in Hrun. inversion Hrun. subst. clear Hrun.
        simpl in Hgone.
        destruct (decide (name = other)) as [->|Hne].
        -- rewrite Hother in Hstop. simpl in Hstop.
           split; [reflexivity|]. split; [reflexivity|].
           exists s1, log1. split; [exact Hstop|reflexivity].
        -- rewrite lookup_delete_ne, Hreg, Hother in Hgone by exact Hne. discriminate.
      * unfold emit in Hrun. inversion Hrun. subst.
        rewrite Hreg, Hother in Hgone. discriminate.
    + inversion Hrun. subst. rewrite Hreg, Hother in Hgone. discriminate.
  - inversion Hrun. subst. rewrite Hother in Hgone. discriminate.
Qed.

Lemma show_status_shown (name : str) (st : state OS) :
  exists status, show_status name st = (st, [st_info status], Ret tt).
Proof.
  unfold show_status, bind, get.
  destruct (agent_processes st !! name) as [e|]; [destruct (pid_truthy (pid e))|];
    eexists; reflexivity.
Qed.

(** C8.  For the run controls of one agent:
    a Run click while the registry records the agent as running only warns,
    and leaves the registry and the process table as they are;
    a Stop click while it is not recorded as running only warns, likewise;
    and whenever an entry present before a click is absent after it, the
    click was a Stop of that agent and [stop_agent_process] returned [True]
    for its entry. *)
Theorem run_stop_rules (name path : str) (use_streamlit : bool) (st : state OS) :
  (running (agent_processes st) name = true ->
   exists status,
     run_controls H name path use_streamlit true false st
     = (st, [st_warning (lit "Agent appears to be already running. Stop it first if you want to restart.");
             st_info status], Ret tt))
  /\ (running (agent_processes st) name = false ->
      exists status,
        run_controls H name path use_streamlit false true st
        = (st, [st_warning (lit "Agent is not running."); st_info status], Ret tt))
  /\ (forall run_btn stop_btn st' log r other e,
        run_controls H name path use_streamlit run_btn stop_btn st = (st', log, r) ->
        agent_processes st !! other = Some e ->
        agent_processes st' !! other = None ->
        other = name /\ stop_btn = true
        /\ exists st1 log1,
             stop_agent_process H e st = (st1, log1, Ret true)
             /\ st' = Build_state (delete name (agent_processes st1)) (os st1)).
Proof.
  split; [|split].
  - intros Hrunning. destruct (show_status_shown name st) as [status Hstatus].
    exists status. unfold run_controls, bind, get. rewrite Hrunning.
    unfold on_run, ret, emit. rewrite Hstatus. reflexivity.
  - intros Hrunning. destruct (show_status_shown name st) as [status Hstatus].
    exists status. unfold run_controls, bind, get. rewrite Hrunning.
    unfold on_stop, ret, emit. simpl. rewrite Hstatus. reflexivity.
  - intros run_btn stop_btn st' log r other e Hrun Hother Hgone.
    unfold run_controls in Hrun. unfold bind at 1, get at 1 in Hrun.
    set (was_running := running (agent_processes st) name) in Hrun.
    unfold bind at 1 in Hrun.
    destruct ((if run_btn then on_run H name path use_streamlit was_running else ret tt) st)
      as [[s1 log1] r1] eqn:Hfirst.
    assert (Hkept : is_Some (agent_processes s1 !! other)
                    /\ (was_running = true -> s1 = st)).
    { destruct run_btn.
      - split; [exact (on_run_keeps_entries _ _ _ _ _ _ _ _ Hfirst other e Hother)|].
        intros Hwas. rewrite Hwas in Hfirst. inversion Hfirst. reflexivity.
      - inversion Hfirst. subst. split; [eexists; exact Hother|reflexivity]. }
    destruct Hkept as [[e1 He1] Hsame].
    destruct r1 as [[]|ex].
    2:{ inversion Hrun. subst. rewrite He1 in Hgone. discriminate. }
    unfold bind at 1 in Hrun.
    destruct ((if stop_btn then on_stop H name was_running else ret tt) s1)
      as [[s2 log2] r2] eqn:Hsecond.
    assert (Hfinal : agent_processes st' = agent_processes s2).
    { destruct r2 as [[]|ex].
      - destruct (show_status_shown name s2) as [status Hstatus].
        rewrite Hstatus in Hrun. inversion Hrun. reflexivity.
      - inversion Hrun. reflexivity. }
    assert (Hstate : r2 = Ret tt -> st' = s2).
    { intros ->. destruct (show_status_shown name s2) as [status Hstatus].
      rewrite Hstatus in Hrun. inversion Hrun. reflexivity. }
    rewrite Hfinal in Hgone.
    destruct stop_btn.
    2:{ inversion Hsecond. subst. rewrite He1 in Hgone. discriminate. }
    destruct (on_stop_removal _ _ _ _ _ _ _ _ Hsecond He1 Hgone)
      as (Hname & Hwas & st1 & lg & Hstop & Hs2).
    specialize (Hsame Hwas). subst s1.
    rewrite Hother in He1. inversion He1. subst e1.
    split; [exact Hname|]. split; [reflexivity|].
    exists st1, lg. split; [exact Hstop|].
    rewrite <- Hs2. apply Hstate.
    unfold on_stop in Hsecond. rewrite Hwas in Hsecond. simpl in Hsecond.
    unfold bind, get in Hsecond. subst other. rewrite Hother in Hsecond.
    simpl in Hsecond. rewrite Hstop in Hsecond.
    unfold emit, set_registry, modify in Hsecond. inversion Hsecond. reflexivity.
Qed.

End Registry.

Lemma run_stop_rules_witness :
  let started := {| pid := Some 1000; proc := Some {| popen_pid := 1000 |};
                    cmd := lit "/usr/bin/python3 /m/bot.py";
                    terminal := false; error := None |} in
  let st := Build_state {[ lit "bot" := started ]} [1000] in
  running (agent_processes st) (lit "bot") = true
  /\ exists status,
       run_controls headless_linux (lit "bot") (lit "/m/bot.py") false true false st
       = (st, [st_warning (lit "Agent appears to be already running. Stop it first if you want to restart.");
               st_info status], Ret tt).
Proof.
  intros started st.
  assert (Hrunning : running (agent_processes st) (lit "bot") = true)
    by (vm_compute; reflexivity).
  split; [exact Hrunning|].
  exact (proj1 (run_stop_rules headless_linux (lit "bot") (lit "/m/bot.py") false st)
           Hrunning).
Defined.

(** On the concrete machine: a Stop click on the running agent ends the
    process and clears the entry; a second one only warns. *)
Example stop_then_stop :
  let started := {| pid := Some 1000; proc := Some {| popen_pid := 1000 |};
                    cmd := lit "/usr/bin/python3 /m/bot.py";
                    terminal := false; error := None |} in
  let st := Build_state {[ lit "bot" := started ]} [1000] in
  let once := run_controls headless_linux (lit "bot") (lit "/m/bot.py") false false true st in
  let twice := run_controls headless_linux (lit "bot") (lit "/m/bot.py") false false true once.1.1 in
  os once.1.1 = [] /\ agent_processes once.1.1 !! lit "bot" = None
  /\ twice = (once.1.1, [st_warning (lit "Agent is not running."); st_info (lit "Not running")],
              Ret tt).
Proof. split; [|split]; vm_compute; reflexivity. Qed.

End MarketFacts.

(** * Further properties of the pages *)

(** ** Lines and joins *)

Module LineFacts.
Import Py PyFacts Notions.

Lemma splitlines_from_unbroken (n : nat) :
  forall (s cur : str),
    (length s <= n)%nat -> unbroken cur ->
    Forall unbroken (splitlines_from cur s).
Proof.
  induction n as [|n IH]; intros s cur Hn Hcur.
  - destruct s as [|c s]; [|simpl in Hn; lia].
    simpl. destruct cur; [constructor|]. constructor; [|constructor].
    apply Forall_rev. exact Hcur.
  - destruct s as [|c s].
    + simpl. destruct cur; [constructor|]. constructor; [|constructor].
      apply Forall_rev. exact Hcur.
    + simpl in Hn. simpl. destruct (is_linebreak c) eqn:Hc.
      * constructor; [apply Forall_rev; exact Hcur|].
        destruct s as [|c2 s]; [constructor|].
        destruct ((c =? 13) && (c2 =? 10)).
        -- apply IH; [simpl in Hn; lia|constructor].
        -- apply IH; [simpl in *; lia|constructor].
      * apply IH; [lia|]. constructor; assumption.
Qed.

(** No line of [splitlines] holds a line boundary. *)
Lemma splitlines_unbroken (s : str) : Forall unbroken (splitlines s).
Proof. apply (splitlines_from_unbroken (length s)); [lia|constructor]. Qed.

Lemma splitlines_from_app (l s cur : str) :
  unbroken l -> splitlines_from cur (l ++ s) = splitlines_from (rev l ++ cur) s.
Proof.
  intros Hl. revert cur. induction Hl as [|c l Hc _ IH]; intros cur; simpl.
  - reflexivity.
  - rewrite Hc, IH, <- app_assoc. reflexivity.
Qed.

Lemma splitlines_from_newline (s cur : str) :
  splitlines_from cur (nl ++ s) = rev cur :: splitlines_from [] s.
Proof. destruct s; reflexivity. Qed.

Lemma splitlines_single (l : str) :
  unbroken l -> splitlines l = match l with [] => [] | _ :: _ => [l] end.
Proof.
  intros Hl. unfold splitlines.
  rewrite <- (app_nil_r l) at 1. rewrite (splitlines_from_app l [] [] Hl), app_nil_r.
  simpl. destruct l as [|c l]; [reflexivity|].
  destruct (rev (c :: l)) eqn:Hrev.
  - apply (f_equal (@length N)) in Hrev. rewrite length_rev in Hrev. discriminate.
  - rewrite <- Hrev, rev_involutive. reflexivity.
Qed.

(** Joining unbroken lines and splitting again gives back lines of the
    list, in order; only a final empty line can be lost. *)
Lemma splitlines_join (parts : list str) :
  Forall unbroken parts ->
  forall line, In line (splitlines (join nl parts)) -> In line parts.
Proof.
  induction 1 as [|p rest Hp Hrest IH]; intros line Hin.
  - destruct Hin.
  - destruct rest as [|q rest].
    + simpl in Hin. rewrite (splitlines_single p Hp) in Hin.
      destruct p; [destruct Hin|]. destruct Hin as [<-|[]]. left. reflexivity.
    + change (join nl (p :: q :: rest)) with (p ++ nl ++ join nl (q :: rest)) in Hin.
      unfold splitlines in Hin.
      rewrite (splitlines_from_app p _ [] Hp), app_nil_r, splitlines_from_newline in Hin.
      rewrite rev_involutive in Hin.
      destruct Hin as [<-|Hin]; [left; reflexivity|]. right. apply IH. exact Hin.
Qed.

End LineFacts.

(** ** More on the Code Extractor *)

Module ExtractorMore.
Import Py PyFacts Notions LineFacts Visualisation.

Lemma find_start_found (before : list str) (opening : str) (rest : list str) (i : nat) :
  Forall plain before -> is_fence opening = true ->
  find_start i (before ++ opening :: rest) = Some (i + length before)%nat.
Proof.
  intros Hbefore Hopening. revert i.
  induction Hbefore as [|line before Hline _ IH]; intros i; simpl.
  - rewrite Hopening. f_equal. lia.
  - rewrite Hline, IH. f_equal. lia.
Qed.

Lemma collect_inner_plain (lines : list str) : Forall plain (collect_inner lines).
Proof.
  induction lines as [|line rest IH]; simpl; [constructor|].
  destruct (is_fence line) eqn:Hline; [constructor|]. constructor; assumption.
Qed.

Lemma collect_inner_sublist (lines : list str) :
  forall line, In line (collect_inner lines) -> In line lines.
Proof.
  induction lines as [|l rest IH]; simpl; intros line Hin; [destruct Hin|].
  destruct (is_fence l); [destruct Hin|].
  destruct Hin as [<-|Hin]; [left; reflexivity|right; apply IH; exact Hin].
Qed.

Lemma drop_past {A} (before : list A) (x : A) (rest : list A) :
  drop (S (length before)) (before ++ x :: rest) = rest.
Proof. induction before as [|y before IH]; simpl; [reflexivity|exact IH]. Qed.

(** What [extract_code] returns for a text with a fence marker line: the
    lines kept by the loop, taken after the first marker line. *)
Lemma extract_code_found (text : str) (before : list str) (opening : str)
    (rest : list str) :
  splitlines text = before ++ opening :: rest ->
  Forall plain before -> is_fence opening = true ->
  extract_code text = join nl (collect_inner rest).
Proof.
  intros Hlines Hbefore Hopening. unfold extract_code.
  destruct text as [|c text]; [destruct before; discriminate Hlines|].
  rewrite Hlines. destruct Hbefore as [|first before Hfirst Hbefore].
  - simpl. rewrite Hopening. reflexivity.
  - unfold plain in Hfirst. simpl. rewrite Hfirst.
    rewrite (find_start_found before opening rest 1 Hbefore Hopening).
    simpl. rewrite drop_past. reflexivity.
Qed.

(** The fence need not open the text: whatever stands before the first
    fence marker line is dropped with it, and the result is the lines up
    to the next marker line, or all remaining lines when there is none. *)
Theorem extract_code_fence_in_body (text : str) (before : list str) (opening : str)
    (rest : list str) :
  splitlines text = before ++ opening :: rest ->
  Forall plain before -> is_fence opening = true ->
  (forall inner closing after,
      rest = inner ++ closing :: after ->
      Forall plain inner -> is_fence closing = true ->
      extract_code text = join nl inner)
  /\ (Forall plain rest -> extract_code text = join nl rest).
Proof.
  intros Hlines Hbefore Hopening.
  rewrite (extract_code_found text before opening rest Hlines Hbefore Hopening).
  split.
  - intros inner closing after -> Hinner Hclosing.
    rewrite ExtractorFacts.collect_inner_closed by assumption. reflexivity.
  - intros Hrest. rewrite ExtractorFacts.collect_inner_open by assumption. reflexivity.
Qed.

Lemma extract_code_fence_in_body_witness :
  let text := join nl [lit "Here is the plot:"; lit "```python"; lit "fig = 1"; lit "```"] in
  splitlines text = [lit "Here is the plot:"] ++ lit "```python" :: [lit "fig = 1"; lit "```"]
  /\ Forall plain [lit "Here is the plot:"]
  /\ is_fence (lit "```python") = true
  /\ extract_code text = join nl [lit "fig = 1"].
Proof.
  intros text.
  assert (Hlines : splitlines text
                   = [lit "Here is the plot:"] ++ lit "```python" :: [lit "fig = 1"; lit "```"])
    by (vm_compute; reflexivity).
  assert (Hbefore : Forall plain [lit "Here is the plot:"])
    by (vm_compute; repeat constructor).
  assert (Hopening : is_fence (lit "```python") = true) by (vm_compute; reflexivity).
  split; [exact Hlines|]. split; [exact Hbefore|]. split; [exact Hopening|].
  apply (proj1 (extract_code_fence_in_body text _ _ _ Hlines Hbefore Hopening)
               [lit "fig = 1"] (lit "```") []).
  - reflexivity.
  - vm_compute; repeat constructor.
  - vm_compute; reflexivity.
Defined.

(** Every text splits at its first fence marker line, if it has one. *)
Lemma first_fence (lines : list str) :
  Forall plain lines
  \/ exists before opening rest,
       lines = before ++ opening :: rest
       /\ Forall plain before /\ is_fence opening = true.
Proof.
  induction lines as [|line rest IH].
  - left. constructor.
  - destruct (is_fence line) eqn:Hline.
    + right. exists [], line, rest. split; [reflexivity|]. split; [constructor|exact Hline].
    + destruct IH as [Hplain|(before & opening & after & -> & Hbefore & Hopening)].
      * left. constructor; assumption.
      * right. exists (line :: before), opening, after.
        split; [reflexivity|]. split; [constructor; assumption|exact Hopening].
Qed.

(** Extracting twice is extracting once: what [extract_code] returns
    holds no fence marker line any more. *)
Theorem extract_code_idempotent (text : str) :
  extract_code (extract_code text) = extract_code text
  /\ Forall plain (splitlines (extract_code text)).
Proof.
  destruct (first_fence (splitlines text))
    as [Hplain|(before & opening & rest & Hlines & Hbefore & Hopening)].
  - assert (Hsame : extract_code text = text)
      by (apply ExtractorFacts.extract_code_search_fails,
                ExtractorFacts.find_start_none, Hplain).
    rewrite !Hsame. split; [reflexivity|exact Hplain].
  - rewrite (extract_code_found text before opening rest Hlines Hbefore Hopening).
    assert (Hkept : Forall plain (splitlines (join nl (collect_inner rest)))).
    { apply List.Forall_forall. intros line Hin.
      apply splitlines_join in Hin.
      - pose proof (collect_inner_plain rest) as Hall.
        rewrite List.Forall_forall in Hall. apply Hall, Hin.
      - apply List.Forall_forall. intros l Hl.
        apply collect_inner_sublist in Hl.
        pose proof (splitlines_unbroken text) as Hall.
        rewrite Hlines, List.Forall_forall in Hall.
        apply Hall. apply in_or_app. right. right. exact Hl. }
    split; [|exact Hkept].
    apply ExtractorFacts.extract_code_search_fails, ExtractorFacts.find_start_none, Hkept.
Qed.

End ExtractorMore.

(** ** The handlers as a whole *)

Module HandlerFacts.
Import Py PyFacts Runtime Notions.
Local Open Scope handler_scope.

Lemma returns_emit {S} (ev : event) : returns (S := S) (emit ev).
Proof. intros s. exists s, [ev], tt. reflexivity. Qed.

Lemma returns_bind {S A B} (m : M S A) (k : A -> M S B) :
  returns m -> (forall a, returns (k a)) -> returns (bind m k).
Proof.
  intros Hm Hk s. destruct (Hm s) as (s1 & log1 & a & Hfirst).
  destruct (Hk a s1) as (s2 & log2 & b & Hsecond).
  exists s2, (log1 ++ log2), b. unfold bind. rewrite Hfirst, Hsecond. reflexivity.
Qed.

(** A [try] whose [except Exception] branch always returns lets no
    [Exception] out. *)
Lemma try_except_contained {S A} (body : M S A) (handler : exn -> M S A) (s : S) :
  (forall e, returns (handler e)) -> contained (try_except body handler s).
Proof.
  intros Hhandler. unfold contained, try_except.
  destruct (body s) as [[s1 log1] [a|e]]; simpl; [exact I|].
  destruct (exn_is_Exception e) eqn:He; simpl; [|exact He].
  destruct (Hhandler e s1) as (s2 & log2 & a & ->). simpl. exact I.
Qed.

Lemma contained_after_emit {S A} (ev : event) (m : M S A) (s : S) :
  contained (m s) -> contained (bind (emit ev) (fun _ => m) s).
Proof.
  unfold contained, bind, emit. destruct (m s) as [[s1 log1] r]. simpl. tauto.
Qed.



Section Handlers.
Context {W : Type} (I : interpreter W).
Variable dedent : str -> str.
Variable savefig : value -> res value.
Variable pyplot : value -> res unit.
Variable format_exc : exn -> str.
Variables connection cursor : value.

(** The execution block of the database page keeps every [Exception]
    of the snippet to itself, so none reaches the handler around it. *)
Lemma execute_generated_contained (code : str) (w : W) :
  contained (SupabaseConnector.execute_generated I format_exc connection cursor code w).
Proof.
  unfold SupabaseConnector.execute_generated.
  apply contained_after_emit, try_except_contained. intros e.
  apply returns_bind; [apply returns_emit|]. intros _. apply returns_emit.
Qed.


End Handlers.

(** A snippet's exception whose [__str__] raises, and keeps raising, is
    reported by neither page: it leaves [run_generated_code], and then
    both handlers, as the fault of the last [str(e)]. *)
Example unprintable_exception_escapes :
  Visualisation.run_generated_code Scenarios.unprintable Snippets.dedent_flush
    Scenarios.raise_Unprintable VNone tt
  = (tt, [exec_call Scenarios.raise_Unprintable], Raise (Scenarios.Unprintable 2))
  /\ Visualisation.generate_visualization Scenarios.unprintable Snippets.dedent_flush
       Snippets.savefig_ok Snippets.pyplot_ok (Ret Scenarios.raise_Unprintable) VNone tt
     = (tt, [st_info (lit "Requesting generated code from model...");
             st_code Scenarios.raise_Unprintable; exec_call Scenarios.raise_Unprintable],
        Raise (Scenarios.Unprintable 1))
  /\ WorkflowPlanner.generate_workflow_diagram Scenarios.unprintable Snippets.savefig_ok
       (Ret (Some Scenarios.raise_Unprintable)) tt
     = (tt, [exec_call Scenarios.raise_Unprintable], Raise (Scenarios.Unprintable 1)).
Proof. split; [|split]; vm_compute; reflexivity. Qed.

End HandlerFacts.

(** ** The workflow planner *)

Module PlannerFacts.
Import Py PyFacts Runtime Notions Snippets WorkflowPlanner.

Lemma planner_inner_closed (inner : list str) (closing : str) (after : list str) :
  Forall open_ended inner -> eqb (strip closing) (lit "```") = true ->
  collect_inner (inner ++ closing :: after) = inner.
Proof.
  intros Hinner Hclosing. induction Hinner as [|line inner Hline _ IH]; simpl.
  - rewrite Hclosing. reflexivity.
  - unfold open_ended in Hline. rewrite Hline, IH. reflexivity.
Qed.

Lemma planner_inner_open (rest : list str) :
  Forall open_ended rest -> collect_inner rest = rest.
Proof.
  induction 1 as [|line rest Hline _ IH]; simpl; [reflexivity|].
  unfold open_ended in Hline. rewrite Hline, IH. reflexivity.
Qed.

(** The planner strips a fence only from an answer of at least two
    lines whose first line is a fence marker; then it runs the lines up to
    the first line that is exactly three backticks, so that a tagged
    marker inside stays part of the code. *)
Theorem code_to_exec_fenced (code opening : str) (rest : list str) :
  splitlines code = opening :: rest ->
  rest <> [] ->
  startswith (strip opening) (lit "```") = true ->
  (forall inner closing after,
      rest = inner ++ closing :: after ->
      Forall open_ended inner -> eqb (strip closing) (lit "```") = true ->
      code_to_exec code = join nl inner)
  /\ (Forall open_ended rest -> code_to_exec code = join nl rest).
Proof.
  intros Hlines Hrest Hopening.
  assert (Hcode : code_to_exec code = join nl (collect_inner rest)).
  { unfold code_to_exec. rewrite Hlines, Hopening.
    destruct rest as [|second rest]; [contradiction|]. reflexivity. }
  split.
  - intros inner closing after -> Hinner Hclosing.
    rewrite Hcode, planner_inner_closed by assumption. reflexivity.
  - intros Hopen. rewrite Hcode, planner_inner_open by assumption. reflexivity.
Qed.

Lemma code_to_exec_fenced_witness :
  let code := join nl [lit "```python"; lit "fig = 1"; lit "```python"; lit "```"; lit "x"] in
  splitlines code = lit "```python" :: [lit "fig = 1"; lit "```python"; lit "```"; lit "x"]
  /\ code_to_exec code = join nl [lit "fig = 1"; lit "```python"].
Proof.
  intros code.
  assert (Hlines : splitlines code
                   = lit "```python" :: [lit "fig = 1"; lit "```python"; lit "```"; lit "x"])
    by (vm_compute; reflexivity).
  split; [exact Hlines|].
  apply (proj1 (code_to_exec_fenced code _ _ Hlines ltac:(discriminate)
                  ltac:(vm_compute; reflexivity))
               [lit "fig = 1"; lit "```python"] (lit "```") [lit "x"]).
  - reflexivity.
  - vm_compute; repeat constructor.
  - vm_compute; reflexivity.
Defined.

(** An answer of a single line, or one whose first line is no fence
    marker, is run exactly as the model gave it. *)
Theorem code_to_exec_untouched (code : str) :
  (length (splitlines code) < 2)%nat
  \/ (exists first rest,
        splitlines code = first :: rest
        /\ startswith (strip first) (lit "```") = false) ->
  code_to_exec code = code.
Proof.
  intros [Hshort|(first & rest & Hlines & Hfirst)]; unfold code_to_exec.
  - apply Nat.leb_gt in Hshort. rewrite Hshort. reflexivity.
  - rewrite Hlines, Hfirst, andb_false_r. reflexivity.
Qed.

Lemma code_to_exec_untouched_witness :
  (length (splitlines (lit "```fig = 1```")) < 2)%nat
  /\ code_to_exec (lit "```fig = 1```") = lit "```fig = 1```".
Proof.
  assert (Hshort : (length (splitlines (lit "```fig = 1```")) < 2)%nat)
    by (vm_compute; repeat constructor).
  split; [exact Hshort|].
  exact (code_to_exec_untouched _ (or_introl Hshort)).
Defined.

Section Handler.
Context {W : Type} (I : interpreter W).
Variable savefig : value -> res value.

(** What the planner shows when something fails.  Before anything is
    run, a failed model call or an answer without text gives one line
    [Error generating diagram]; no code is executed and the world is as
    before.  A snippet that raises an [Exception] is reported twice: first
    as an execution error together with the code that was run, then, since
    the inner handler raises it again, as an error of the diagram; what
    the snippet did before it failed stays done.  When [str(e)] of the
    snippet's exception raises, nothing is shown of the execution error:
    what [str(e)] raised takes its place, is reported as an error of the
    diagram if it is an [Exception] with a text, and leaves the handler
    otherwise. *)
Theorem planner_failures (w : W) :
  (forall e msg, exn_is_Exception e = true -> py_str e = Ret msg ->
     generate_workflow_diagram I savefig (Raise e) w
     = (w, [st_error (lit "Error generating diagram: " ++ msg)], Ret tt))
  /\ generate_workflow_diagram I savefig (Ret None) w
     = (w, [st_error (lit "Error generating diagram: "
                      ++ lit "'NoneType' object has no attribute 'splitlines'")], Ret tt)
  /\ (forall code w' e msg,
      py_exec I (code_to_exec code) {[ lit "plt" := VObject 1 ]} ∅ w = (w', Raise e) ->
      exn_is_Exception e = true -> py_str e = Ret msg ->
      generate_workflow_diagram I savefig (Ret (Some code)) w
      = (w', [exec_call (code_to_exec code);
              st_error (lit "Error executing generated code: " ++ msg);
              st_code (code_to_exec code);
              st_error (lit "Error generating diagram: " ++ msg)], Ret tt))
  /\ (forall code w' e fault,
      py_exec I (code_to_exec code) {[ lit "plt" := VObject 1 ]} ∅ w = (w', Raise e) ->
      exn_is_Exception e = true -> py_str e = Raise fault ->
      (exn_is_Exception fault = false ->
       generate_workflow_diagram I savefig (Ret (Some code)) w
       = (w', [exec_call (code_to_exec code)], Raise fault))
      /\ (forall msg, exn_is_Exception fault = true -> py_str fault = Ret msg ->
          generate_workflow_diagram I savefig (Ret (Some code)) w
          = (w', [exec_call (code_to_exec code);
                  st_error (lit "Error generating diagram: " ++ msg)], Ret tt))
      /\ (forall fault', exn_is_Exception fault = true -> py_str fault = Raise fault' ->
          generate_workflow_diagram I savefig (Ret (Some code)) w
          = (w', [exec_call (code_to_exec code)], Raise fault'))).
Proof.
  split; [|split; [|split]].
  - intros e msg He Hstr. unfold generate_workflow_diagram, try_except, bind, lift, emit.
    rewrite He, Hstr. reflexivity.
  - reflexivity.
  - intros code w' e msg Hexec He Hstr.
    unfold generate_workflow_diagram, try_except, bind, lift, ret, exec, emit, raise.
    rewrite Hexec. cbn. rewrite He, Hstr. cbn. rewrite He, Hstr. reflexivity.
  - intros code w' e fault Hexec He Hstr.
    assert (Hrun : forall out,
               (if exn_is_Exception fault
                then match py_str fault with
                     | Ret msg =>
                         (w', [exec_call (code_to_exec code);
                               st_error (lit "Error generating diagram: " ++ msg)], Ret tt)
                     | Raise fault' => (w', [exec_call (code_to_exec code)], Raise fault')
                     end
                else (w', [exec_call (code_to_exec code)], Raise fault)) = out ->
               generate_workflow_diagram I savefig (Ret (Some code)) w = out).
    { intros out <-.
      unfold generate_workflow_diagram, try_except, bind, lift, ret, exec, emit, raise.
      rewrite Hexec. cbn. rewrite He, Hstr. cbn.
      destruct (exn_is_Exception fault); [|reflexivity].
      destruct (py_str fault); reflexivity. }
    split; [|split].
    + intros Hfault. apply Hrun. rewrite Hfault. reflexivity.
    + intros msg Hfault Hmsg. apply Hrun. rewrite Hfault, Hmsg. reflexivity.
    + intros fault' Hfault Hmsg. apply Hrun. rewrite Hfault, Hmsg. reflexivity.
Qed.

(** After the snippet ran to its end the planner looks for [fig] among
    the local names only.  If it is not bound there, or bound to [None],
    the page reports that no figure was created, whatever the global
    namespace holds; otherwise the figure is saved as an image, and a
    failure of that is reported as well, unless its text cannot be taken:
    then the fault of [str(e)] leaves the handler. *)
Theorem planner_figure (code : str) (w w' : W) (g' l' : gmap str value) :
  py_exec I (code_to_exec code) {[ lit "plt" := VObject 1 ]} ∅ w = (w', Ret (g', l')) ->
  (dict_get l' (lit "fig") = VNone ->
   generate_workflow_diagram I savefig (Ret (Some code)) w
   = (w', [exec_call (code_to_exec code);
           st_error (lit "No figure named 'fig' was created by generated code.")], Ret tt))
  /\ (forall buf, dict_get l' (lit "fig") <> VNone ->
      savefig (dict_get l' (lit "fig")) = Ret buf ->
      generate_workflow_diagram I savefig (Ret (Some code)) w
      = (w', [exec_call (code_to_exec code); st_image buf], Ret tt))
  /\ (forall e msg, dict_get l' (lit "fig") <> VNone ->
      savefig (dict_get l' (lit "fig")) = Raise e -> exn_is_Exception e = true ->
      py_str e = Ret msg ->
      generate_workflow_diagram I savefig (Ret (Some code)) w
      = (w', [exec_call (code_to_exec code);
              st_error (lit "Error generating diagram: " ++ msg)], Ret tt))
  /\ (forall e fault, dict_get l' (lit "fig") <> VNone ->
      savefig (dict_get l' (lit "fig")) = Raise e -> exn_is_Exception e = true ->
      py_str e = Raise fault ->
      generate_workflow_diagram I savefig (Ret (Some code)) w
      = (w', [exec_call (code_to_exec code)], Raise fault)).
Proof.
  intros Hexec.
  unfold generate_workflow_diagram, try_except, bind, lift, ret, exec, emit, raise.
  rewrite Hexec. cbn [snd].
  split; [|split; [|split]].
  - intros ->. reflexivity.
  - intros buf Hfig Hsave.
    destruct (dict_get l' (lit "fig")); try contradiction; rewrite Hsave; reflexivity.
  - intros e msg Hfig Hsave He Hstr.
    destruct (dict_get l' (lit "fig")); try contradiction; rewrite Hsave; cbn;
      rewrite He, Hstr; reflexivity.
  - intros e fault Hfig Hsave He Hstr.
    destruct (dict_get l' (lit "fig")); try contradiction; rewrite Hsave; cbn;
      rewrite He, Hstr; reflexivity.
Qed.

End Handler.

Lemma planner_figure_witness :
  generate_workflow_diagram table savefig_ok (Ret (Some assign_global_result)) tt
  = (tt, [exec_call assign_global_result;
          st_error (lit "No figure named 'fig' was created by generated code.")], Ret tt).
Proof.
  refine (proj1 (planner_figure table savefig_ok assign_global_result tt tt _ ∅ _) _).
  - vm_compute; reflexivity.
  - reflexivity.
Defined.

Lemma planner_failures_witness :
  generate_workflow_diagram table savefig_ok (Ret (Some raise_ValueError)) tt
  = (tt, [exec_call raise_ValueError;
          st_error (lit "Error executing generated code: " ++ lit "boom");
          st_code raise_ValueError;
          st_error (lit "Error generating diagram: " ++ lit "boom")], Ret tt).
Proof.
  refine (proj1 (proj2 (proj2 (planner_failures table savefig_ok tt)))
            raise_ValueError tt (ValueError (lit "boom")) (lit "boom") _ eq_refl eq_refl).
  vm_compute; reflexivity.
Defined.

End PlannerFacts.

(** ** More on running generated code *)

Module ExecutorMore.
Import Py PyFacts Runtime Notions Snippets.
Local Open Scope handler_scope.

Section Handlers.
Context {W : Type} (I : interpreter W).
Variable dedent : str -> str.
Variable savefig : value -> res value.
Variable pyplot : value -> res unit.
Variable format_exc : exn -> str.
Variables connection cursor : value.

(** Step into the handler of the visualisation page up to the call of
    [run_generated_code], whose outcome [Hrun] states. *)
Ltac enter_handler Hrun :=
  unfold Visualisation.generate_visualization;
  unfold bind at 1; unfold emit at 1; unfold try_except at 1;
  unfold bind at 1; unfold lift at 1; unfold bind at 1; unfold emit at 1;
  unfold bind at 1; rewrite Hrun.

(** A snippet that raises an [Exception] whose text is empty, as
    [raise ValueError()] does, is not reported as an execution error: the
    returned message is the empty string, which the handler takes for "no
    error", and the page says that no figure was produced. *)
Theorem empty_message_reported_as_missing_figure (code_text : str) (df : value)
    (w w' : W) (e : exn) :
  py_exec I (dedent (Visualisation.extract_code code_text))
    Visualisation.exec_globals {[ lit "df" := df ]} w = (w', Raise e) ->
  exn_is_Exception e = true ->
  py_str e = Ret [] ->
  Visualisation.generate_visualization I dedent savefig pyplot (Ret code_text) df w
  = (w', [st_info (lit "Requesting generated code from model...");
          st_code (Visualisation.extract_code code_text);
          exec_call (dedent (Visualisation.extract_code code_text));
          st_error (lit "Generated code did not produce a `fig` object named 'fig'.");
          st_subheader (lit "Generated code");
          st_code (dedent (Visualisation.extract_code code_text))],
     Ret tt).
Proof.
  intros Hexec He Hstr.
  pose proof (ExecutorFacts.run_generated_code_raise I dedent _ df w w' e Hexec) as Hrun.
  rewrite He, Hstr in Hrun.
  enter_handler Hrun. reflexivity.
Qed.

(** A snippet that binds [fig] to an object whose truth value cannot be
    taken (a DataFrame, an array) makes [run_generated_code] itself raise,
    after the snippet ran; the handler around it reports this as an error of
    the model call, or is left by the fault of [str(e)] when the text of
    the error cannot be taken. *)
Theorem figure_without_truth_value (code_text : str) (df : value) (w w' : W)
    (g' l' : gmap str value) (fig : value) (e : exn) :
  py_exec I (dedent (Visualisation.extract_code code_text))
    Visualisation.exec_globals {[ lit "df" := df ]} w = (w', Ret (g', l')) ->
  l' !! lit "fig" = Some fig ->
  truth fig = Raise e ->
  exn_is_Exception e = true ->
  Visualisation.run_generated_code I dedent (Visualisation.extract_code code_text) df w
  = (w', [exec_call (dedent (Visualisation.extract_code code_text))], Raise e)
  /\ (forall msg, py_str e = Ret msg ->
      Visualisation.generate_visualization I dedent savefig pyplot (Ret code_text) df w
      = (w', [st_info (lit "Requesting generated code from model...");
              st_code (Visualisation.extract_code code_text);
              exec_call (dedent (Visualisation.extract_code code_text));
              st_error (lit "Error calling model: " ++ msg)],
         Ret tt))
  /\ (forall fault, py_str e = Raise fault ->
      Visualisation.generate_visualization I dedent savefig pyplot (Ret code_text) df w
      = (w', [st_info (lit "Requesting generated code from model...");
              st_code (Visualisation.extract_code code_text);
              exec_call (dedent (Visualisation.extract_code code_text))],
         Raise fault)).
Proof.
  intros Hexec Hfig Htruth He.
  pose proof (ExecutorFacts.run_generated_code_done I dedent _ df w w' g' l' Hexec) as Hrun.
  rewrite (ExecutorFacts.dict_get_present _ _ _ Hfig) in Hrun.
  unfold py_or in Hrun. rewrite Htruth in Hrun.
  split; [exact Hrun|]. split.
  - intros msg Hstr. enter_handler Hrun. rewrite He. unfold bind, lift, emit.
    rewrite Hstr. reflexivity.
  - intros fault Hstr. enter_handler Hrun. rewrite He. unfold bind, lift, emit.
    rewrite Hstr. reflexivity.
Qed.

(** A figure that was produced is shown with [st.pyplot]; when that
    fails the page falls back to an image saved with [savefig], and only
    when this fails too an error is shown, with the text of the second
    failure; when that text cannot be taken, the fault of [str(e)] leaves
    the handler after the success line. *)
Theorem figure_rendering (code_text : str) (df : value) (w w' : W)
    (g' l' : gmap str value) (fig : value) :
  py_exec I (dedent (Visualisation.extract_code code_text))
    Visualisation.exec_globals {[ lit "df" := df ]} w = (w', Ret (g', l')) ->
  l' !! lit "fig" = Some fig ->
  truth fig = Ret true ->
  let shown (tail : list event) :=
    Visualisation.generate_visualization I dedent savefig pyplot (Ret code_text) df w
    = (w', [st_info (lit "Requesting generated code from model...");
            st_code (Visualisation.extract_code code_text);
            exec_call (dedent (Visualisation.extract_code code_text));
            st_success (lit "Visualization generated.")] ++ tail,
       Ret tt) in
  (pyplot fig = Ret tt -> shown [st_pyplot fig])
  /\ (forall e buf, pyplot fig = Raise e -> exn_is_Exception e = true ->
        savefig fig = Ret buf -> shown [st_image buf])
  /\ (forall e e' msg, pyplot fig = Raise e -> exn_is_Exception e = true ->
        savefig fig = Raise e' -> exn_is_Exception e' = true ->
        py_str e' = Ret msg ->
        shown [st_error (lit "Error calling model: " ++ msg)])
  /\ (forall e e' fault, pyplot fig = Raise e -> exn_is_Exception e = true ->
        savefig fig = Raise e' -> exn_is_Exception e' = true ->
        py_str e' = Raise fault ->
        Visualisation.generate_visualization I dedent savefig pyplot (Ret code_text) df w
        = (w', [st_info (lit "Requesting generated code from model...");
                st_code (Visualisation.extract_code code_text);
                exec_call (dedent (Visualisation.extract_code code_text));
                st_success (lit "Visualization generated.")],
           Raise fault)).
Proof.
  intros Hexec Hfig Htruth shown. subst shown.
  pose proof (ExecutorFacts.run_generated_code_done I dedent _ df w w' g' l' Hexec) as Hrun.
  rewrite (ExecutorFacts.dict_get_present _ _ _ Hfig) in Hrun.
  unfold py_or in Hrun. rewrite Htruth in Hrun.
  assert (Hsome : fig <> VNone) by (intros ->; discriminate Htruth).
  split; [|split; [|split]].
  - intros Hplot. enter_handler Hrun. unfold try_except, bind, lift, emit.
    destruct fig; try contradiction; cbn; rewrite Hplot; reflexivity.
  - intros e buf Hplot He Hsave. enter_handler Hrun. unfold try_except, bind, lift, emit.
    destruct fig; try contradiction; cbn; rewrite Hplot, He, Hsave; reflexivity.
  - intros e e' msg Hplot He Hsave He' Hstr. enter_handler Hrun.
    unfold try_except, bind, lift, emit.
    destruct fig; try contradiction; cbn; rewrite Hplot, He, Hsave; cbn;
      rewrite He', Hstr; reflexivity.
  - intros e e' fault Hplot He Hsave He' Hstr. enter_handler Hrun.
    unfold try_except, bind, lift, emit.
    destruct fig; try contradiction; cbn; rewrite Hplot, He, Hsave; cbn;
      rewrite He', Hstr; reflexivity.
Qed.


(** When the model call fails, or its answer is missing, empty or white
    space only, the database page runs nothing and leaves the world as it
    is; it shows one error. *)
Theorem database_no_code (w : W) :
  (forall e, exn_is_Exception e = true ->
     SupabaseConnector.generate_and_run I format_exc connection cursor (Raise e) w
     = (w, [st_error (lit "Failed to generate code: " ++ exn_str e);
            st_code (format_exc e)], Ret tt))
  /\ (forall text, strip (default [] text) = [] ->
     SupabaseConnector.generate_and_run I format_exc connection cursor (Ret text) w
     = (w, [st_error (lit "Model did not return code.")], Ret tt)).
Proof.
  split.
  - intros e He. unfold SupabaseConnector.generate_and_run, try_except, bind, lift, emit.
    rewrite He. reflexivity.
  - intros text Hblank.
    unfold SupabaseConnector.generate_and_run, try_except, bind, lift, emit.
    rewrite Hblank. reflexivity.
Qed.

(** The rows a snippet leaves in the local [result] are counted: an
    empty list is announced as "0 rows", a list of [n] rows with its
    length and the table. *)
Theorem database_rows (code : str) (w w' : W) (g' l' : gmap str value)
    (rows : list value) :
  (2 < length (splitlines code))%nat ->
  py_exec I (join nl (SupabaseConnector.strip_first_last (splitlines code)))
    (SupabaseConnector.safe_globals connection cursor) ∅ w = (w', Ret (g', l')) ->
  l' !! lit "result" = Some (VList rows) ->
  SupabaseConnector.execute_generated I format_exc connection cursor code w
  = (w', [st_subheader (lit "Execution result");
          exec_call (join nl (SupabaseConnector.strip_first_last (splitlines code)))]
         ++ match rows with
            | [] => [st_info (lit "Query returned 0 rows.")]
            | _ :: _ =>
                [st_success (lit "Returned " ++ str_of_nat (length rows) ++ lit " row(s).");
                 st_dataframe (VList rows)]
            end,
     Ret tt).
Proof.
  intros Hlen Hexec Hresult. apply Nat.ltb_lt in Hlen.
  unfold SupabaseConnector.execute_generated, bind, try_except, emit, exec.
  rewrite Hlen, Hexec. cbn [snd].
  rewrite (ExecutorFacts.dict_get_present _ _ _ Hresult).
  destruct rows; reflexivity.
Qed.

End Handlers.

Lemma empty_message_reported_as_missing_figure_witness :
  let quiet : interpreter unit :=
    {| py_exec := fun code g l w => (w, Raise (ValueError [])) |} in
  exists log,
    Visualisation.generate_visualization quiet dedent_flush savefig_ok pyplot_ok
      (Ret (lit "raise ValueError()")) VNone tt = (tt, log, Ret tt)
    /\ In (st_error (lit "Generated code did not produce a `fig` object named 'fig'.")) log.
Proof.
  intros quiet. eexists. split.
  - exact (empty_message_reported_as_missing_figure quiet dedent_flush savefig_ok pyplot_ok
             (lit "raise ValueError()") VNone tt tt (ValueError [])
             eq_refl eq_refl eq_refl).
  - right. right. right. left. reflexivity.
Defined.


Lemma database_rows_witness :
  let code := join nl [lit "```python"; assign_result; lit "```"] in
  exists tail,
    SupabaseConnector.execute_generated table format_exc_short VNone VNone code tt
    = (tt, [st_subheader (lit "Execution result");
            exec_call (join nl (SupabaseConnector.strip_first_last (splitlines code)))]
           ++ tail, Ret tt)
    /\ tail = [st_success (lit "Returned 2 row(s).");
               st_dataframe (VList [VTuple [VInt 1; VInt 2]; VTuple [VInt 3; VInt 4]])].
Proof.
  intros code. eexists. split.
  - refine (database_rows table format_exc_short VNone VNone code tt tt
              (SupabaseConnector.safe_globals VNone VNone)
              (<[lit "result" := VList [VTuple [VInt 1; VInt 2]; VTuple [VInt 3; VInt 4]]]> ∅)
              [VTuple [VInt 1; VInt 2]; VTuple [VInt 3; VInt 4]] _ _ _).
    + vm_compute; repeat constructor.
    + vm_compute; reflexivity.
    + apply lookup_insert_eq.
  - vm_compute; reflexivity.
Defined.

Lemma figure_without_truth_value_witness :
  Visualisation.generate_visualization Scenarios.plots dedent_flush savefig_ok pyplot_ok
    (Ret Scenarios.fig_is_df) (VFrame 1) tt
  = (tt, [st_info (lit "Requesting generated code from model...");
          st_code Scenarios.fig_is_df; exec_call Scenarios.fig_is_df;
          st_error (lit "Error calling model: "
                    ++ lit "The truth value of an array or DataFrame is ambiguous.")],
     Ret tt).
Proof.
  refine (proj1 (proj2 (figure_without_truth_value Scenarios.plots dedent_flush savefig_ok
                   pyplot_ok
                   Scenarios.fig_is_df (VFrame 1) tt tt Visualisation.exec_globals
                   (<[lit "fig" := VFrame 1]> {[ lit "df" := VFrame 1 ]}) (VFrame 1)
                   (ValueError (lit "The truth value of an array or DataFrame is ambiguous."))
                   _ _ eq_refl eq_refl))
            (lit "The truth value of an array or DataFrame is ambiguous.") eq_refl).
  - vm_compute; reflexivity.
  - apply lookup_insert_eq.
Defined.

Lemma figure_rendering_witness :
  Visualisation.generate_visualization Scenarios.plots dedent_flush savefig_ok
    Scenarios.pyplot_fails (Ret Scenarios.fig_is_figure) VNone tt
  = (tt, [st_info (lit "Requesting generated code from model...");
          st_code Scenarios.fig_is_figure; exec_call Scenarios.fig_is_figure;
          st_success (lit "Visualization generated.")] ++ [st_image (VObject 0)],
     Ret tt).
Proof.
  refine (proj1 (proj2 (figure_rendering Scenarios.plots dedent_flush savefig_ok
                          Scenarios.pyplot_fails Scenarios.fig_is_figure VNone tt tt
                          Visualisation.exec_globals
                          (<[lit "fig" := VObject 7]> {[ lit "df" := VNone ]}) (VObject 7)
                          _ _ eq_refl))
            (ValueError (lit "cannot draw")) (VObject 0) eq_refl eq_refl eq_refl).
  - vm_compute; reflexivity.
  - apply lookup_insert_eq.
Defined.

Lemma database_no_code_witness :
  SupabaseConnector.generate_and_run table format_exc_short VNone VNone
    (Ret (Some (lit "  "))) tt
  = (tt, [st_error (lit "Model did not return code.")], Ret tt).
Proof.
  refine (proj2 (database_no_code table format_exc_short VNone VNone tt)
            (Some (lit "  ")) _).
  vm_compute; reflexivity.
Defined.

End ExecutorMore.

(** ** The key line and the saved file *)

Module BuilderMore.
Import Py PyFacts Runtime Notions BuildAgent Fixtures.

Lemma key_line_contains (tail : str) :
  contains (lit "USER_GEMINI_KEY = " ++ tail) (lit "USER_GEMINI_KEY") = true.
Proof. exact (contains_app [] (lit "USER_GEMINI_KEY") (lit " = " ++ tail)). Qed.

(** The key line is put in front of the code at most once: the result
    ends with the code as it was, names [USER_GEMINI_KEY] whenever a key
    was asked for and given, and is left alone by a second pass. *)
Theorem with_key_once (req_ai : bool) (gemini_api_key cleaned : str) :
  with_key req_ai gemini_api_key (with_key req_ai gemini_api_key cleaned)
  = with_key req_ai gemini_api_key cleaned
  /\ (exists line, with_key req_ai gemini_api_key cleaned = line ++ cleaned)
  /\ (req_ai = true -> gemini_api_key <> [] ->
      contains (with_key req_ai gemini_api_key cleaned) (lit "USER_GEMINI_KEY") = true).
Proof.
  unfold with_key.
  destruct (contains cleaned (lit "USER_GEMINI_KEY")) eqn:Hnamed.
  - rewrite andb_false_r, Hnamed, andb_false_r.
    split; [reflexivity|]. split; [exists []; reflexivity|]. intros _ _. reflexivity.
  - rewrite andb_true_r.
    destruct (req_ai && negb (eqb gemini_api_key [])) eqn:Hasked.
    + rewrite (key_line_contains ([34] ++ gemini_api_key ++ [34; 10; 10] ++ cleaned)). simpl.
      split; [reflexivity|]. split.
      * eexists (lit "USER_GEMINI_KEY = " ++ [34] ++ gemini_api_key ++ [34; 10; 10]).
        rewrite <- !app_assoc. reflexivity.
      * intros _ _. reflexivity.
    + simpl.
      split; [reflexivity|]. split; [exists []; reflexivity|].
      intros -> Hkey. simpl in Hasked. apply negb_false_iff in Hasked.
      apply bool_decide_eq_true in Hasked. contradiction.
Qed.

Lemma tmp_differs (path : str) : path ++ lit ".tmp" <> path.
Proof.
  intros Heq. apply (f_equal (@length N)) in Heq.
  rewrite length_app in Heq. simpl in Heq. lia.
Qed.

Section Callback.
Variable os_path_join : str -> str -> str.
Variable open_fault : str -> option exn.
Variable replace_fault : str -> str -> option exn.
Variables agents_dir code_to_save : str.

Abbreviation target st := (final_path os_path_join agents_dir st).
Abbreviation save st :=
  (_save_agent_callback os_path_join open_fault replace_fault agents_dir code_to_save st).

Lemma save_proceeds (st : state) :
  (files st !! target st = None \/ default false (form_overwrite (ss st)) = true) ->
  bool_decide (is_Some (files st !! target st))
  && negb (default false (form_overwrite (ss st))) = false.
Proof.
  intros [Hnone|Hflag].
  - rewrite Hnone. rewrite bool_decide_eq_false_2; [reflexivity|].
    intros [x Hx]. discriminate Hx.
  - rewrite Hflag. apply andb_false_r.
Qed.

(** A save that goes through changes one file only: the target holds the
    code, the temporary file is gone, every other file is as before; the
    session is marked as saved under the sanitised name and carries no
    error. *)
Theorem save_changes_one_file (st : state) :
  (files st !! target st = None \/ default false (form_overwrite (ss st)) = true) ->
  open_fault (target st ++ lit ".tmp") = None ->
  replace_fault (target st ++ lit ".tmp") (target st) = None ->
  exists st',
    save st = (st', [], Ret tt)
    /\ files st' !! target st = Some code_to_save
    /\ files st' !! (target st ++ lit ".tmp") = None
    /\ (forall path, path <> target st -> path <> target st ++ lit ".tmp" ->
          files st' !! path = files st !! path)
    /\ agent_saved (ss st') = true
    /\ agent_saved_path (ss st')
       = lit "./agents/" ++ sanitize_filename (default [] (form_agent_name (ss st)))
         ++ lit ".py"
    /\ agent_save_error (ss st') = [].
Proof.
  intros Hfree Hopen Hreplace. pose proof (save_proceeds st Hfree) as Hgo.
  unfold final_path in *.
  unfold _save_agent_callback, bind, get, try_except, write_file, os_replace.
  rewrite Hopen, Hreplace.
  set (path := os_path_join agents_dir _) in *.
  rewrite Hgo. cbn. unfold bind, get, put. cbn.
  rewrite lookup_insert_eq. cbn.
  eexists. split; [reflexivity|]. cbn.
  split; [apply lookup_insert_eq|].
  split.
  { rewrite lookup_insert_ne by (intros Heq; exact (tmp_differs path (eq_sym Heq))).
    apply lookup_delete_eq. }
  split; [|repeat split].
  intros other Hfinal Htmp.
  rewrite lookup_insert_ne by (intros Heq; apply Hfinal; symmetry; exact Heq).
  rewrite lookup_delete_ne by (intros Heq; apply Htmp; symmetry; exact Heq).
  apply lookup_insert_ne. intros Heq; apply Htmp; symmetry; exact Heq.
Qed.

(** A save that fails reports the fault in the session and does not mark
    the agent as saved.  When the temporary file cannot be opened, no file
    changes.  When the rename fails, the target is as before and the
    temporary file stays behind with the code. *)
Theorem save_failure (st : state) (e : exn) :
  (files st !! target st = None \/ default false (form_overwrite (ss st)) = true) ->
  exn_is_Exception e = true ->
  (open_fault (target st ++ lit ".tmp") = Some e ->
   exists st',
     save st = (st', [], Ret tt)
     /\ files st' = files st
     /\ agent_save_error (ss st') = lit "Error saving agent: " ++ exn_str e
     /\ agent_saved (ss st') = agent_saved (ss st))
  /\ (open_fault (target st ++ lit ".tmp") = None ->
      replace_fault (target st ++ lit ".tmp") (target st) = Some e ->
      exists st',
        save st = (st', [], Ret tt)
        /\ files st' = <[target st ++ lit ".tmp" := code_to_save]> (files st)
        /\ files st' !! target st = files st !! target st
        /\ agent_save_error (ss st') = lit "Error saving agent: " ++ exn_str e
        /\ agent_saved (ss st') = agent_saved (ss st)).
Proof.
  intros Hfree He. pose proof (save_proceeds st Hfree) as Hgo.
  unfold final_path in *.
  set (path := os_path_join agents_dir _) in *.
  split.
  - intros Hopen.
    unfold _save_agent_callback, bind, get, try_except, write_file, os_replace.
    fold path. rewrite Hgo, Hopen. cbn. rewrite He. cbn.
    eexists. split; [reflexivity|]. cbn. repeat split.
  - intros Hopen Hreplace.
    unfold _save_agent_callback, bind, get, try_except, write_file, os_replace.
    fold path. rewrite Hgo, Hopen, Hreplace. cbn. rewrite He. cbn.
    eexists. split; [reflexivity|]. cbn. split; [reflexivity|].
    split; [|split; reflexivity].
    apply lookup_insert_ne. exact (tmp_differs path).
Qed.

End Callback.

Lemma save_changes_one_file_witness :
  let st := {| ss := session_with (lit "my agent") true; files := disk |} in
  exists st',
    _save_agent_callback posix_join no_open_fault no_replace_fault
      (lit "/app/agents") (lit "print(2)") st = (st', [], Ret tt)
    /\ files st' !! lit "/app/agents/my_agent.py" = Some (lit "print(2)").
Proof.
  intros st.
  destruct (save_changes_one_file posix_join no_open_fault no_replace_fault
              (lit "/app/agents") (lit "print(2)") st
              (or_intror eq_refl) eq_refl eq_refl)
    as (st' & Hrun & Hfile & _).
  exists st'. split; [exact Hrun|exact Hfile].
Defined.

Lemma save_failure_witness :
  let st := {| ss := session_with (lit "my agent") true; files := disk |} in
  exists st',
    _save_agent_callback posix_join no_open_fault Scenarios.no_rename
      (lit "/app/agents") (lit "print(2)") st = (st', [], Ret tt)
    /\ files st' !! lit "/app/agents/my_agent.py" = Some (lit "print(1)")
    /\ files st' !! lit "/app/agents/my_agent.py.tmp" = Some (lit "print(2)").
Proof.
  intros st.
  destruct (proj2 (save_failure posix_join no_open_fault Scenarios.no_rename
                     (lit "/app/agents") (lit "print(2)") st
                     (OSError (lit "[Errno 13] Permission denied"))
                     (or_intror eq_refl) eq_refl) eq_refl eq_refl)
    as (st' & Hrun & Hfiles & Hfinal & _).
  exists st'. split; [exact Hrun|]. split.
  - etransitivity; [exact Hfinal|]. vm_compute; reflexivity.
  - rewrite Hfiles. apply lookup_insert_eq.
Defined.

Lemma with_key_once_witness :
  contains (with_key true (lit "k-1") (lit "x = 1")) (lit "USER_GEMINI_KEY") = true.
Proof.
  refine (proj2 (proj2 (with_key_once true (lit "k-1") (lit "x = 1"))) eq_refl _).
  intros Hnil. vm_compute in Hnil. discriminate Hnil.
Defined.

End BuilderMore.

(** ** Starting and stopping processes *)

Module MarketMore.
Import Py Runtime Notions AgentMarketPlace Fixtures.
Local Open Scope handler_scope.

Lemma contained_bind {S A B} (m : M S A) (k : A -> M S B) (s : S) :
  contained (m s) -> (forall a s1, contained (k a s1)) -> contained (bind m k s).
Proof.
  unfold contained, bind. intros Hm Hk.
  destruct (m s) as [[s1 log1] [a|e]]; simpl in *; [|exact Hm].
  specialize (Hk a s1). destruct (k a s1) as [[s2 log2] r]. exact Hk.
Qed.

Lemma contained_try_except {S A} (body : M S A) (handler : exn -> M S A) (s : S) :
  (forall e s1, contained (handler e s1)) -> contained (try_except body handler s).
Proof.
  unfold contained, try_except. intros Hhandler.
  destruct (body s) as [[s1 log1] [a|e]]; simpl; [exact I|].
  destruct (exn_is_Exception e) eqn:He; simpl; [|exact He].
  specialize (Hhandler e s1). destruct (handler e s1) as [[s2 log2] r]. exact Hhandler.
Qed.

Lemma contained_ret {S A} (a : A) (s : S) : contained (ret a s).
Proof. exact I. Qed.

Section Processes.
Context {OS : Type} (H : host OS).

(** [start_agent_process] never fails with an [Exception]: it returns an
    entry and leaves the registry alone.  The entry either holds the
    process with its process id and no error, or holds no process, no
    process id and the text of the error. *)
Theorem start_agent_process_entry (path : str) (use_streamlit : bool) (st : state OS) :
  contained (start_agent_process H path use_streamlit st)
  /\ forall st' log e,
       start_agent_process H path use_streamlit st = (st', log, Ret e) ->
       agent_processes st' = agent_processes st
       /\ ((exists p, proc e = Some p /\ pid e = Some (popen_pid p) /\ error e = None)
           \/ (proc e = None /\ pid e = None /\ terminal e = false
               /\ is_Some (error e))).
Proof.
  split.
  - unfold start_agent_process. apply contained_bind.
    + unfold try_open_in_terminal. apply contained_try_except.
      intros e s1. apply contained_ret.
    + intros [p|] s1; [apply contained_ret|].
      apply contained_try_except. intros e s2. apply contained_ret.
  - intros st' log e Hstart.
    split; [exact (MarketFacts.keeps_start_agent_process H _ _ _ _ _ _ Hstart)|].
    unfold start_agent_process, bind in Hstart.
    destruct (try_open_in_terminal H _ st) as [[s1 log1] [[p|]|ex]].
    + inversion Hstart. subst. left. exists p. repeat split.
    + unfold try_except, bind, lift, sys, ret in Hstart.
      destruct (shlex_split H _) as [argv|ex].
      * destruct (Popen_detached H argv (os s1)) as [os' [p|ex]].
        -- inversion Hstart. subst. left. exists p. repeat split.
        -- destruct (exn_is_Exception ex); inversion Hstart. subst.
           right. repeat split. eexists. reflexivity.
      * destruct (exn_is_Exception ex); inversion Hstart. subst.
        right. repeat split. eexists. reflexivity.
    + inversion Hstart.
Qed.

(** [stop_agent_process] lets no [Exception] out, and for an entry
    without a process and without a process id it answers [False] without
    touching the process table. *)
Theorem stop_agent_process_safe (e : entry) (st : state OS) :
  contained (stop_agent_process H e st)
  /\ (proc e = None -> pid_truthy (pid e) = false ->
      stop_agent_process H e st = (st, [], Ret false)).
Proof.
  split.
  - unfold stop_agent_process. apply contained_try_except. intros ex s1.
    apply contained_try_except. intros ex' s2. apply contained_ret.
  - intros Hproc Hpid. unfold stop_agent_process, try_except.
    rewrite Hproc, Hpid. reflexivity.
Qed.

(** When the graceful attempt on a process raises an [Exception], the
    process is killed instead: the answer is [True] if the kill goes
    through and [False] if it raises an [Exception] as well. *)
Theorem stop_agent_process_escalates (e : entry) (p : popen) (st : state OS)
    (os1 os2 : OS) (ex : exn) :
  proc e = Some p ->
  graceful_attempt_raises H p (os st) os1 ex ->
  exn_is_Exception ex = true ->
  (popen_kill H p os1 = (os2, Ret tt) ->
   stop_agent_process H e st = (Build_state (agent_processes st) os2, [], Ret true))
  /\ (forall ex', popen_kill H p os1 = (os2, Raise ex') -> exn_is_Exception ex' = true ->
      stop_agent_process H e st = (Build_state (agent_processes st) os2, [], Ret false)).
Proof.
  intros Hproc Hfirst Hex. unfold graceful_attempt_raises in Hfirst.
  assert (Hbody :
    forall (k : M (state OS) bool),
      try_except
        ((if posix H
          then bind (sys (os_getpgid H (popen_pid p)))
                    (fun pgid => sys (os_killpg H pgid SIGTERM))
          else sys (popen_terminate H p)) >> ret true) (fun _ => k) st
      = k (Build_state (agent_processes st) os1)).
  { intros k. unfold try_except, bind, sys, ret.
    destruct (posix H).
    - destruct Hfirst as [Hpg|(os0 & pgid & Hpg & Hsig)].
      + rewrite Hpg. cbn. rewrite Hex.
        destruct (k _) as [[s2 log2] r]. reflexivity.
      + rewrite Hpg. cbn. rewrite Hsig. cbn. rewrite Hex.
        destruct (k _) as [[s2 log2] r]. reflexivity.
    - rewrite Hfirst. cbn. rewrite Hex.
      destruct (k _) as [[s2 log2] r]. reflexivity. }
  unfold stop_agent_process. rewrite Hproc, Hbody.
  split.
  - intros Hkill. unfold try_except, bind, sys, ret. cbn. rewrite Hkill. reflexivity.
  - intros ex' Hkill Hex'. unfold try_except, bind, sys, ret. cbn.
    rewrite Hkill. cbn. rewrite Hex'. reflexivity.
Qed.

(** A start that fails is recorded all the same: the entry with the
    error and without a process id is stored under the agent's name, the
    status line reads as running, and since such an entry does not count as
    running a Stop click only warns and leaves it in place. *)
Theorem failed_start_is_recorded (name path : str) (use_streamlit : bool)
    (st st1 : state OS) (log1 : list event) (e : entry) (c : N) (msg : str) :
  running (agent_processes st) name = false ->
  start_agent_process H path use_streamlit st = (st1, log1, Ret e) ->
  error e = Some (c :: msg) ->
  pid e = None ->
  let st' := Build_state (<[name := e]> (agent_processes st)) (os st1) in
  let status := st_info (lit "Running " ++ [8212]
                         ++ lit " process started (no PID available)") in
  run_controls H name path use_streamlit true false st
  = (st', log1 ++ [st_error (lit "Failed to start agent: " ++ c :: msg); status], Ret tt)
  /\ run_controls H name path use_streamlit false true st'
     = (st', [st_warning (lit "Agent is not running."); status], Ret tt).
Proof.
  intros Hidle Hstart Herror Hpid st' status.
  pose proof (MarketFacts.keeps_start_agent_process H _ _ _ _ _ _ Hstart) as Hreg.
  split.
  - unfold run_controls, bind, get. rewrite Hidle.
    unfold on_run, bind. rewrite Hstart.
    unfold set_registry, modify, emit, ret, show_status, bind, get.
    rewrite Herror. cbn. rewrite lookup_insert_eq, Hpid, Hreg. cbn.
    rewrite <- !app_assoc. reflexivity.
  - unfold run_controls, bind, get, running. subst st'. cbn.
    rewrite lookup_insert_eq, Hpid. cbn.
    unfold show_status, bind, get, emit. cbn.
    rewrite lookup_insert_eq, Hpid. reflexivity.
Qed.

(** Run, then Stop: a started process is recorded under the agent's
    name and counts as running; when it is stopped with success, the
    registry is again what it was without that name. *)
Theorem run_then_stop (name path : str) (use_streamlit : bool)
    (st st1 : state OS) (log1 : list event) (e : entry) :
  running (agent_processes st) name = false ->
  start_agent_process H path use_streamlit st = (st1, log1, Ret e) ->
  error e = None ->
  pid_truthy (pid e) = true ->
  let started := Build_state (<[name := e]> (agent_processes st)) (os st1) in
  (run_controls H name path use_streamlit true false st).1.1 = started
  /\ running (agent_processes started) name = true
  /\ forall st2 log2,
       stop_agent_process H e started = (st2, log2, Ret true) ->
       (run_controls H name path use_streamlit false true started).1.1
       = Build_state (delete name (agent_processes st)) (os st2).
Proof.
  intros Hidle Hstart Herror Hpid started.
  pose proof (MarketFacts.keeps_start_agent_process H _ _ _ _ _ _ Hstart) as Hreg.
  assert (Hrunning : running (agent_processes started) name = true).
  { unfold running. subst started. cbn. rewrite lookup_insert_eq. exact Hpid. }
  split; [|split; [exact Hrunning|]].
  - unfold run_controls, bind, get. rewrite Hidle.
    unfold on_run, bind. rewrite Hstart.
    unfold set_registry, modify, emit, ret, show_status, bind, get.
    rewrite Herror, Hpid. cbn. rewrite lookup_insert_eq, Hpid, Hreg. reflexivity.
  - intros st2 log2 Hstop.
    pose proof (MarketFacts.keeps_stop_agent_process H _ _ _ _ _ Hstop) as Hkept.
    unfold run_controls, bind, get. rewrite Hrunning.
    unfold on_stop, ret, bind, get. cbn.
    rewrite lookup_insert_eq. cbn. rewrite Hstop.
    unfold emit, set_registry, modify, show_status, bind, get. cbn.
    rewrite lookup_delete_eq. cbn. rewrite Hkept. cbn.
    rewrite delete_insert_eq. reflexivity.
Qed.

End Processes.

Lemma stop_agent_process_escalates_witness :
  let gone := {| pid := Some 1000; proc := Some {| popen_pid := 1000 |};
                 cmd := lit "/usr/bin/python3 /m/bot.py";
                 terminal := false; error := None |} in
  let st := Build_state {[ lit "bot" := gone ]} ([] : list N) in
  graceful_attempt_raises headless_linux {| popen_pid := 1000 |} (os st) []
    (OSError (lit "[Errno 3] No such process"))
  /\ stop_agent_process headless_linux gone st = (st, [], Ret true).
Proof.
  intros gone st.
  assert (Hfirst : graceful_attempt_raises headless_linux {| popen_pid := 1000 |} (os st) []
                     (OSError (lit "[Errno 3] No such process")))
    by (left; vm_compute; reflexivity).
  split; [exact Hfirst|].
  refine (proj1 (stop_agent_process_escalates headless_linux gone {| popen_pid := 1000 |}
                   st [] [] (OSError (lit "[Errno 3] No such process"))
                   eq_refl Hfirst eq_refl) _).
  vm_compute; reflexivity.
Defined.

Lemma failed_start_is_recorded_witness :
  let st := Build_state (∅ : gmap str entry) ([] : list N) in
  let e := {| pid := None; proc := None; cmd := lit "/usr/bin/python3 /m/bot.py";
              terminal := false;
              error := Some (lit "[Errno 11] Resource temporarily unavailable") |} in
  let st' := Build_state (<[lit "bot" := e]> (agent_processes st)) [] in
  run_controls Scenarios.locked_linux (lit "bot") (lit "/m/bot.py") false false true st'
  = (st', [st_warning (lit "Agent is not running.");
           st_info (lit "Running " ++ [8212] ++ lit " process started (no PID available)")],
     Ret tt).
Proof.
  intros st e st'.
  assert (Hstart : start_agent_process Scenarios.locked_linux (lit "/m/bot.py") false st
                   = (st, [], Ret e)) by (vm_compute; reflexivity).
  exact (proj2 (failed_start_is_recorded Scenarios.locked_linux (lit "bot") (lit "/m/bot.py")
                  false st st [] e 91 (lit "Errno 11] Resource temporarily unavailable")
                  eq_refl Hstart eq_refl eq_refl)).
Defined.

Lemma run_then_stop_witness :
  let st := Build_state (∅ : gmap str entry) ([] : list N) in
  let e := {| pid := Some 1000; proc := Some {| popen_pid := 1000 |};
              cmd := lit "/usr/bin/python3 /m/bot.py";
              terminal := false; error := None |} in
  let started := Build_state (<[lit "bot" := e]> (agent_processes st)) [1000] in
  (run_controls headless_linux (lit "bot") (lit "/m/bot.py") false true false st).1.1
  = started
  /\ running (agent_processes started) (lit "bot") = true
  /\ (run_controls headless_linux (lit "bot") (lit "/m/bot.py") false false true started).1.1
     = Build_state (delete (lit "bot") (agent_processes st)) [].
Proof.
  intros st e started.
  assert (Hstart : start_agent_process headless_linux (lit "/m/bot.py") false st
                   = (Build_state (agent_processes st) [1000], [], Ret e))
    by (vm_compute; reflexivity).
  destruct (run_then_stop headless_linux (lit "bot") (lit "/m/bot.py") false st _ _ e
              eq_refl Hstart eq_refl eq_refl) as (Hrun & Hrunning & Hstop).
  split; [exact Hrun|]. split; [exact Hrunning|].
  apply (Hstop (Build_state (<[lit "bot" := e]> (agent_processes st)) []) []).
  vm_compute; reflexivity.
Defined.

Lemma start_agent_process_entry_witness :
  let st := Build_state (∅ : gmap str entry) ([] : list N) in
  let e := {| pid := Some 1000; proc := Some {| popen_pid := 1000 |};
              cmd := lit "/usr/bin/python3 /m/bot.py";
              terminal := false; error := None |} in
  start_agent_process headless_linux (lit "/m/bot.py") false st
  = (Build_state (agent_processes st) [1000], [], Ret e)
  /\ agent_processes (Build_state (agent_processes st) [1000]) = agent_processes st.
Proof.
  intros st e.
  assert (Hstart : start_agent_process headless_linux (lit "/m/bot.py") false st
                   = (Build_state (agent_processes st) [1000], [], Ret e))
    by (vm_compute; reflexivity).
  split; [exact Hstart|].
  exact (proj1 (proj2 (start_agent_process_entry headless_linux (lit "/m/bot.py") false st)
                  _ _ e Hstart)).
Defined.

Lemma stop_agent_process_safe_witness :
  let st := Build_state (∅ : gmap str entry) ([] : list N) in
  stop_agent_process headless_linux empty_entry st = (st, [], Ret false).
Proof.
  intros st.
  exact (proj2 (stop_agent_process_safe headless_linux empty_entry st) eq_refl eq_refl).
Defined.

End MarketMore.

(** ** More on the fence extraction of the builder pages *)

Module FenceMore.
Import Py PyFacts Runtime Builder.

Lemma close_is_not_open (line : str) : is_close line = true -> is_open line = false.
Proof.
  unfold is_close, is_open, eqb. intros Hclose.
  apply bool_decide_eq_true in Hclose. rewrite Hclose. vm_compute; reflexivity.
Qed.

Lemma open_contains_backticks (line : str) :
  is_open line = true -> contains line (lit "```") = true.
Proof.
  unfold is_open. intros Hopen.
  destruct (startswith_app _ _ Hopen) as [rest Hrest].
  destruct (strip_infix line) as (a & b & Hline).
  rewrite Hline, Hrest.
  change (lit "```python") with (lit "```" ++ lit "python").
  rewrite <- !app_assoc. apply contains_app.
Qed.

(** Before an opening line was seen, lines that open nothing are passed
    over, closing lines included. *)
Lemma scan_before (pre rest : list str) (i : nat) :
  Forall (fun line => is_open line = false) pre ->
  scan i (pre ++ rest) None None = scan (i + length pre) rest None None.
Proof.
  intros Hpre. revert i. induction Hpre as [|line pre Hline _ IH]; intros i; simpl.
  - f_equal. lia.
  - rewrite Hline, andb_false_r. simpl. rewrite IH. f_equal. lia.
Qed.

(** After an opening line, plain lines are passed over up to the first
    closing line. *)
Lemma scan_inside (inner : list str) (closing : str) (post : list str) (i k : nat) :
  Forall (fun line => is_open line = false /\ is_close line = false) inner ->
  is_close closing = true ->
  scan i (inner ++ closing :: post) (Some k) None = (Some k, Some (i + length inner)%nat).
Proof.
  intros Hinner Hclosing. revert i.
  induction Hinner as [|line inner [Hopen Hclose] _ IH]; intros i; simpl.
  - rewrite (close_is_not_open closing Hclosing), Hclosing.
    simpl. do 2 f_equal. lia.
  - rewrite Hopen, Hclose. simpl. rewrite IH. do 2 f_equal. lia.
Qed.

(** The block both builder pages cut out: after lines that open
    nothing, the first line starting with [```python], then lines that
    neither open nor close, then a line that is exactly three backticks.
    The code kept is what stands between the two, joined by newlines;
    everything before and after is dropped. *)
Theorem fenced_block_is_extracted (code : str) (pre : list str) (opening : str)
    (inner : list str) (closing : str) (post : list str) :
  splitlines code = pre ++ opening :: inner ++ closing :: post ->
  Forall (fun line => is_open line = false) pre ->
  is_open opening = true ->
  Forall (fun line => is_open line = false /\ is_close line = false) inner ->
  is_close closing = true ->
  extract_fenced code = join nl inner
  /\ BuildAgent.cleaned_code code = join nl inner
  /\ MultiAgentSystem.cleaned_code (Some code) = join nl inner.
Proof.
  intros Hlines Hpre Hopening Hinner Hclosing.
  assert (Hticks : contains code (lit "```") = true).
  { apply (contains_line code opening).
    - rewrite Hlines. apply in_or_app. right. left. reflexivity.
    - apply open_contains_backticks, Hopening. }
  assert (Hcut : extract_fenced code = join nl inner).
  { unfold extract_fenced. rewrite Hticks, Hlines.
    rewrite (scan_before pre _ 0 Hpre). simpl. rewrite Hopening.
    rewrite (scan_inside inner closing post _ _ Hinner Hclosing).
    replace (length pre <? S (length pre) + length inner)%nat with true
      by (symmetry; apply Nat.ltb_lt; lia).
    unfold slice.
    replace (S (length pre) + length inner - S (length pre))%nat with (length inner) by lia.
    rewrite ExtractorMore.drop_past.
    rewrite take_app_length. reflexivity. }
  split; [exact Hcut|]. split; [exact Hcut|].
  unfold MultiAgentSystem.cleaned_code.
  destruct code as [|c code]; [discriminate Hticks|exact Hcut].
Qed.

Lemma fenced_block_is_extracted_witness :
  let code := join nl [lit "```"; lit "Sure:"; lit "```python"; lit "x = 1"; lit "```"; lit "Bye"] in
  extract_fenced code = join nl [lit "x = 1"].
Proof.
  intros code.
  refine (proj1 (fenced_block_is_extracted code [lit "```"; lit "Sure:"] (lit "```python")
                   [lit "x = 1"] (lit "```") [lit "Bye"] _ _ _ _ _)).
  - vm_compute; reflexivity.
  - vm_compute; repeat constructor.
  - vm_compute; reflexivity.
  - vm_compute; repeat constructor.
  - vm_compute; reflexivity.
Defined.

End FenceMore.

(** ** What the clicks check *)

Module ClickFacts.
Import Py PyFacts Runtime Notions Clicks.
Local Open Scope handler_scope.

Lemma key_differs (a b : str) : bool_decide (a = b) = false -> a <> b.
Proof. intros Hne Heq. apply bool_decide_eq_false in Hne. contradiction. Qed.


Section Database.
Context {W : Type} (I : interpreter (page W)) (S : services W).
Variable format_exc : exn -> str.
Variable missing_key : str -> str.



(** The database page asks the model and runs code only when a client
    exists, the session holds a connection and a cursor, the safety box
    is ticked and the request is not blank: whenever a click executed
    something or changed anything at all, be it the world outside, the
    session or the environment, all of these held. *)
Theorem run_click_gate (client_ready acknowledge : bool) (op : str)
    (pg pg' : page W) (log : list event) (r : res unit) :
  run_click I S format_exc client_ready acknowledge op pg = (pg', log, r) ->
  exec_calls log <> [] \/ pg' <> pg ->
  client_ready = true /\ acknowledge = true /\ strip op <> []
  /\ is_Some (session_state pg !! lit "connection")
  /\ is_Some (session_state pg !! lit "cursor").
Proof.
  intros Hrun Hdone. unfold run_click, bind, get, emit in Hrun.
  set (prompt := database_prompt op) in Hrun. clearbody prompt.
  destruct client_ready; cbn in Hrun.
  2:{ inversion Hrun. subst. destruct Hdone as [Hc|Hc]; contradiction. }
  destruct (bool_decide (is_Some (session_state pg !! lit "connection"))) eqn:Hconn;
    cbn in Hrun.
  2:{ inversion Hrun. subst. destruct Hdone as [Hc|Hc]; contradiction. }
  destruct (bool_decide (is_Some (session_state pg !! lit "cursor"))) eqn:Hcur;
    cbn in Hrun.
  2:{ inversion Hrun. subst. destruct Hdone as [Hc|Hc]; contradiction. }
  destruct acknowledge; cbn in Hrun.
  2:{ inversion Hrun. subst. destruct Hdone as [Hc|Hc]; contradiction. }
  destruct (strip op) as [|c rest] eqn:Hop.
  { inversion Hrun. subst. destruct Hdone as [Hc|Hc]; contradiction. }
  apply bool_decide_eq_true in Hconn. apply bool_decide_eq_true in Hcur.
  repeat split; try assumption. discriminate.
Qed.


(** With one of the five variables unset or empty, the Connect button
    makes no connection attempt: state and world are as before and the
    page names the variables it needs. *)
Theorem connect_click_missing (pg : page W) :
  forallb env_truthy
    [environ pg !! lit "user"; environ pg !! lit "password"; environ pg !! lit "host";
     environ pg !! lit "port"; environ pg !! lit "dbname"] = false ->
  connect_click S format_exc pg
  = (pg, [st_error (lit "Missing one or more required env vars: user, password, host, port, dbname.")],
     Ret tt).
Proof.
  intros Hmissing. unfold connect_click, try_except, bind, get.
  rewrite Hmissing. reflexivity.
Qed.


(** Closing and then asking again: after a close that went through,
    connection and cursor are gone from the session and the next
    "Generate & Run" only asks to connect first.  When closing the cursor
    fails, the session keeps both. *)
Theorem close_click_outcomes (pg : page W) (connection cursor : value) :
  session_state pg !! lit "connection" = Some connection ->
  session_state pg !! lit "cursor" = Some cursor ->
  (forall w1 w2,
      cursor_close S cursor (world pg) = (w1, Ret tt) ->
      connection_close S connection w1 = (w2, Ret tt) ->
      let pg' := Build_page (environ pg)
                   (delete (lit "connection") (delete (lit "cursor") (session_state pg))) w2 in
      close_click S missing_key pg = (pg', [st_success (lit "Connection closed.")], Ret tt)
      /\ forall acknowledge op,
           run_click I S format_exc true acknowledge op pg'
           = (pg', [st_error (lit "Please connect to the database first.")], Ret tt))
  /\ (forall w1 e,
      cursor_close S cursor (world pg) = (w1, Raise e) -> exn_is_Exception e = true ->
      close_click S missing_key pg
      = (Build_page (environ pg) (session_state pg) w1,
         [st_error (lit "Error closing connection: " ++ exn_str e)], Ret tt)).
Proof.
  intros Hconn Hcur. split.
  - intros w1 w2 Hclose1 Hclose2 pg'. split.
    + unfold close_click, bind, get. rewrite Hconn.
      unfold try_except, session_item, bind, get, call, on_world, set_session, modify,
        emit, ret.
      rewrite Hcur. cbn. rewrite Hclose1. cbn. rewrite Hconn. cbn. rewrite Hclose2.
      reflexivity.
    + intros acknowledge op. unfold run_click, bind, get, emit. subst pg'. cbn.
      rewrite lookup_delete_eq. cbn. reflexivity.
  - intros w1 e Hclose He.
    unfold close_click, bind, get. rewrite Hconn.
    unfold try_except, session_item, bind, get, call, on_world, set_session, modify,
      emit, ret.
    rewrite Hcur. cbn. rewrite Hclose. cbn. rewrite He. reflexivity.
Qed.

(** Overriding the environment and then connecting: the connection is
    asked for with exactly the five values typed in, and on success the
    session holds the connection and its cursor. *)
Theorem override_then_connect (user_env host_env db_env port_env pw_env : str)
    (pg : page W) (w1 w2 : W) (connection cursor : value) :
  user_env <> [] -> host_env <> [] -> db_env <> [] -> port_env <> [] -> pw_env <> [] ->
  psycopg2_connect S user_env pw_env host_env port_env db_env (world pg)
  = (w1, Ret connection) ->
  connection_cursor S connection w1 = (w2, Ret cursor) ->
  exists env',
    bind (override_environment user_env host_env db_env port_env pw_env)
         (fun _ => connect_click S format_exc) pg
    = (Build_page env'
         (<[lit "cursor" := cursor]> (<[lit "connection" := connection]> (session_state pg)))
         w2,
       [st_info (lit "Environment variables updated for this process.");
        st_success (lit "Connection successful!")],
       Ret tt)
    /\ env' !! lit "user" = Some user_env /\ env' !! lit "password" = Some pw_env.
Proof.
  intros Huser Hhost Hdb Hport Hpw Hconnect Hcursor.
  eexists. split.
  - unfold bind at 1. unfold override_environment, bind, modify, emit.
    unfold connect_click, try_except, bind, get, call, on_world, set_session, modify, emit.
    cbn [environ session_state world].
    repeat first
      [ rewrite lookup_insert_eq
      | rewrite lookup_insert_ne by (apply key_differs; vm_compute; reflexivity) ].
    destruct user_env, host_env, db_env, port_env, pw_env; try contradiction.
    cbn [forallb env_truthy negb andb default from_option id environ session_state world].
    rewrite Hconnect. cbn [environ session_state world]. rewrite Hcursor. reflexivity.
  - cbn [environ]. split.
    + repeat first
        [ rewrite lookup_insert_eq
        | rewrite lookup_insert_ne by (apply key_differs; vm_compute; reflexivity) ].
      reflexivity.
    + apply lookup_insert_eq.
Qed.

End Database.

Lemma override_then_connect_witness :
  exists pg',
    (bind (override_environment (lit "postgres") (lit "db.local") (lit "school")
             (lit "5432") (lit "secret"))
          (fun _ => connect_click Desk.local_services Snippets.format_exc_short)
          Desk.fresh).1.1 = pg'
    /\ session_state pg' !! lit "cursor" = Some (VObject 11).
Proof.
  destruct (override_then_connect Desk.local_services Snippets.format_exc_short
              (lit "postgres") (lit "db.local") (lit "school") (lit "5432") (lit "secret")
              Desk.fresh tt tt (VObject 10) (VObject 11)
              ltac:(discriminate) ltac:(discriminate) ltac:(discriminate)
              ltac:(discriminate) ltac:(discriminate) eq_refl eq_refl)
    as (env' & Hrun & _).
  eexists. split.
  - rewrite Hrun. reflexivity.
  - apply lookup_insert_eq.
Defined.

Lemma run_click_gate_witness :
  exists log,
    run_click Desk.page_table Desk.local_services Snippets.format_exc_short
      true true (lit "list two rows") Desk.connected = (Desk.connected, log, Ret tt)
    /\ exec_calls log = [Snippets.assign_result]
    /\ is_Some (session_state Desk.connected !! lit "connection").
Proof.
  eexists. split; [vm_compute; reflexivity|]. split; [vm_compute; reflexivity|].
  refine (proj1 (proj2 (proj2 (proj2 (run_click_gate Desk.page_table Desk.local_services
            Snippets.format_exc_short true true (lit "list two rows")
            Desk.connected Desk.connected _ (Ret tt) _ _))))).
  - vm_compute; reflexivity.
  - left. intros Hnil. vm_compute in Hnil. discriminate Hnil.
Defined.

(** A snippet reaches the session: one that deletes the cursor leaves a
    connection without a cursor behind. *)
Example snippet_can_unpair :
  exists pg' log,
    run_click Desk.reaching Desk.dropping_services Snippets.format_exc_short
      true true (lit "drop the cursor") Desk.connected = (pg', log, Ret tt)
    /\ exec_calls log = [Desk.drop_cursor]
    /\ session_state pg' !! lit "connection" = Some (VObject 10)
    /\ session_state pg' !! lit "cursor" = None.
Proof.
  eexists _, _. split; [vm_compute; reflexivity|].
  split; [vm_compute; reflexivity|]. split; vm_compute; reflexivity.
Qed.

Lemma connect_click_missing_witness :
  connect_click Desk.local_services Snippets.format_exc_short Desk.fresh
  = (Desk.fresh,
     [st_error (lit "Missing one or more required env vars: user, password, host, port, dbname.")],
     Ret tt).
Proof.
  apply (connect_click_missing Desk.local_services Snippets.format_exc_short Desk.fresh).
  vm_compute; reflexivity.
Defined.

Lemma close_click_outcomes_witness :
  let closed := Build_page ∅
                  (delete (lit "connection")
                     (delete (lit "cursor") (session_state Desk.connected))) tt in
  close_click Desk.local_services Desk.missing_key_text Desk.connected
  = (closed, [st_success (lit "Connection closed.")], Ret tt)
  /\ run_click Desk.page_table Desk.local_services Snippets.format_exc_short
       true true (lit "list two rows") closed
     = (closed, [st_error (lit "Please connect to the database first.")], Ret tt).
Proof.
  intros closed.
  destruct (proj1 (close_click_outcomes Desk.page_table Desk.local_services
                     Snippets.format_exc_short Desk.missing_key_text Desk.connected
                     (VObject 10) (VObject 11)
                     ltac:(vm_compute; reflexivity) ltac:(vm_compute; reflexivity))
              tt tt eq_refl eq_refl) as [Hclose Hnext].
  split; [exact Hclose|exact (Hnext true (lit "list two rows"))].
Defined.


Section Visualisation.
Context {W : Type} (I : interpreter W).
Variable dedent : str -> str.
Variable savefig : value -> res value.
Variable pyplot : value -> res unit.
Variable generate_content : str -> W -> W * res str.
Variables columns_of dtypes_of : value -> str.

(** The visualisation page asks the model and runs code only for a
    prompt that is not empty and a DataFrame that was loaded. *)
Theorem visualization_click_gate (prompt : str) (df : value) (w w' : W)
    (log : list event) (r : res unit) :
  visualization_click I dedent savefig pyplot generate_content columns_of dtypes_of
    prompt df w = (w', log, r) ->
  exec_calls log <> [] \/ w' <> w ->
  prompt <> [] /\ df <> VNone.
Proof.
  intros Hrun Hdone. unfold visualization_click in Hrun.
  destruct prompt as [|c prompt].
  { inversion Hrun. subst. destruct Hdone as [Hc|Hc]; contradiction. }
  split; [discriminate|].
  intros ->. inversion Hrun. subst. destruct Hdone as [Hc|Hc]; contradiction.
Qed.

End Visualisation.

Lemma visualization_click_gate_witness :
  exists log,
    visualization_click Scenarios.plots Snippets.dedent_flush Snippets.savefig_ok
      Snippets.pyplot_ok Desk.drawing_model Desk.no_text Desk.no_text
      (lit "bar chart") (VFrame 1) tt = (tt, log, Ret tt)
    /\ exec_calls log = [Scenarios.fig_is_figure]
    /\ lit "bar chart" <> [] /\ VFrame 1 <> VNone.
Proof.
  eexists. split; [vm_compute; reflexivity|]. split; [vm_compute; reflexivity|].
  refine (visualization_click_gate Scenarios.plots Snippets.dedent_flush Snippets.savefig_ok
            Snippets.pyplot_ok Desk.drawing_model Desk.no_text Desk.no_text
            (lit "bar chart") (VFrame 1) tt tt _ (Ret tt) _ _).
  - vm_compute; reflexivity.
  - left. intros Hnil. vm_compute in Hnil. discriminate Hnil.
Defined.

Section Builder.
Variable open_fault : str -> option exn.
Variable generate_content : str -> res (option str).

(** Without a description nothing is asked of the model; and when the
    call fails, the page shows the error and stops the script.  In both
    cases the session and the files are as before. *)
Theorem generate_click_without_code (app_description : str)
    (req_rag req_mcp req_ai : bool) (key_field : str) (st : BuildAgent.state) :
  (strip app_description = [] ->
   generate_click open_fault generate_content app_description req_rag req_mcp req_ai
     key_field st
   = (st, [st_error (lit "Please enter a description first.")], Ret tt))
  /\ (forall e,
      strip app_description <> [] ->
      generate_content (full_prompt app_description req_rag req_mcp req_ai
                          (if req_ai then key_field else [])) = Raise e ->
      exn_is_Exception e = true ->
      generate_click open_fault generate_content app_description req_rag req_mcp req_ai
        key_field st
      = (st, [st_error (lit "Error generating app code: " ++ exn_str e)],
         Raise StopException)).
Proof.
  split.
  - intros Hblank. unfold generate_click. rewrite Hblank. reflexivity.
  - intros e Hdesc Hcall He. unfold generate_click.
    destruct (strip app_description); [contradiction|].
    rewrite Hcall, He. reflexivity.
Qed.

(** An answer without text is kept like any other: when no key line is
    due, the session copy becomes the empty string and [generated_app.py]
    is overwritten by an empty file. *)
Theorem empty_answer_overwrites_app (app_description : str)
    (req_rag req_mcp req_ai : bool) (key_field : str) (text : option str)
    (st : BuildAgent.state) :
  strip app_description <> [] ->
  (if req_ai then key_field else []) = [] ->
  generate_content (full_prompt app_description req_rag req_mcp req_ai []) = Ret text ->
  strip (default [] text) = [] ->
  open_fault (lit "generated_app.py") = None ->
  exists st' log,
    generate_click open_fault generate_content app_description req_rag req_mcp req_ai
      key_field st = (st', log, Ret tt)
    /\ BuildAgent.generated_code (BuildAgent.ss st') = Some []
    /\ BuildAgent.files st' !! lit "generated_app.py" = Some []
    /\ forall path, path <> lit "generated_app.py" ->
          BuildAgent.files st' !! path = BuildAgent.files st !! path.
Proof.
  intros Hdesc Hkey Hcall Hblank Hopen. unfold generate_click.
  destruct (strip app_description); [contradiction|].
  rewrite Hkey, Hcall, Hblank.
  unfold BuildAgent.keep_generated, BuildAgent.write_file, BuildAgent.set_session,
    BuildAgent.with_key, BuildAgent.cleaned_code.
  rewrite Hopen.
  replace (req_ai && negb (eqb [] []) && negb (contains (Builder.extract_fenced []) (lit "USER_GEMINI_KEY")))
    with false by (destruct req_ai; reflexivity).
  cbn. eexists _, _. split; [reflexivity|]. cbn.
  split; [reflexivity|]. split; [apply lookup_insert_eq|].
  intros path Hpath. apply lookup_insert_ne. intros Heq. apply Hpath. symmetry. exact Heq.
Qed.

End Builder.

Lemma empty_answer_overwrites_app_witness :
  let st := {| BuildAgent.ss := Desk.empty_session; BuildAgent.files := Desk.earlier_app |} in
  exists st' log,
    generate_click Fixtures.no_open_fault Desk.silent_model (lit "a clock") false false false
      [] st = (st', log, Ret tt)
    /\ BuildAgent.files st' !! lit "generated_app.py" = Some [].
Proof.
  intros st.
  destruct (empty_answer_overwrites_app Fixtures.no_open_fault Desk.silent_model
              (lit "a clock") false false false [] None st
              ltac:(intros Hnil; vm_compute in Hnil; discriminate Hnil)
              eq_refl eq_refl eq_refl eq_refl)
    as (st' & log & Hrun & _ & Hfile & _).
  exists st', log. split; [exact Hrun|exact Hfile].
Defined.

Section MultiAgent.
Variable open_fault : str -> option exn.
Variable generate_content : str -> res (option str).

(** When the model gives nothing to the multi-agent page, because the
    call failed or the answer has no text, the page keeps the fixed
    fallback text as the generated code and writes it to
    [generated_app.py]; a failed call is reported first. *)
Theorem submit_falls_back (selected : list str) (connection_prompt : str) (st : multi) :
  selected <> [] ->
  strip connection_prompt <> [] ->
  open_fault (lit "generated_app.py") = None ->
  let st' := {| generated_multi_agent := Some MultiAgentSystem.fallback_template;
                multi_files := <[lit "generated_app.py" := MultiAgentSystem.fallback_template]>
                                 (multi_files st) |} in
  let shown := [st_subheader ([128313] ++ lit " Generated Code");
                st_code MultiAgentSystem.fallback_template;
                st_success ([9989] ++ lit " App saved as `generated_app.py`")] in
  (forall e,
      generate_content (orchestrator_prompt selected connection_prompt) = Raise e ->
      exn_is_Exception e = true ->
      submit open_fault generate_content selected connection_prompt st
      = (st', st_error (lit "Error generating orchestrator: " ++ exn_str e) :: shown, Ret tt))
  /\ (forall text,
      generate_content (orchestrator_prompt selected connection_prompt) = Ret text ->
      strip (default [] text) = [] ->
      submit open_fault generate_content selected connection_prompt st
      = (st', shown, Ret tt)).
Proof.
  intros Hselected Hprompt Hopen st' shown. subst st' shown.
  destruct selected as [|name selected]; [contradiction|].
  split.
  - intros e Hcall He. unfold submit.
    destruct (strip connection_prompt) eqn:Hstrip; [contradiction|].
    set (prompt := orchestrator_prompt _ _) in *. clearbody prompt.
    unfold try_except, bind, lift, ret, emit, modify, write_generated.
    rewrite Hcall, Hopen. cbn. rewrite He. reflexivity.
  - intros text Hcall Hblank. unfold submit.
    destruct (strip connection_prompt) eqn:Hstrip; [contradiction|].
    set (prompt := orchestrator_prompt _ _) in *. clearbody prompt.
    unfold try_except, bind, lift, ret, emit, modify, write_generated.
    rewrite Hcall, Hopen, Hblank. reflexivity.
Qed.

End MultiAgent.

Lemma submit_falls_back_witness :
  let st := {| generated_multi_agent := None; multi_files := Desk.earlier_app |} in
  exists st' log,
    submit Fixtures.no_open_fault Desk.failing_model [lit "a.py"] (lit "a feeds b") st
    = (st', log, Ret tt)
    /\ multi_files st' !! lit "generated_app.py" = Some MultiAgentSystem.fallback_template.
Proof.
  intros st. eexists _, _. split.
  - exact (proj1 (submit_falls_back Fixtures.no_open_fault Desk.failing_model
                    [lit "a.py"] (lit "a feeds b") st
                    ltac:(discriminate)
                    ltac:(intros Hnil; vm_compute in Hnil; discriminate Hnil) eq_refl)
             (OSError (lit "503 UNAVAILABLE")) eq_refl eq_refl).
  - apply lookup_insert_eq.
Defined.

(** A preview shows the first [max_chars] characters of the file: a
    file within the limit is shown whole, a longer one is cut there and
    followed by the notice, three dots and on a line of its own
    [(Preview truncated)], 23 characters in all.  A file that cannot be
    read gives a message in place of the text, never an [Exception]. *)
Theorem human_preview_bounded (read : res str) (max_chars : nat) :
  (forall text, read = Ret text ->
     exists shown,
       human_preview read max_chars = Ret shown
       /\ take max_chars shown = take max_chars text
       /\ (length text <= max_chars -> shown = text)%nat
       /\ ((max_chars < length text)%nat ->
           drop max_chars shown = lit "..." ++ [10] ++ lit "(Preview truncated)"
           /\ length shown = (max_chars + 23)%nat))
  /\ (forall e, read = Raise e -> exn_is_Exception e = true ->
      human_preview read max_chars = Ret (lit "Error reading file: " ++ exn_str e)).
Proof.
  split.
  - intros text ->. exists (preview_of text max_chars). split; [reflexivity|].
    unfold preview_of.
    destruct (Nat.ltb_spec max_chars (length text)) as [Hlong|Hshort].
    + split; [|split].
      * rewrite take_app_le by (rewrite length_take; lia).
        rewrite take_take. f_equal. lia.
      * intros Hle. lia.
      * intros _. split.
        -- apply drop_app_length'. rewrite length_take. lia.
        -- rewrite length_app, length_take.
           replace (length truncated_notice) with 23%nat by (vm_compute; reflexivity). lia.
    + rewrite app_nil_r. split; [|split].
      * rewrite take_take. f_equal. lia.
      * intros _. apply take_ge. exact Hshort.
      * intros Hlt. lia.
  - intros e -> He. unfold human_preview. rewrite He. reflexivity.
Qed.

Lemma generate_click_without_code_witness :
  let st := {| BuildAgent.ss := Desk.empty_session; BuildAgent.files := Desk.earlier_app |} in
  generate_click Fixtures.no_open_fault Desk.failing_model (lit "a clock") false false false
    [] st
  = (st, [st_error (lit "Error generating app code: " ++ lit "503 UNAVAILABLE")],
     Raise StopException).
Proof.
  intros st.
  refine (proj2 (generate_click_without_code Fixtures.no_open_fault Desk.failing_model
                   (lit "a clock") false false false [] st)
            (OSError (lit "503 UNAVAILABLE")) _ eq_refl eq_refl).
  intros Hnil. vm_compute in Hnil. discriminate Hnil.
Defined.

Lemma human_preview_bounded_witness :
  exists shown,
    human_preview (Ret (lit "abcdef")) 4 = Ret shown
    /\ take 4 shown = lit "abcd"
    /\ drop 4 shown = lit "..." ++ [10] ++ lit "(Preview truncated)".
Proof.
  destruct (proj1 (human_preview_bounded (Ret (lit "abcdef")) 4) (lit "abcdef") eq_refl)
    as (shown & Hshown & Hprefix & _ & Hlong).
  exists shown. split; [exact Hshown|]. split.
  - rewrite Hprefix. vm_compute; reflexivity.
  - apply Hlong. vm_compute; repeat constructor.
Defined.

End ClickFacts.
